(** * pill-reminder: schedule engine, streaks and compliance

    A shallow embedding of the logic-bearing code of the pill reminder
    (hooks [usePillSchedule], [usePills], [useStreak], [useLocalStorage],
    the time utilities and the compliance heatmap) together with the
    properties its specification states about it.

    Conventions of the embedding.
    - A JavaScript [Date] is the instant it denotes: its [getTime()] value,
      an integer number of milliseconds since the epoch (UTC).  A timestamp
      string stored in a log is identified with the instant [new Date(s)]
      parses it to.
    - Local wall-clock time is UTC shifted by a fixed offset [tz] (in
      milliseconds); daylight-saving changes are outside the model.
    - An optional field of a TypeScript interface is an [option]. *)

From stdpp Require Import gmap strings.
From Stdlib Require Import ZArith List Lia Bool Permutation Sorted QArith DecimalString.
From Stdlib Require DecimalPos DecimalZ.
Import ListNotations.

Local Open Scope Z_scope.

(** ** Time utilities (src/utils/time.ts and the [Date] methods the code calls) *)

Module Time.

Definition Instant := Z.

Definition MS_PER_SECOND : Z := 1000.
Definition MS_PER_MINUTE : Z := 60 * 1000.
Definition MS_PER_HOUR : Z := 1000 * 60 * 60.
Definition MS_PER_DAY : Z := 1000 * 60 * 60 * 24.

(** The calendar day an instant falls on, as a day number: in local time
    (what [toDateString], [getDate], [startOfDay] look at) ... *)
Definition localDay (tz : Z) (t : Instant) : Z := (t + tz) / MS_PER_DAY.

(** ... and in UTC (what [toISOString().split('T')[0]] looks at). *)
Definition utcDay (t : Instant) : Z := t / MS_PER_DAY.

(** [date.toDateString()]: the local calendar date. *)
Definition toDateString (tz : Z) (t : Instant) : Z := localDay tz t.

(** [date.toISOString().split('T')[0]]: the UTC calendar date. *)
Definition toISODate (t : Instant) : Z := utcDay t.

(** date-fns [startOfDay(d)], and [d.setHours(0, 0, 0, 0)]: local midnight. *)
Definition startOfDay (tz : Z) (t : Instant) : Instant :=
  localDay tz t * MS_PER_DAY - tz.

(** [d.setHours(h, m, 0, 0)]. *)
Definition setHours (tz : Z) (t : Instant) (h m : Z) : Instant :=
  startOfDay tz t + h * MS_PER_HOUR + m * MS_PER_MINUTE.

(** [d.setMinutes(d.getMinutes() + n)]. *)
Definition addMinutes (t : Instant) (n : Z) : Instant := t + n * MS_PER_MINUTE.

(** [d.setDate(d.getDate() - i)]. *)
Definition subDays (t : Instant) (i : Z) : Instant := t - i * MS_PER_DAY.

(** date-fns [differenceInDays(a, b)]: the number of full days between the
    two instants, truncated towards zero. *)
Definition differenceInDays (a b : Instant) : Z := Z.quot (a - b) MS_PER_DAY.

(** [formatDateTime(d)] is [format(d, 'yyyy-MM-dd HH:mm:ss')]: the local
    date and time down to the second.  The value is the instant that this
    string denotes when it is read back with [new Date(s)]. *)
Definition formatDateTime (tz : Z) (t : Instant) : Instant :=
  (t + tz) / MS_PER_SECOND * MS_PER_SECOND - tz.

(** A time of day ["HH:mm"] after [timeStr.split(':').map(Number)]. *)
Record TimeOfDay := { hours : Z; minutes : Z }.

(** [parseTimeString(timeStr)] evaluated at instant [now]. *)
Definition parseTimeString (tz : Z) (now : Instant) (timeStr : TimeOfDay) : Instant :=
  setHours tz now (hours timeStr) (minutes timeStr).

End Time.
Import Time.

(** ** Data model (src/types) *)

Inductive Status := taken | missed | snoozed | pending.

Definition Status_eqb (a b : Status) : bool :=
  match a, b with
  | taken, taken | missed, missed | snoozed, snoozed | pending, pending => true
  | _, _ => false
  end.

Record Pill := {
  pill_id : string;
  name : string;
  dosage : string;
  times : list TimeOfDay;
  color : option string;
  notes : option string
}.

(** [Partial<Pill>]: [None] is a key that is absent. *)
Record PillUpdates := {
  upd_id : option string;
  upd_name : option string;
  upd_dosage : option string;
  upd_times : option (list TimeOfDay);
  upd_color : option (option string);
  upd_notes : option (option string)
}.

Record PillLog := {
  log_id : string;
  pillId : string;
  scheduledTime : Instant;
  takenTime : option Instant;
  status : Status;
  snoozedUntil : option Instant
}.

Record StreakData := {
  current : nat;
  best : nat;
  lastTaken : option Instant
}.

(** JavaScript truthiness of an optional field. *)
Definition truthy {A} (o : option A) : bool :=
  match o with Some _ => true | None => false end.

(** The non-null assertion [log.takenTime!] followed by [new Date(...)]. *)
Definition takenTime_ (log : PillLog) : Instant :=
  match takenTime log with Some t => t | None => 0 end.

(** ** [Array.prototype.sort(compare)]

    The sort is stable; it is modelled by a stable insertion sort: an
    element is placed before the first element it does not compare above,
    so that it stays ahead of the later elements it ties with. *)

Section ArraySort.
Context {A : Type}.
Variable compare : A -> A -> Z.

Fixpoint insert (x : A) (l : list A) : list A :=
  match l with
  | [] => [x]
  | y :: r => if compare x y <=? 0 then x :: y :: r else y :: insert x r
  end.

Definition sort (l : list A) : list A := fold_right insert [] l.
End ArraySort.

(** ** [calculateStreak] (src/utils/time.ts) *)

Module TimeUtils.
Section WithZone.
Variable tz : Z.

(** The body of the [for] loop, from index [1] on. *)
Fixpoint streakLoop (currentDay : Instant) (streak : nat) (rest : list PillLog) : nat :=
  match rest with
  | [] => streak
  | log :: rest' =>
      let logDay := startOfDay tz (takenTime_ log) in
      let dayDiff := differenceInDays currentDay logDay in
      if dayDiff =? 1 then streakLoop logDay (S streak) rest'
      else if dayDiff >? 1 then streak
      else streakLoop currentDay streak rest'
  end.

Definition calculateStreak (logs : list PillLog) : nat :=
  if (length logs =? 0)%nat then 0%nat
  else
    let sortedLogs :=
      sort (fun a b => takenTime_ b - takenTime_ a)
           (List.filter (fun log => Status_eqb (status log) taken && truthy (takenTime log)) logs) in
    match sortedLogs with
    | [] => 0%nat
    | first :: rest => streakLoop (startOfDay tz (takenTime_ first)) 1 rest
    end.
End WithZone.
End TimeUtils.
Import TimeUtils.

(** ** The schedule engine [usePillSchedule] (src/hooks/usePillSchedule.ts)

    The hook keeps three values, each behind [useLocalStorage]: the pills,
    the logs and the last-schedule-date marker.  Every operation below is the
    state update the corresponding callback performs on the state of the
    render it was created in; persistence is treated with [useLocalStorage]
    further down. *)

Module UsePillSchedule.

(** The marker is a [toDateString()] value; [None] is the initial [''],
    which is no date. *)
Record State := {
  pills : list Pill;
  logs : list PillLog;
  lastScheduleDate : option Z
}.

Definition date_eqb (a b : option Z) : bool :=
  match a, b with
  | Some x, Some y => x =? y
  | None, None => true
  | _, _ => false
  end.

Section WithZone.
Variable tz : Z.

(** The log pushed for one pill and one of its times; [newLogs] is the
    array built so far and [uuidv4 k] the id returned by the [k]-th call
    of [uuidv4()] in this pass. *)
Definition pushLog (now : Instant) (uuidv4 : nat -> string) (pill : Pill)
    (newLogs : list PillLog) (timeStr : TimeOfDay) : list PillLog :=
  let scheduledTime := parseTimeString tz now timeStr in
  newLogs ++ [ {| log_id := uuidv4 (length newLogs);
                  pillId := pill_id pill;
                  scheduledTime := formatDateTime tz scheduledTime;
                  takenTime := None;
                  status := pending;
                  snoozedUntil := None |} ].

(** The body of the daily generation effect, run at instant [now]. *)
Definition generateDailyLogs (now : Instant) (uuidv4 : nat -> string) (s : State) : State :=
  let today := toDateString tz now in
  if negb (date_eqb (lastScheduleDate s) (Some today)) then
    let newLogs :=
      fold_left (fun newLogs pill =>
                   fold_left (pushLog now uuidv4 pill) (times pill) newLogs)
                (pills s) [] in
    {| pills := pills s;
       logs := logs s ++ newLogs;
       lastScheduleDate := Some today |}
  else s.

Definition addPill (uuid : string) (pill : Pill) (s : State) : State :=
  let newPill := {| pill_id := uuid; name := name pill; dosage := dosage pill;
                    times := times pill; color := color pill; notes := notes pill |} in
  {| pills := pills s ++ [newPill]; logs := logs s; lastScheduleDate := lastScheduleDate s |}.

(** [{ ...pill, ...updates }]: a key present in [updates] replaces the
    field. *)
Definition merge (pill : Pill) (updates : PillUpdates) : Pill :=
  {| pill_id := default (pill_id pill) (upd_id updates);
     name := default (name pill) (upd_name updates);
     dosage := default (dosage pill) (upd_dosage updates);
     times := default (times pill) (upd_times updates);
     color := default (color pill) (upd_color updates);
     notes := default (notes pill) (upd_notes updates) |}.

Definition updatePill (id : string) (updates : PillUpdates) (s : State) : State :=
  {| pills := map (fun pill => if String.eqb (pill_id pill) id then merge pill updates else pill)
                  (pills s);
     logs := logs s;
     lastScheduleDate := lastScheduleDate s |}.

Definition deletePill (id : string) (s : State) : State :=
  {| pills := List.filter (fun pill => negb (String.eqb (pill_id pill) id)) (pills s);
     logs := List.filter (fun log => negb (String.eqb (pillId log) id)) (logs s);
     lastScheduleDate := lastScheduleDate s |}.

Definition markPillTaken (now : Instant) (logId : string) (prev : list PillLog) : list PillLog :=
  map (fun log =>
         if String.eqb (log_id log) logId
         then {| log_id := log_id log; pillId := pillId log;
                 scheduledTime := scheduledTime log;
                 takenTime := Some (formatDateTime tz now);
                 status := taken;
                 snoozedUntil := snoozedUntil log |}
         else log) prev.

Definition snoozePill (now : Instant) (logId : string) (snoozeMinutes : Z)
    (prev : list PillLog) : list PillLog :=
  let snoozeUntil := addMinutes now snoozeMinutes in
  map (fun log =>
         if String.eqb (log_id log) logId
         then {| log_id := log_id log; pillId := pillId log;
                 scheduledTime := scheduledTime log;
                 takenTime := takenTime log;
                 status := snoozed;
                 snoozedUntil := Some (formatDateTime tz snoozeUntil) |}
         else log) prev.

Definition markPillMissed (logId : string) (prev : list PillLog) : list PillLog :=
  map (fun log =>
         if String.eqb (log_id log) logId
         then {| log_id := log_id log; pillId := pillId log;
                 scheduledTime := scheduledTime log;
                 takenTime := takenTime log;
                 status := missed;
                 snoozedUntil := snoozedUntil log |}
         else log) prev.

Definition getPendingLogs (logs : list PillLog) : list PillLog :=
  List.filter (fun log => Status_eqb (status log) pending || Status_eqb (status log) snoozed) logs.

Definition getTodayLogs (now : Instant) (logs : list PillLog) : list PillLog :=
  let today := toDateString tz now in
  List.filter (fun log => toDateString tz (scheduledTime log) =? today) logs.

(** [Math.max(currentStreak, ...allStreaks, 0)]. *)
Definition Math_max (xs : list nat) : nat := fold_right Nat.max 0%nat xs.

Definition streakData (logs : list PillLog) : StreakData :=
  let currentStreak := calculateStreak tz logs in
  let arr := List.filter (fun log => Status_eqb (status log) taken) logs in
  let allStreaks :=
    map (fun idx => calculateStreak tz (firstn (idx + 1) arr)) (seq 0 (length arr)) in
  let bestStreak := Math_max (currentStreak :: allStreaks ++ [0%nat]) in
  let lastTakenLog :=
    hd_error (sort (fun a b => takenTime_ b - takenTime_ a)
                   (List.filter (fun log => Status_eqb (status log) taken && truthy (takenTime log)) logs)) in
  {| current := currentStreak;
     best := bestStreak;
     lastTaken := match lastTakenLog with Some log => takenTime log | None => None end |}.

(** The three log mutations as events, to speak of sequences of them. *)
Inductive Mutation :=
| MarkTaken (now : Instant) (logId : string)
| Snooze (now : Instant) (logId : string) (snoozeMinutes : Z)
| MarkMissed (logId : string).

Definition mutate (prev : list PillLog) (m : Mutation) : list PillLog :=
  match m with
  | MarkTaken now logId => markPillTaken now logId prev
  | Snooze now logId n => snoozePill now logId n prev
  | MarkMissed logId => markPillMissed logId prev
  end.

Definition mutateAll (ms : list Mutation) (prev : list PillLog) : list PillLog :=
  fold_left mutate ms prev.
End WithZone.
End UsePillSchedule.

(** ** The hook used by the top-level [App]: [usePills] (src/hooks/usePills.ts) *)

Module UsePills.

Record State := {
  pills : list Pill;
  logs : list PillLog
}.

Definition deletePill (id : string) (s : State) : State :=
  {| pills := List.filter (fun p => negb (String.eqb (pill_id p) id)) (pills s);
     logs := List.filter (fun l => negb (String.eqb (pillId l) id)) (logs s) |}.

(** [uuid] is the value [crypto.randomUUID()] returns in the call, [now]
    the instant [new Date()] denotes ([toISOString] keeps it exactly). *)
Definition logPillTaken (uuid : string) (now : Instant) (pillId : string)
    (scheduledTime : Instant) (prev : list PillLog) : list PillLog :=
  let log := {| log_id := uuid; pillId := pillId; scheduledTime := scheduledTime;
                takenTime := Some now; status := taken; snoozedUntil := None |} in
  prev ++ [log].

Definition logPillMissed (uuid : string) (pillId : string)
    (scheduledTime : Instant) (prev : list PillLog) : list PillLog :=
  let log := {| log_id := uuid; pillId := pillId; scheduledTime := scheduledTime;
                takenTime := None; status := missed; snoozedUntil := None |} in
  prev ++ [log].

Definition snoozePill (uuid : string) (now : Instant) (pillId : string)
    (scheduledTime : Instant) (snoozeMinutes : Z) (prev : list PillLog) : list PillLog :=
  let snoozedUntil := addMinutes now snoozeMinutes in
  let log := {| log_id := uuid; pillId := pillId; scheduledTime := scheduledTime;
                takenTime := None; status := snoozed; snoozedUntil := Some snoozedUntil |} in
  prev ++ [log].

Inductive Mutation :=
| LogTaken (uuid : string) (now : Instant) (pillId : string) (scheduledTime : Instant)
| LogMissed (uuid : string) (pillId : string) (scheduledTime : Instant)
| Snooze (uuid : string) (now : Instant) (pillId : string) (scheduledTime : Instant)
         (snoozeMinutes : Z).

Definition mutate (prev : list PillLog) (m : Mutation) : list PillLog :=
  match m with
  | LogTaken u now p t => logPillTaken u now p t prev
  | LogMissed u p t => logPillMissed u p t prev
  | Snooze u now p t n => snoozePill u now p t n prev
  end.

Definition mutateAll (ms : list Mutation) (prev : list PillLog) : list PillLog :=
  fold_left mutate ms prev.

Definition drawn (m : Mutation) : string :=
  match m with
  | LogTaken u _ _ _ | LogMissed u _ _ | Snooze u _ _ _ _ => u
  end.
End UsePills.

(** ** [useStreak] (src/hooks/useStreak.ts), the streak shown by [App] *)

Module UseStreak.

(** The variables the [for] loop updates. *)
Record Loop := {
  tempStreak : nat;
  bestStreak : nat;
  lastDate : option Instant
}.

Definition start : Loop :=
  {| tempStreak := 0; bestStreak := 0; lastDate := None |}.

Section WithZone.
Variable tz : Z.

(** One iteration of [for (const log of sortedLogs)]. *)
Definition step (st : Loop) (log : PillLog) : Loop :=
  match status log with
  | taken =>
      let logDate := startOfDay tz (scheduledTime log) in
      let tempStreak' :=
        match lastDate st with
        | None => 1%nat
        | Some lastDate =>
            let daysDiff := (logDate - lastDate) / MS_PER_DAY in
            if daysDiff =? 0 then tempStreak st
            else if daysDiff =? 1 then S (tempStreak st)
            else 1%nat
        end in
      {| tempStreak := tempStreak';
         bestStreak := Nat.max (bestStreak st) tempStreak';
         lastDate := Some logDate |}
  | missed =>
      {| tempStreak := 0; bestStreak := bestStreak st; lastDate := lastDate st |}
  | _ => st
  end.

Definition sortedLogs (logs : list PillLog) : list PillLog :=
  sort (fun a b => scheduledTime a - scheduledTime b) logs.

Definition loop (logs : list PillLog) : Loop :=
  fold_left step (sortedLogs logs) start.

Definition useStreak (now : Instant) (logs : list PillLog) : StreakData :=
  if (length logs =? 0)%nat then {| current := 0; best := 0; lastTaken := None |}
  else
    let st := loop logs in
    let now0 := startOfDay tz now in
    let currentStreak :=
      match lastDate st with
      | Some lastDate =>
          let daysSinceLastTaken := (now0 - lastDate) / MS_PER_DAY in
          if daysSinceLastTaken <=? 1 then tempStreak st else 0%nat
      | None => 0%nat
      end in
    let lastTaken :=
      match hd_error (sort (fun a b => takenTime_ b - takenTime_ a)
                           (List.filter (fun l => Status_eqb (status l) taken && truthy (takenTime l)) logs)) with
      | Some l => takenTime l
      | None => None
      end in
    {| current := currentStreak; best := bestStreak st; lastTaken := lastTaken |}.
End WithZone.
End UseStreak.

(** ** The compliance heatmap (src/components/ComplianceHeatmap.tsx)

    The ratios are JavaScript numbers in the source; here they are exact
    rationals. *)

Module ComplianceHeatmap.

Record DayData := {
  date : Instant;
  dateStr : Z;
  takenCount : nat;
  missedCount : nat;
  total : nat;
  compliance : Q
}.

(** [total > 0 ? (taken / total) * 100 : 0]. *)
Definition ratio (taken total : nat) : Q :=
  if (0 <? total)%nat
  then (inject_Z (Z.of_nat taken) / inject_Z (Z.of_nat total) * 100)%Q
  else 0%Q.

Section WithZone.
Variable tz : Z.

(** One iteration of the [for] loop, for the day [i] days before today;
    [today] is local midnight of the current day. *)
Definition dayData (today : Instant) (logs : list PillLog) (i : nat) : DayData :=
  let date := subDays today (Z.of_nat i) in
  let dateStr := toISODate date in
  let dayLogs :=
    List.filter (fun log => toISODate (scheduledTime log) =? dateStr) logs in
  let taken := length (List.filter (fun log => Status_eqb (status log) taken) dayLogs) in
  let missed := length (List.filter (fun log => Status_eqb (status log) missed) dayLogs) in
  let total := (taken + missed)%nat in
  {| date := date; dateStr := dateStr; takenCount := taken; missedCount := missed;
     total := total; compliance := ratio taken total |}.

(** [i] runs from [daysToShow - 1] down to [0]. *)
Definition heatmapData (now : Instant) (logs : list PillLog) (daysToShow : nat)
  : list DayData :=
  let today := startOfDay tz now in
  map (dayData today logs) (rev (seq 0 daysToShow)).
End WithZone.

(** [const hasData = day.total > 0]. *)
Definition hasData (day : DayData) : bool := (0 <? total day)%nat.

Definition getColorClass (compliance : Q) (hasData : bool) : string :=
  if negb hasData then "bg-gray-700"
  else if Qeq_bool compliance 100 then "bg-green-500"
  else if Qle_bool 80 compliance then "bg-green-400"
  else if Qle_bool 60 compliance then "bg-yellow-500"
  else if Qle_bool 40 compliance then "bg-orange-500"
  else if negb (Qle_bool compliance 0) then "bg-red-500"
  else "bg-red-700".

Definition overallCompliance (logs : list PillLog) : Q :=
  let totalLogs :=
    List.filter (fun l => Status_eqb (status l) taken || Status_eqb (status l) missed) logs in
  let takenLogs := List.filter (fun l => Status_eqb (status l) taken) logs in
  ratio (length takenLogs) (length totalLogs).
End ComplianceHeatmap.

(** ** The persistent store

    [window.localStorage] is the browser's string store.  Its [setItem]
    throws when the write would exceed the quota; [used] counts the
    characters of the keys and values held. *)

Module LocalStorage.

Record Storage := {
  items : gmap string string;
  quota : nat
}.

Definition used (m : gmap string string) : nat :=
  map_fold (fun k v n => (String.length k + String.length v + n)%nat) 0%nat m.

Definition getItem (s : Storage) (key : string) : option string :=
  items s !! key.

(** [None] when [setItem] throws. *)
Definition setItem (s : Storage) (key value : string) : option Storage :=
  let m := <[key := value]> (items s) in
  if (used m <=? quota s)%nat then Some {| items := m; quota := quota s |} else None.

End LocalStorage.

(** ** [useLocalStorage] (src/hooks/useLocalStorage.ts)

    The callbacks run in a state made of the React state cell
    ([storedValue]), the browser store and the console.  A computation
    either returns or throws; what it did to the state before throwing
    stays done, which is what [try]/[catch] is modelled with. *)

Module UseLocalStorage.
Import LocalStorage.

Section Hook.
Context {T : Type}.

Record World := {
  storedValue : T;
  storage : Storage;
  console : list string
}.

(** State and exception monad: [None] is a thrown exception. *)
Definition M (A : Type) : Type := World -> option A * World.

Definition ret {A} (a : A) : M A := fun w => (Some a, w).
Definition bind {A B} (m : M A) (k : A -> M B) : M B :=
  fun w => match m w with
           | (Some a, w') => k a w'
           | (None, w') => (None, w')
           end.
Definition try_catch (body : M unit) (handler : M unit) : M unit :=
  fun w => match body w with
           | (Some u, w') => (Some u, w')
           | (None, w') => handler w'
           end.

Definition setStoredValue (v : T) : M unit :=
  fun w => (Some tt, {| storedValue := v; storage := storage w; console := console w |}).
Definition localStorage_setItem (key value : string) : M unit :=
  fun w => match setItem (storage w) key value with
           | Some s => (Some tt, {| storedValue := storedValue w; storage := s; console := console w |})
           | None => (None, w)
           end.
Definition console_error (msg : string) : M unit :=
  fun w => (Some tt, {| storedValue := storedValue w; storage := storage w;
                        console := console w ++ [msg] |}).
Definition JSON_parse (parse : string -> option T) (s : string) : M T :=
  fun w => (parse s, w).

Variable stringify : T -> string.
Variable parse : string -> option T.
Variable key : string.
Variable initialValue : T.

(** The initialiser of [useState]. *)
Definition initialise (s : Storage) (c : list string) : World :=
  match getItem s key with
  | Some item =>
      if (String.length item =? 0)%nat
      then {| storedValue := initialValue; storage := s; console := c |}
      else match parse item with
           | Some v => {| storedValue := v; storage := s; console := c |}
           | None => {| storedValue := initialValue; storage := s;
                        console := c ++ ["Error loading localStorage key"%string] |}
           end
  | None => {| storedValue := initialValue; storage := s; console := c |}
  end.

(** [setValue(value)]; [value] is a new value or an updater function. *)
Definition setValue (value : T + (T -> T)) : M unit :=
  try_catch
    (fun w =>
       let valueToStore :=
         match value with inr f => f (storedValue w) | inl v => v end in
       bind (setStoredValue valueToStore)
            (fun _ => localStorage_setItem key (stringify valueToStore)) w)
    (console_error "Error saving to localStorage key").


(** The listener for [storage] events of other tabs. *)
Definition handleStorageChange (e_key : string) (e_newValue : option string) : M unit :=
  match e_newValue with
  | Some newValue =>
      if String.eqb e_key key
      then try_catch (bind (JSON_parse parse newValue) setStoredValue)
                     (console_error "Error parsing storage event for key")
      else ret tt
  | None => ret tt
  end.
End Hook.
End UseLocalStorage.

(** ** The reminders listed by [App] (src/App.tsx) *)

Module App.

(** [pendingReminders]: the logs still pending or snoozed, earliest
    scheduled time first. *)
Definition pendingReminders (logs : list PillLog) : list PillLog :=
  sort (fun a b => scheduledTime a - scheduledTime b)
       (List.filter (fun log => Status_eqb (status log) pending
                                || Status_eqb (status log) snoozed) logs).

(** The cards drawn by [pendingReminders.map]: a reminder whose pill is
    not found draws nothing. *)
Definition reminderCards (pills : list Pill) (logs : list PillLog) : list (Pill * PillLog) :=
  flat_map (fun log =>
              match find (fun p => String.eqb (pill_id p) (pillId log)) pills with
              | Some pill => [(pill, log)]
              | None => []
              end)
           (pendingReminders logs).
End App.

(** ** [useSettings] (src/hooks/useSettings.ts), on top of [useLocalStorage] *)

Inductive Intensity := quiet | normal | loud.

Module UseSettings.
Import LocalStorage UseLocalStorage.

Record AppSettings := {
  highContrast : bool;
  notificationIntensity : Intensity;
  enableVibration : bool;
  snoozeMinutes : Z
}.

(** [Partial<AppSettings>]. *)
Record SettingsUpdates := {
  upd_highContrast : option bool;
  upd_notificationIntensity : option Intensity;
  upd_enableVibration : option bool;
  upd_snoozeMinutes : option Z
}.


(** [{ ...prev, ...updates }]. *)
Definition merge (prev : AppSettings) (updates : SettingsUpdates) : AppSettings :=
  {| highContrast := default (highContrast prev) (upd_highContrast updates);
     notificationIntensity :=
       default (notificationIntensity prev) (upd_notificationIntensity updates);
     enableVibration := default (enableVibration prev) (upd_enableVibration updates);
     snoozeMinutes := default (snoozeMinutes prev) (upd_snoozeMinutes updates) |}.

Definition key : string := "app-settings".

Section Hook.
Variable stringify : AppSettings -> string.






End Hook.
End UseSettings.

(** ** Times of day and countdowns (src/utils/time.ts) *)

(** [String(n)] for an integer [n]. *)
Definition Number_toString (z : Z) : string := NilZero.string_of_int (Z.to_int z).

Module TimeDisplay.

(** [d.getHours()] and [d.getMinutes()]: local time. *)
Definition getHours (tz : Z) (t : Instant) : Z := ((t + tz) mod MS_PER_DAY) / MS_PER_HOUR.
Definition getMinutes (tz : Z) (t : Instant) : Z := ((t + tz) mod MS_PER_HOUR) / MS_PER_MINUTE.

(** [formatTime(d)] is [format(d, 'HH:mm')]; the value is the pair of
    numbers [parseTimeString] reads back out of that text. *)
Definition formatTime (tz : Z) (t : Instant) : TimeOfDay :=
  {| hours := getHours tz t; minutes := getMinutes tz t |}.

(** [now] is the instant [new Date()] denotes in the call. *)
Definition isTimePast (now scheduledTime : Instant) : bool := scheduledTime <? now.

Definition isTimeUpcoming (now scheduledTime : Instant) (minutesWindow : Z) : bool :=
  let windowEnd := addMinutes now minutesWindow in
  (now <? scheduledTime) && (scheduledTime <? windowEnd).

Definition getTimeUntilNext (now scheduledTime : Instant) : string :=
  let diff := scheduledTime - now in
  if diff <=? 0 then "Now"
  else
    let hours := diff / (1000 * 60 * 60) in
    let minutes := (diff mod (1000 * 60 * 60)) / (1000 * 60) in
    if 0 <? hours
    then String.append (Number_toString hours)
           (String.append "h " (String.append (Number_toString minutes) "m"))
    else String.append (Number_toString minutes) "m".
End TimeDisplay.

(** ** The rows and cells the heatmap draws (src/components/ComplianceHeatmap.tsx) *)

Module HeatmapGrid.
Import ComplianceHeatmap.

(** [arr.slice(start, end)] for indexes that are not negative. *)
Definition slice {A : Type} (start end_ : nat) (arr : list A) : list A :=
  firstn (end_ - start) (skipn start arr).

(** The loop [for (let i = 0; i < heatmapData.length; i += 7)], from index
    [i] on; the loop runs at most [heatmapData.length] times. *)
Fixpoint weeksLoop (fuel i : nat) (heatmapData : list DayData) : list (list DayData) :=
  match fuel with
  | O => []
  | S fuel' =>
      if (i <? length heatmapData)%nat
      then slice i (i + 7) heatmapData :: weeksLoop fuel' (i + 7) heatmapData
      else []
  end.

Definition weeksData (heatmapData : list DayData) : list (list DayData) :=
  weeksLoop (length heatmapData) 0 heatmapData.

(** The colour class of a cell. *)
Definition cellColor (day : DayData) : string :=
  getColorClass (compliance day) (hasData day).
End HeatmapGrid.

(** ** Notifications (src/utils/notifications.ts)

    The browser is a record: the permission of the Notification API (absent
    when the API is), whether a service worker controls the page, the
    pending timers of [setTimeout], the notifications shown and the
    warnings printed.  [userChoice] is what the user answers when
    [Notification.requestPermission()] has to ask.  The promises of the
    source are run to completion where they are created. *)

Module Notifications.

Inductive NotificationPermission := granted | denied | undecided.

Definition Intensity_eqb (a b : Intensity) : bool :=
  match a, b with
  | quiet, quiet | normal, normal | loud, loud => true
  | _, _ => false
  end.

Record NotificationOptions := {
  body : option string;
  tag : option string;
  requireInteraction : option bool;
  silent : option bool;
  vibrate : option (list Z)
}.

(** The parameter [options] of [showNotification]. *)
Record ShowOptions := {
  notificationOptions : NotificationOptions;
  intensity : option Intensity
}.

Inductive Channel := ViaServiceWorker | ViaNotification.

Record Shown := {
  channel : Channel;
  title : string;
  notifOptions : NotificationOptions
}.

(** What the callback given to [setTimeout] closes over. *)
Record Job := {
  job_pillName : string;
  job_scheduledTime : Instant;
  job_intensity : Intensity
}.

Record Timer := {
  timer_id : Z;
  due : Instant;
  job : Job
}.

Record Browser := {
  Notification_permission : option NotificationPermission;
  controller : bool;
  timers : list Timer;
  nextTimerId : Z;
  shown : list Shown;
  warnings : list string
}.

Definition console_warn (msg : string) (b : Browser) : Browser :=
  {| Notification_permission := Notification_permission b; controller := controller b;
     timers := timers b; nextTimerId := nextTimerId b; shown := shown b;
     warnings := warnings b ++ [msg] |}.

Definition display (n : Shown) (b : Browser) : Browser :=
  {| Notification_permission := Notification_permission b; controller := controller b;
     timers := timers b; nextTimerId := nextTimerId b; shown := shown b ++ [n];
     warnings := warnings b |}.

(** [Notification.requestPermission()]: the browser asks only while the
    permission is undecided. *)
Definition Notification_requestPermission (userChoice current : NotificationPermission)
    (b : Browser) : NotificationPermission * Browser :=
  match current with
  | undecided =>
      (userChoice,
       {| Notification_permission := Some userChoice; controller := controller b;
          timers := timers b; nextTimerId := nextTimerId b; shown := shown b;
          warnings := warnings b |})
  | p => (p, b)
  end.

(** [window.setTimeout(callback, delay)] at instant [now]. *)
Definition setTimeout (j : Job) (delay : Z) (now : Instant) (b : Browser) : Z * Browser :=
  (nextTimerId b,
   {| Notification_permission := Notification_permission b; controller := controller b;
      timers := timers b ++ [{| timer_id := nextTimerId b; due := now + delay; job := j |}];
      nextTimerId := nextTimerId b + 1; shown := shown b; warnings := warnings b |}).

Definition clearTimeout (id : Z) (b : Browser) : Browser :=
  {| Notification_permission := Notification_permission b; controller := controller b;
     timers := List.filter (fun t => negb (timer_id t =? id)) (timers b);
     nextTimerId := nextTimerId b; shown := shown b; warnings := warnings b |}.

Definition requestNotificationPermission (userChoice : NotificationPermission) (b : Browser)
  : NotificationPermission * Browser :=
  match Notification_permission b with
  | None => (denied, console_warn "This browser does not support notifications" b)
  | Some current => Notification_requestPermission userChoice current b
  end.

Definition showNotification (userChoice : NotificationPermission) (title : string)
    (options : ShowOptions) (b : Browser) : Browser :=
  let (permission, b) := requestNotificationPermission userChoice b in
  match permission with
  | granted =>
      let intensity := default normal (intensity options) in
      let notifOptions :=
        {| body := body (notificationOptions options);
           tag := tag (notificationOptions options);
           requireInteraction := Some true;
           silent := Some (Intensity_eqb intensity quiet);
           vibrate :=
             if negb (Intensity_eqb intensity quiet)
             then Some (if Intensity_eqb intensity loud
                        then [200; 100; 200; 100; 200]
                        else [200; 100; 200])
             else vibrate (notificationOptions options) |} in
      display {| channel := if controller b then ViaServiceWorker else ViaNotification;
                 title := title; notifOptions := notifOptions |} b
  | _ => console_warn "Notification permission not granted" b
  end.

(** The body shared by the two branches of [scheduleNotification]. *)
Definition notify (userChoice : NotificationPermission) (j : Job) (b : Browser) : Browser :=
  let tag :=
    String.append "pill-"
      (String.append (job_pillName j)
         (String.append "-" (Number_toString (job_scheduledTime j)))) in
  showNotification userChoice (String.append "Time to take " (job_pillName j))
    {| notificationOptions :=
         {| body := Some "Tap to confirm"%string; tag := Some tag;
            requireInteraction := None; silent := None; vibrate := None |};
       intensity := Some (job_intensity j) |} b.

Definition scheduleNotification (userChoice : NotificationPermission) (now : Instant)
    (pillName : string) (scheduledTime : Instant) (intensity : Intensity) (b : Browser)
  : Z * Browser :=
  let j := {| job_pillName := pillName; job_scheduledTime := scheduledTime;
              job_intensity := intensity |} in
  let delay := scheduledTime - now in
  if delay <=? 0 then (-1, notify userChoice j b)
  else setTimeout j delay now b.

Definition cancelNotification (timeoutId : Z) (b : Browser) : Browser :=
  if timeoutId >=? 0 then clearTimeout timeoutId b else b.

(** The browser runs the callback of a pending timer. *)
Definition runTimer (userChoice : NotificationPermission) (id : Z) (b : Browser) : Browser :=
  match find (fun t => timer_id t =? id) (timers b) with
  | Some t => notify userChoice (job t) (clearTimeout id b)
  | None => b
  end.
End Notifications.

(** ** [useNotifications] (src/hooks/useNotifications.ts) *)

Module UseNotifications.
Import Notifications.

Record Hook := {
  permission : NotificationPermission;
  scheduledNotifications : gmap string (list Z)
}.

Definition World : Type := Hook * Browser.

(** The initial state of the hook. *)
Definition mount (b : Browser) : World :=
  ({| permission := match Notification_permission b with Some p => p | None => denied end;
      scheduledNotifications := empty |}, b).

Definition requestPermission (userChoice : NotificationPermission) (w : World) : World :=
  let (h, b) := w in
  let (result, b) := requestNotificationPermission userChoice b in
  ({| permission := result; scheduledNotifications := scheduledNotifications h |}, b).

(** [checkPermission], run every second where the API exists. *)
Definition checkPermission (w : World) : World :=
  let (h, b) := w in
  match Notification_permission b with
  | Some p => ({| permission := p; scheduledNotifications := scheduledNotifications h |}, b)
  | None => w
  end.

Definition cancelEach (timeoutIds : list Z) (b : Browser) : Browser :=
  fold_left (fun b id => cancelNotification id b) timeoutIds b.

Section WithZone.
Variable tz : Z.

(** [pill.times.forEach(...)], threading [timeoutIds] and the browser. *)
Definition scheduleEach (userChoice : NotificationPermission) (now : Instant)
    (pillName : string) (intensity : Intensity) (times : list TimeOfDay) (b : Browser)
  : list Z * Browser :=
  fold_left
    (fun (acc : list Z * Browser) timeStr =>
       let (timeoutIds, b) := acc in
       let scheduledTime := parseTimeString tz now timeStr in
       let (timeoutId, b) :=
         scheduleNotification userChoice now pillName scheduledTime intensity b in
       (if timeoutId >=? 0 then timeoutIds ++ [timeoutId] else timeoutIds, b))
    times ([], b).

Definition scheduleForPill (userChoice : NotificationPermission) (now : Instant)
    (pill : Pill) (intensity : Intensity) (w : World) : World :=
  let (h, b) := w in
  match permission h with
  | granted =>
      let b :=
        match scheduledNotifications h !! pill_id pill with
        | Some existingTimeouts => cancelEach existingTimeouts b
        | None => b
        end in
      let (timeoutIds, b) := scheduleEach userChoice now (name pill) intensity (times pill) b in
      ({| permission := permission h;
          scheduledNotifications := <[pill_id pill := timeoutIds]> (scheduledNotifications h) |},
       b)
  | _ => (h, console_warn "Notification permission not granted" b)
  end.
End WithZone.

Definition cancelForPill (pillId : string) (w : World) : World :=
  let (h, b) := w in
  match scheduledNotifications h !! pillId with
  | Some timeoutIds =>
      ({| permission := permission h;
          scheduledNotifications := delete pillId (scheduledNotifications h) |},
       cancelEach timeoutIds b)
  | None => w
  end.

Definition cancelAll (w : World) : World :=
  let (h, b) := w in
  ({| permission := permission h; scheduledNotifications := empty |},
   map_fold (fun _ timeoutIds b => cancelEach timeoutIds b) b (scheduledNotifications h)).
End UseNotifications.

(** ** The swipe-to-confirm control (src/components/SwipeConfirm.tsx)

    Pixel coordinates are whole numbers, and every handler runs in the
    render that follows the previous event.  [confirmed] counts the calls
    of [onConfirm]. *)

Module SwipeConfirm.

Record State := {
  position : Z;
  isDragging : bool;
  isConfirmed : bool;
  startX : Z;
  confirmed : nat
}.

(** [offsetWidth] of the container and of the slider. *)
Record Layout := {
  containerWidth : Z;
  sliderWidth : Z
}.

Inductive Key := ArrowRight | ArrowLeft | Enter | Space | OtherKey.

Inductive Event :=
| Start (clientX : Z)
| Move (clientX : Z)
| End_
| KeyDown (key : Key)
| Timeout.


Definition maxPosition (l : Layout) : Z := containerWidth l - sliderWidth l.

(** [p >= maxPosition * CONFIRM_THRESHOLD], the threshold being 0.85. *)
Definition reaches_threshold (p maxPosition : Z) : bool := 17 * maxPosition <=? 20 * p.

Definition setPosition (p : Z) (s : State) : State :=
  {| position := p; isDragging := isDragging s; isConfirmed := isConfirmed s;
     startX := startX s; confirmed := confirmed s |}.

Definition setIsDragging (d : bool) (s : State) : State :=
  {| position := position s; isDragging := d; isConfirmed := isConfirmed s;
     startX := startX s; confirmed := confirmed s |}.

Definition setIsConfirmed (c : bool) (s : State) : State :=
  {| position := position s; isDragging := isDragging s; isConfirmed := c;
     startX := startX s; confirmed := confirmed s |}.

Definition onConfirm (s : State) : State :=
  {| position := position s; isDragging := isDragging s; isConfirmed := isConfirmed s;
     startX := startX s; confirmed := S (confirmed s) |}.

Section Component.
(** The two refs, once the component is mounted. *)
Variable refs : option Layout.
Variable resetAfterConfirm : bool.

Definition handleStart (clientX : Z) (s : State) : State :=
  if isConfirmed s then s
  else {| position := position s; isDragging := true; isConfirmed := isConfirmed s;
          startX := clientX - position s; confirmed := confirmed s |}.

Definition handleMove (clientX : Z) (s : State) : State :=
  if negb (isDragging s) || isConfirmed s then s
  else match refs with
       | None => s
       | Some l =>
           let newPosition := clientX - startX s in
           let newPosition := Z.max 0 (Z.min newPosition (maxPosition l)) in
           setPosition newPosition s
       end.

Definition handleEnd (s : State) : State :=
  if negb (isDragging s) || isConfirmed s then s
  else match refs with
       | None => s
       | Some l =>
           let s :=
             if reaches_threshold (position s) (maxPosition l)
             then onConfirm (setIsConfirmed true (setPosition (maxPosition l) s))
             else setPosition 0 s in
           setIsDragging false s
       end.

Definition handleKeyDown (key : Key) (s : State) : State :=
  if isConfirmed s then s
  else match refs with
       | None => s
       | Some l =>
           match key with
           | ArrowRight =>
               let newPosition := Z.min (position s + 20) (maxPosition l) in
               let s := setPosition newPosition s in
               if reaches_threshold newPosition (maxPosition l)
               then onConfirm (setIsConfirmed true (setPosition (maxPosition l) s))
               else s
           | ArrowLeft => setPosition (Z.max (position s - 20) 0) s
           | Enter | Space => onConfirm (setIsConfirmed true (setPosition (maxPosition l) s))
           | OtherKey => s
           end
       end.

(** The timer of the reset effect, 1500 ms after a confirmation. *)
Definition resetTimer (s : State) : State :=
  if isConfirmed s && resetAfterConfirm
  then setPosition 0 (setIsConfirmed false s)
  else s.

Definition step (s : State) (e : Event) : State :=
  match e with
  | Start x => handleStart x s
  | Move x => handleMove x s
  | End_ => handleEnd s
  | KeyDown k => handleKeyDown k s
  | Timeout => resetTimer s
  end.

Definition run (events : list Event) (s : State) : State := fold_left step events s.
End Component.
End SwipeConfirm.

(** ** The pill list of [usePills] (src/hooks/usePills.ts) *)

Module UsePillsCatalogue.

(** [uuid] is the value [crypto.randomUUID()] returns in the call. *)
Definition addPill (uuid : string) (pill : Pill) (s : UsePills.State) : UsePills.State :=
  let newPill := {| pill_id := uuid; name := name pill; dosage := dosage pill;
                    times := times pill; color := color pill; notes := notes pill |} in
  {| UsePills.pills := UsePills.pills s ++ [newPill]; UsePills.logs := UsePills.logs s |}.

Definition updatePill (id : string) (updates : PillUpdates) (s : UsePills.State)
  : UsePills.State :=
  {| UsePills.pills :=
       map (fun p => if String.eqb (pill_id p) id then UsePillSchedule.merge p updates else p)
           (UsePills.pills s);
     UsePills.logs := UsePills.logs s |}.
End UsePillsCatalogue.

(** ** The form for a pill (src/components/PillSchedule.tsx)

    The text of a time field is a time of day.  White space is that of
    ASCII. *)

Module PillSchedule.

Definition is_space (c : Ascii.ascii) : bool :=
  let n := Ascii.nat_of_ascii c in
  ((9 <=? n)%nat && (n <=? 13)%nat) || (n =? 32)%nat.

Fixpoint trimStart (s : string) : string :=
  match s with
  | EmptyString => EmptyString
  | String c r => if is_space c then trimStart r else s
  end.

Fixpoint trimEnd (s : string) : string :=
  match s with
  | EmptyString => EmptyString
  | String c r =>
      match trimEnd r with
      | EmptyString => if is_space c then EmptyString else String c EmptyString
      | r' => String c r'
      end
  end.

(** [s.trim()]. *)
Definition trim (s : string) : string := trimEnd (trimStart s).

(** JavaScript truthiness of a string. *)
Definition nonempty (s : string) : bool := negb (String.eqb s EmptyString).






Record Form := {
  name : string;
  dosage : string;
  times : list TimeOfDay;
  color : string;
  notes : string;
  saved : list Pill  (** the arguments of the calls of [onSave] *)
}.


Definition setTimes (newTimes : list TimeOfDay) (f : Form) : Form :=
  {| name := name f; dosage := dosage f; times := newTimes; color := color f;
     notes := notes f; saved := saved f |}.

Definition handleAddTime (f : Form) : Form :=
  setTimes (times f ++ [ {| hours := 12; minutes := 0 |} ]) f.

(** [times.filter((_, i) => i !== index)]. *)
Definition handleRemoveTime (index : nat) (f : Form) : Form :=
  setTimes
    (map snd
       (List.filter (fun it => negb (fst it =? index)%nat)
                    (combine (seq 0 (length (times f))) (times f))))
    f.

(** [newTimes[index] = value], for the index of a row that is drawn. *)
Definition handleTimeChange (index : nat) (value : TimeOfDay) (f : Form) : Form :=
  setTimes (<[index := value]> (times f)) f.

(** The pill given to [onSave]; it has no id yet. *)
Definition payload (f : Form) : Pill :=
  Build_Pill EmptyString (name f) (dosage f) (times f) (Some (color f)) (Some (notes f)).

Definition handleSubmit (f : Form) : Form :=
  if negb (nonempty (trim (name f))) || negb (nonempty (trim (dosage f)))
     || (length (times f) =? 0)%nat
  then f
  else {| name := name f; dosage := dosage f; times := times f; color := color f;
          notes := notes f; saved := saved f ++ [payload f] |}.

(** What the user can do with the form that is drawn: the inputs of the
    rows that exist, the Remove buttons when there is more than one row. *)
Inductive Event :=
| SetName (value : string)
| SetDosage (value : string)
| AddTime
| RemoveTime (index : nat)
| ChangeTime (index : nat) (value : TimeOfDay)
| SetColor (value : string)
| SetNotes (value : string)
| Submit.

Definition step (f : Form) (e : Event) : Form :=
  match e with
  | SetName v => {| name := v; dosage := dosage f; times := times f; color := color f;
                    notes := notes f; saved := saved f |}
  | SetDosage v => {| name := name f; dosage := v; times := times f; color := color f;
                      notes := notes f; saved := saved f |}
  | AddTime => handleAddTime f
  | RemoveTime index =>
      if (1 <? length (times f))%nat && (index <? length (times f))%nat
      then handleRemoveTime index f else f
  | ChangeTime index value =>
      if (index <? length (times f))%nat then handleTimeChange index value f else f
  | SetColor v => {| name := name f; dosage := dosage f; times := times f; color := v;
                     notes := notes f; saved := saved f |}
  | SetNotes v => {| name := name f; dosage := dosage f; times := times f; color := color f;
                     notes := v; saved := saved f |}
  | Submit => handleSubmit f
  end.

Definition run (events : list Event) (f : Form) : Form := fold_left step events f.
End PillSchedule.

(** * Specification-side definitions *)

(** ** The invariant of the data model

    [takenTime] is present exactly when the status is [taken], and
    [snoozedUntil] exactly when it is [snoozed]. *)

Definition log_invariant (log : PillLog) : Prop :=
  (takenTime log <> None <-> status log = taken) /\
  (snoozedUntil log <> None <-> status log = snoozed).

(** The half of it that the mutations keep: a [taken] log has its
    [takenTime], a [snoozed] log its [snoozedUntil]. *)
Definition log_fields_present (log : PillLog) : Prop :=
  (status log = taken -> takenTime log <> None) /\
  (status log = snoozed -> snoozedUntil log <> None).

(** ** Daily generation *)

(** What a reader of the log sees of a generated occurrence, its id apart. *)
Definition occurrence (log : PillLog) : string * Instant * Status * option Instant * option Instant :=
  (pillId log, scheduledTime log, status log, takenTime log, snoozedUntil log).

(** A time of day that exists on the clock. *)
Definition clock_time (t : TimeOfDay) : Prop :=
  0 <= hours t < 24 /\ 0 <= minutes t < 60.

(** The logs pushed for a list of (pill id, time) pairs, when [k] logs
    have been pushed before them in the pass. *)
Fixpoint pushed (tz : Z) (now : Instant) (uuidv4 : nat -> string) (k : nat)
    (occs : list (string * TimeOfDay)) : list PillLog :=
  match occs with
  | [] => []
  | (pid, t) :: r =>
      {| log_id := uuidv4 k; pillId := pid;
         scheduledTime := parseTimeString tz now t;
         takenTime := None; status := pending; snoozedUntil := None |}
      :: pushed tz now uuidv4 (S k) r
  end.

(** ** Compliance *)

(** The number of logs of status [st] scheduled on local day [d]. *)
Definition scheduled_on (tz : Z) (d : Z) (st : Status) (logs : list PillLog) : nat :=
  length (List.filter (fun log => (localDay tz (scheduledTime log) =? d)
                                  && Status_eqb (status log) st) logs).

(** ** Streaks: the reference definition *)

(** The calendar dates of the [takenTime]s of the logs with status [taken]. *)
Fixpoint taken_dates (tz : Z) (logs : list PillLog) : list Z :=
  match logs with
  | [] => []
  | log :: rest =>
      match status log, takenTime log with
      | taken, Some t => localDay tz t :: taken_dates tz rest
      | _, _ => taken_dates tz rest
      end
  end.

(** Same-day entries count once. *)
Definition distinct_dates (ds : list Z) : list Z := nodup Z.eq_dec ds.

(** Most recent date first. *)
Definition sort_descending (ds : list Z) : list Z := sort (fun a b => b - a) ds.

(** The number of dates consumed after [prev] while each next date is
    exactly one calendar day earlier than the one before. *)
Fixpoint consecutive_run (prev : Z) (ds : list Z) : nat :=
  match ds with
  | [] => 0%nat
  | d :: rest => if d =? prev - 1 then S (consecutive_run d rest) else 0%nat
  end.

(** The length of the streak that starts at the most recent of the dates. *)
Definition streak_of_dates (ds : list Z) : nat :=
  match sort_descending (distinct_dates ds) with
  | [] => 0%nat
  | d :: rest => S (consecutive_run d rest)
  end.

Definition calculateStreak_spec (tz : Z) (logs : list PillLog) : nat :=
  streak_of_dates (taken_dates tz logs).

(** ** Streaks: runs of consecutive days *)

(** The days [d], [d - 1], ..., [d - k + 1] all occur in [ds]. *)
Definition is_run (ds : list Z) (d : Z) (k : nat) : Prop :=
  forall i : nat, (i < k)%nat -> In (d - Z.of_nat i) ds.


Definition is_taken (log : PillLog) : bool := Status_eqb (status log) taken.




(** ** Notions used in the proofs *)

(** The loop of [calculateStreak] seen on day numbers. *)
Fixpoint walk_days (currentDay : Z) (streak : nat) (ds : list Z) : nat :=
  match ds with
  | [] => streak
  | d :: rest =>
      let dayDiff := currentDay - d in
      if dayDiff =? 1 then walk_days d (S streak) rest
      else if dayDiff >? 1 then streak
      else walk_days currentDay streak rest
  end.


(** Dropping repeated neighbours. *)
Fixpoint squeeze (ds : list Z) : list Z :=
  match ds with
  | [] => []
  | d :: rest =>
      match rest with
      | [] => [d]
      | d' :: _ => if d =? d' then squeeze rest else d :: squeeze rest
      end
  end.

(** The order a comparison by [key] sorts into. *)
Definition by_key {A : Type} (key : A -> Z) (a b : A) : Prop := key a <= key b.

Definition descending (ds : list Z) : Prop := StronglySorted (fun a b => b <= a) ds.
Definition strictly_descending (ds : list Z) : Prop := StronglySorted (fun a b => b < a) ds.

(** The filter of [calculateStreak]. *)
Definition qualifies (log : PillLog) : bool :=
  Status_eqb (status log) taken && truthy (takenTime log).

Definition taken_day (tz : Z) (log : PillLog) : Z := localDay tz (takenTime_ log).

(** The comparison of [calculateStreak]: latest [takenTime] first. *)
Definition latest_first (a b : PillLog) : Z := takenTime_ b - takenTime_ a.

Definition earliest_first (a b : PillLog) : Z := scheduledTime a - scheduledTime b.

Definition by_schedule (logs : list PillLog) : Prop :=
  StronglySorted (fun a b => scheduledTime a <= scheduledTime b) logs.

Definition relevant (log : PillLog) : bool :=
  Status_eqb (status log) taken || Status_eqb (status log) missed.

(** The run that ends on day [d] has length [k] exactly. *)
Definition run_ending (ds : list Z) (d : Z) (k : nat) : Prop :=
  is_run ds d k /\ ~ In (d - Z.of_nat k) ds.


(** ** Sample data: pills, logs and stores used in the examples *)

Definition aspirin : Pill :=
  {| pill_id := "pill-1"; name := "Aspirin"; dosage := "100mg";
     times := [ {| hours := 9; minutes := 0 |}; {| hours := 21; minutes := 0 |} ];
     color := None; notes := None |}.

Definition vitaminD : Pill :=
  {| pill_id := "pill-2"; name := "Vitamin D"; dosage := "1000 IU";
     times := [ {| hours := 9; minutes := 0 |} ];
     color := Some "#FF5733"%string; notes := Some "Take with food"%string |}.

Definition log_of (id pid : string) (t : Instant) (st : Status) : PillLog :=
  {| log_id := id; pillId := pid; scheduledTime := t;
     takenTime := None; status := st; snoozedUntil := None |}.

(** 2025-01-20 is day 20108 of the epoch. *)
Definition day_2025_01_20 : Z := 20108.

Definition at_time (day h m : Z) : Instant :=
  day * MS_PER_DAY + h * MS_PER_HOUR + m * MS_PER_MINUTE.

Definition two_pills : UsePillSchedule.State :=
  {| UsePillSchedule.pills := [aspirin; vitaminD];
     UsePillSchedule.logs :=
       [ log_of "log-1" "pill-1" (at_time day_2025_01_20 9 0) pending;
         log_of "log-2" "pill-1" (at_time day_2025_01_20 21 0) pending;
         log_of "log-3" "pill-2" (at_time day_2025_01_20 9 0) pending ];
     UsePillSchedule.lastScheduleDate := Some day_2025_01_20 |}.

(** A state whose only log refers to a pill that is not in the list. *)
Definition dangling : UsePillSchedule.State :=
  {| UsePillSchedule.pills := [vitaminD];
     UsePillSchedule.logs := [ log_of "log-1" "pill-1" (at_time day_2025_01_20 9 0) pending ];
     UsePillSchedule.lastScheduleDate := Some day_2025_01_20 |}.

Definition one_pending : list PillLog :=
  [ log_of "log-1" "pill-1" (at_time day_2025_01_20 9 0) pending ].

Definition snooze_then_take : list UsePillSchedule.Mutation :=
  [ UsePillSchedule.Snooze (at_time day_2025_01_20 9 0) "log-1" 15;
    UsePillSchedule.MarkTaken (at_time day_2025_01_20 9 10) "log-1" ].

Definition take_then_miss : list UsePillSchedule.Mutation :=
  [ UsePillSchedule.MarkTaken (at_time day_2025_01_20 9 10) "log-1";
    UsePillSchedule.MarkMissed "log-1" ].

Definition mock_uuid (k : nat) : string :=
  String.append "mock-uuid-" (NilEmpty.string_of_uint (Nat.to_uint (S k))).

Definition first_launch : UsePillSchedule.State :=
  {| UsePillSchedule.pills := [aspirin; vitaminD];
     UsePillSchedule.logs := [];
     UsePillSchedule.lastScheduleDate := None |}.

Definition dquote : string := String (Ascii.ascii_of_nat 34) EmptyString.

(** [JSON.stringify] of a string without characters to escape. *)
Definition JSON_stringify (s : string) : string :=
  String.append dquote (String.append s dquote).

(** A store whose quota leaves room for ten more characters. *)
Definition nearly_full : @UseLocalStorage.World string :=
  {| UseLocalStorage.storedValue := "initial"%string;
     UseLocalStorage.storage :=
       {| LocalStorage.items := {[ "test-key"%string := JSON_stringify "initial" ]};
          LocalStorage.quota := 27 |};
     UseLocalStorage.console := [] |}.

(** Local time one hour ahead of UTC. *)
Definition UTC_plus_1 : Z := MS_PER_HOUR.

(** The instant of a local date and time in that zone. *)
Definition local_time (tz day h m : Z) : Instant := at_time day h m - tz.

(** Three occurrences of 2025-01-20 (local time): two taken, one missed,
    and a fourth one still pending. *)
Definition monday_logs (tz : Z) : list PillLog :=
  [ {| log_id := "log-1"; pillId := "pill-1";
       scheduledTime := local_time tz day_2025_01_20 9 0;
       takenTime := Some (local_time tz day_2025_01_20 9 5);
       status := taken; snoozedUntil := None |};
    {| log_id := "log-2"; pillId := "pill-2";
       scheduledTime := local_time tz day_2025_01_20 9 0;
       takenTime := Some (local_time tz day_2025_01_20 9 6);
       status := taken; snoozedUntil := None |};
    log_of "log-3" "pill-1" (local_time tz day_2025_01_20 13 0) missed;
    log_of "log-4" "pill-1" (local_time tz day_2025_01_20 21 0) pending ].

(** 09:00 on 2025-01-20, taken five minutes later. *)
Definition taken_monday_morning : PillLog :=
  {| log_id := "log-1"; pillId := "pill-1";
     scheduledTime := at_time day_2025_01_20 9 0;
     takenTime := Some (at_time day_2025_01_20 9 5);
     status := taken; snoozedUntil := None |}.

Definition missed_monday_evening : PillLog :=
  log_of "log-2" "pill-1" (at_time day_2025_01_20 21 0) missed.

Definition pending_monday_evening : PillLog :=
  log_of "log-2" "pill-1" (at_time day_2025_01_20 21 0) pending.

Definition taken_on (id : string) (day h m : Z) : PillLog :=
  {| log_id := id; pillId := "pill-1";
     scheduledTime := at_time day h m;
     takenTime := Some (at_time day h m);
     status := taken; snoozedUntil := None |}.





(** The history of the unit test: 20 and 19 January, then 17, 16 and 15. *)
Definition newest_first : list PillLog :=
  [ taken_on "log-1" day_2025_01_20 9 0;
    taken_on "log-2" (day_2025_01_20 - 1) 9 0;
    taken_on "log-3" (day_2025_01_20 - 3) 9 0;
    taken_on "log-4" (day_2025_01_20 - 4) 9 0;
    taken_on "log-5" (day_2025_01_20 - 5) 9 0 ].

(** The same history in the order it was taken in. *)
Definition oldest_first : list PillLog := rev newest_first.

(** ** The schedule engine as a machine *)

(** The operations of [usePillSchedule] that change pills or logs, apart
    from [updatePill]. *)
Inductive EngineOp :=
| OpGenerate (now : Instant) (uuidv4 : nat -> string)
| OpAddPill (uuid : string) (pill : Pill)
| OpDeletePill (id : string)
| OpMutate (m : UsePillSchedule.Mutation).

Definition engine_step (tz : Z) (s : UsePillSchedule.State) (op : EngineOp)
  : UsePillSchedule.State :=
  match op with
  | OpGenerate now uuidv4 => UsePillSchedule.generateDailyLogs tz now uuidv4 s
  | OpAddPill uuid pill => UsePillSchedule.addPill uuid pill s
  | OpDeletePill id => UsePillSchedule.deletePill id s
  | OpMutate m =>
      {| UsePillSchedule.pills := UsePillSchedule.pills s;
         UsePillSchedule.logs := UsePillSchedule.mutate tz (UsePillSchedule.logs s) m;
         UsePillSchedule.lastScheduleDate := UsePillSchedule.lastScheduleDate s |}
  end.

Definition engine_run (tz : Z) (ops : list EngineOp) (s : UsePillSchedule.State)
  : UsePillSchedule.State :=
  fold_left (engine_step tz) ops s.

(** Every log refers to a pill of the list. *)
Definition referential_integrity (s : UsePillSchedule.State) : Prop :=
  forall l, In l (UsePillSchedule.logs s) ->
            exists p, In p (UsePillSchedule.pills s) /\ pill_id p = pillId l.

(** The (pill id, time) pairs of a list of pills, in generation order. *)
Definition occurrences_of (pills : list Pill) : list (string * TimeOfDay) :=
  flat_map (fun pill => map (pair (pill_id pill)) (times pill)) pills.

(** Updates with no key at all. *)
Definition no_updates : PillUpdates :=
  {| upd_id := None; upd_name := None; upd_dosage := None;
     upd_times := None; upd_color := None; upd_notes := None |}.

Definition is_pending (log : PillLog) : bool :=
  Status_eqb (status log) pending || Status_eqb (status log) snoozed.

(** A short run of engine operations: the pass of the day, a log marked
    taken, a pill deleted. *)
Definition morning_ops : list EngineOp :=
  [ OpGenerate (at_time day_2025_01_20 8 0) mock_uuid;
    OpMutate (UsePillSchedule.MarkTaken (at_time day_2025_01_20 9 5) "mock-uuid-1");
    OpDeletePill "pill-2" ].

(** ** Reminders *)

Definition is_snooze (m : UsePills.Mutation) : bool :=
  match m with
  | UsePills.Snooze _ _ _ _ _ => true
  | _ => false
  end.

(** The log a mutation of [usePills] appends. *)
Definition appended (m : UsePills.Mutation) : PillLog :=
  match m with
  | UsePills.LogTaken u now p t =>
      {| log_id := u; pillId := p; scheduledTime := t; takenTime := Some now;
         status := taken; snoozedUntil := None |}
  | UsePills.LogMissed u p t =>
      {| log_id := u; pillId := p; scheduledTime := t; takenTime := None;
         status := missed; snoozedUntil := None |}
  | UsePills.Snooze u now p t n =>
      {| log_id := u; pillId := p; scheduledTime := t; takenTime := None;
         status := snoozed; snoozedUntil := Some (addMinutes now n) |}
  end.

(** ** Persistence and settings *)

(** [JSON.parse] of the JSON text of a string without escapes. *)
Fixpoint until_quote (s : string) : option string :=
  match s with
  | EmptyString => None
  | String c r =>
      if Ascii.eqb c (Ascii.ascii_of_nat 34)
      then match r with EmptyString => Some EmptyString | _ => None end
      else option_map (String c) (until_quote r)
  end.

Definition JSON_parse_string (s : string) : option string :=
  match s with
  | String c r => if Ascii.eqb c (Ascii.ascii_of_nat 34) then until_quote r else None
  | EmptyString => None
  end.









(** ** The heatmap by counts *)

(** The colour of a day with [t] taken and [m] missed occurrences, on
    whole numbers. *)
Definition color_by_counts (t m : nat) : string :=
  let n := (t + m)%nat in
  if (n =? 0)%nat then "bg-gray-700"
  else if (m =? 0)%nat then "bg-green-500"
  else if (4 * n <=? 5 * t)%nat then "bg-green-400"
  else if (3 * n <=? 5 * t)%nat then "bg-yellow-500"
  else if (2 * n <=? 5 * t)%nat then "bg-orange-500"
  else if (0 <? t)%nat then "bg-red-500"
  else "bg-red-700".

(** ** Notifications as a machine *)

(** What happens to the hook and the browser, one event at a time. *)
Inductive NotifOp :=
| RequestPermission (userChoice : Notifications.NotificationPermission)
| CheckPermission
| ScheduleForPill (userChoice : Notifications.NotificationPermission) (now : Instant)
                  (pill : Pill) (intensity : Intensity)
| CancelForPill (pillId : string)
| CancelAll
| RunTimer (userChoice : Notifications.NotificationPermission) (id : Z).

Definition notif_step (tz : Z) (w : UseNotifications.World) (op : NotifOp)
  : UseNotifications.World :=
  match op with
  | RequestPermission uc => UseNotifications.requestPermission uc w
  | CheckPermission => UseNotifications.checkPermission w
  | ScheduleForPill uc now pill i => UseNotifications.scheduleForPill tz uc now pill i w
  | CancelForPill pid => UseNotifications.cancelForPill pid w
  | CancelAll => UseNotifications.cancelAll w
  | RunTimer uc id => (fst w, Notifications.runTimer uc id (snd w))
  end.

Definition notif_run (tz : Z) (ops : list NotifOp) (w : UseNotifications.World)
  : UseNotifications.World :=
  fold_left (notif_step tz) ops w.

(** The hook remembers the timer [id] for some pill. *)
Definition registered (h : UseNotifications.Hook) (id : Z) : Prop :=
  exists pid ids, UseNotifications.scheduledNotifications h !! pid = Some ids /\ In id ids.

(** Every pending timer carries an id the browser has handed out and the
    hook remembers. *)
Definition timers_tracked (w : UseNotifications.World) : Prop :=
  0 <= Notifications.nextTimerId (snd w) /\
  forall t, In t (Notifications.timers (snd w)) ->
            0 <= Notifications.timer_id t < Notifications.nextTimerId (snd w) /\
            registered (fst w) (Notifications.timer_id t).

(** The timer ids are those of a browser that hands out fresh ones. *)
Definition fresh_ids (b : Notifications.Browser) : Prop :=
  0 <= Notifications.nextTimerId b /\
  forall t, In t (Notifications.timers b) ->
            Notifications.timer_id t < Notifications.nextTimerId b.

(** A timer is hit by the cancellation of the ids [ids]. *)
Definition cancelled (ids : list Z) (t : Notifications.Timer) : bool :=
  existsb (fun id => (id >=? 0) && (Notifications.timer_id t =? id)) ids.

(** The tag of the notification for a pill and a scheduled instant. *)
Definition tag_of (pillName : string) (scheduledTime : Instant) : string :=
  String.append "pill-"
    (String.append pillName (String.append "-" (Number_toString scheduledTime))).

(** The notification for a pill and a scheduled instant. *)
Definition reminder (viaWorker : bool) (j : Notifications.Job) : Notifications.Shown :=
  let i := Notifications.job_intensity j in
  {| Notifications.channel :=
       if viaWorker then Notifications.ViaServiceWorker else Notifications.ViaNotification;
     Notifications.title := String.append "Time to take " (Notifications.job_pillName j);
     Notifications.notifOptions :=
       {| Notifications.body := Some "Tap to confirm"%string;
          Notifications.tag :=
            Some (tag_of (Notifications.job_pillName j) (Notifications.job_scheduledTime j));
          Notifications.requireInteraction := Some true;
          Notifications.silent := Some (Notifications.Intensity_eqb i quiet);
          Notifications.vibrate :=
            match i with
            | quiet => None
            | normal => Some [200; 100; 200]
            | loud => Some [200; 100; 200; 100; 200]
            end |} |}.

(** A browser that has granted the permission and has nothing pending. *)
Definition granted_browser : Notifications.Browser :=
  {| Notifications.Notification_permission := Some Notifications.granted;
     Notifications.controller := false;
     Notifications.timers := [];
     Notifications.nextTimerId := 1;
     Notifications.shown := [];
     Notifications.warnings := [] |}.

(** At 08:00: the pills are scheduled, one is rescheduled, a timer fires,
    a pill's notifications are cancelled. *)
Definition notification_ops : list NotifOp :=
  [ ScheduleForPill Notifications.granted (at_time day_2025_01_20 8 0) aspirin normal;
    ScheduleForPill Notifications.granted (at_time day_2025_01_20 8 0) vitaminD loud;
    ScheduleForPill Notifications.granted (at_time day_2025_01_20 8 30) aspirin quiet;
    RunTimer Notifications.granted 3;
    CancelForPill (pill_id vitaminD) ].

(** ** The swipe control *)





(** ** Adding and deleting a pill; the form *)

(** The pill a mutation of [usePills] is about. *)
Definition mutation_pill (m : UsePills.Mutation) : string := pillId (appended m).



(** ** Reminder cards *)

(** Some pill of the list has the id the log refers to. *)
Definition has_pill (pills : list Pill) (log : PillLog) : bool :=
  existsb (fun p => String.eqb (pill_id p) (pillId log)) pills.

(** A snoozed and a taken occurrence of the two sample pills. *)
Definition evening_logs : list PillLog :=
  [ log_of "log-1" "pill-1" (at_time day_2025_01_20 21 0) snoozed;
    log_of "log-2" "pill-2" (at_time day_2025_01_20 9 0) snoozed;
    taken_on "log-3" day_2025_01_20 9 0 ].

(** * Properties *)

(** ** Time *)

Lemma localDay_mono tz a b : a <= b -> localDay tz a <= localDay tz b.
Proof.
  intros H. unfold localDay. apply Z.div_le_mono; [reflexivity | lia].
Qed.

Lemma startOfDay_diff tz a b :
  startOfDay tz a - startOfDay tz b = (localDay tz a - localDay tz b) * MS_PER_DAY.
Proof. unfold startOfDay. lia. Qed.

Lemma differenceInDays_startOfDay tz a b :
  differenceInDays (startOfDay tz a) (startOfDay tz b) = localDay tz a - localDay tz b.
Proof.
  unfold differenceInDays. rewrite startOfDay_diff.
  apply Z.quot_mul. discriminate.
Qed.


(** A whole-minute instant of the local day is printed and read back
    unchanged by [formatDateTime]. *)
Lemma formatDateTime_setHours tz now h m :
  formatDateTime tz (setHours tz now h m) = setHours tz now h m.
Proof.
  unfold formatDateTime, setHours, startOfDay.
  set (d := localDay tz now).
  replace (d * MS_PER_DAY - tz + h * MS_PER_HOUR + m * MS_PER_MINUTE + tz)
    with ((d * 86400 + h * 3600 + m * 60) * MS_PER_SECOND)
    by (unfold MS_PER_DAY, MS_PER_HOUR, MS_PER_MINUTE, MS_PER_SECOND; lia).
  rewrite Z.div_mul by discriminate.
  unfold MS_PER_DAY, MS_PER_HOUR, MS_PER_MINUTE, MS_PER_SECOND; lia.
Qed.

(** A clock time set on the current day stays on the current day. *)
Lemma localDay_setHours tz now t :
  clock_time t -> localDay tz (parseTimeString tz now t) = localDay tz now.
Proof.
  intros [Hh Hm]. unfold parseTimeString, setHours, startOfDay, localDay.
  set (d := (now + tz) / MS_PER_DAY).
  replace (d * MS_PER_DAY - tz + hours t * MS_PER_HOUR + minutes t * MS_PER_MINUTE + tz)
    with (d * MS_PER_DAY + (hours t * MS_PER_HOUR + minutes t * MS_PER_MINUTE)) by lia.
  symmetry. apply (Z.div_unique_pos _ _ _ (hours t * MS_PER_HOUR + minutes t * MS_PER_MINUTE)).
  - unfold MS_PER_DAY, MS_PER_HOUR, MS_PER_MINUTE. lia.
  - lia.
Qed.

(** ** [usePills]: the log is append-only *)

Lemma usePills_mutate_app prev m :
  exists row, UsePills.mutate prev m = prev ++ [row] /\ log_id row = UsePills.drawn m.
Proof.
  destruct m; simpl; eexists; split; reflexivity.
Qed.

Lemma usePills_mutateAll_app ms : forall prev,
  exists rows,
    UsePills.mutateAll ms prev = prev ++ rows /\
    map log_id rows = map UsePills.drawn ms.
Proof.
  induction ms as [| m ms IH]; intros prev.
  - exists []. simpl. now rewrite app_nil_r.
  - destruct (usePills_mutate_app prev m) as (row & Hrow & Hid).
    unfold UsePills.mutateAll in *. simpl. rewrite Hrow.
    destruct (IH (prev ++ [row])) as (rows & Hrows & Hids).
    exists (row :: rows). split.
    + rewrite Hrows, <- app_assoc. reflexivity.
    + simpl. now rewrite Hid, Hids.
Qed.

(** C10.  In [usePills], every mutation ([logPillTaken], [logPillMissed],
    [snoozePill]) appends one new row carrying the id just drawn and touches
    no existing row: after any sequence of mutations the log is the old log
    followed by one row per mutation, whose ids are the drawn ones (so they
    are new whenever the drawn ids are); and one occurrence (same [pillId]
    and [scheduledTime]) can hold a [taken] row and a [missed] row at
    once. *)
Theorem usePills_log_append_only :
  forall (ms : list UsePills.Mutation) (prev : list PillLog),
    let next := UsePills.mutateAll ms prev in
    length next = (length prev + length ms)%nat /\
    firstn (length prev) next = prev /\
    map log_id next = map log_id prev ++ map UsePills.drawn ms /\
    (NoDup (map log_id prev ++ map UsePills.drawn ms) -> NoDup (map log_id next)) /\
    (forall u1 u2 now pid t,
        let both := UsePills.mutateAll
                      [UsePills.LogTaken u1 now pid t; UsePills.LogMissed u2 pid t] next in
        firstn (length next) both = next /\
        exists a b,
          nth_error both (length next) = Some a /\
          nth_error both (S (length next)) = Some b /\
          pillId a = pid /\ scheduledTime a = t /\ status a = taken /\
          pillId b = pid /\ scheduledTime b = t /\ status b = missed).
Proof.
  intros ms prev next.
  destruct (usePills_mutateAll_app ms prev) as (rows & Hrows & Hids).
  fold next in Hrows.
  assert (Hlen : length rows = length ms).
  { rewrite <- (length_map log_id rows), Hids. apply length_map. }
  assert (Hmap : map log_id next = map log_id prev ++ map UsePills.drawn ms).
  { rewrite Hrows, map_app, Hids. reflexivity. }
  split; [| split; [| split; [| split; [| split]]]].
  - rewrite Hrows, length_app. lia.
  - rewrite Hrows, firstn_app, Nat.sub_diag, firstn_all. simpl. apply app_nil_r.
  - exact Hmap.
  - intros Hnd. now rewrite Hmap.
  - unfold UsePills.mutateAll. simpl.
    unfold UsePills.logPillMissed, UsePills.logPillTaken.
    rewrite <- app_assoc, firstn_app, Nat.sub_diag, firstn_all. simpl. apply app_nil_r.
  - unfold UsePills.mutateAll.
    cbn [fold_left].
    unfold UsePills.mutate, UsePills.logPillMissed, UsePills.logPillTaken.
    rewrite <- app_assoc. cbn [app].
    do 2 eexists. split; [| split].
    + rewrite nth_error_app2 by lia. rewrite Nat.sub_diag. reflexivity.
    + rewrite nth_error_app2 by lia.
      replace (S (length next) - length next)%nat with 1%nat by lia. reflexivity.
    + repeat split.
Qed.

Lemma usePills_log_append_only_witness :
  NoDup (map log_id
           (UsePills.mutateAll
              [ UsePills.LogTaken "uuid-2" (at_time day_2025_01_20 9 5) "pill-1"
                  (at_time day_2025_01_20 9 0);
                UsePills.LogMissed "uuid-3" "pill-1" (at_time day_2025_01_20 9 0) ]
              one_pending)).
Proof.
  destruct (usePills_log_append_only
              [ UsePills.LogTaken "uuid-2" (at_time day_2025_01_20 9 5) "pill-1"
                  (at_time day_2025_01_20 9 0);
                UsePills.LogMissed "uuid-3" "pill-1" (at_time day_2025_01_20 9 0) ]
              one_pending) as (_ & _ & _ & H & _).
  apply H. simpl.
  constructor; [simpl; intros [E | [E | []]]; discriminate E |].
  constructor; [simpl; intros [E | []]; discriminate E |].
  constructor; [intros [] | constructor].
Defined.

(** ** [deletePill] *)

Lemma filter_id {A} (f : A -> bool) (l : list A) :
  (forall x, In x l -> f x = true) -> List.filter f l = l.
Proof.
  induction l as [| a l IH]; simpl; intros H; [reflexivity |].
  rewrite (H a) by now left. f_equal. apply IH. intros x Hx. apply H. now right.
Qed.

Lemma negb_eqb_true (a b : string) : negb (String.eqb a b) = true <-> a <> b.
Proof.
  rewrite negb_true_iff. destruct (String.eqb_spec a b); split; congruence.
Qed.

Lemma filter_sublist {A} (f : A -> bool) (l : list A) : sublist (List.filter f l) l.
Proof.
  induction l as [| a l IH]; simpl; [constructor |].
  destruct (f a); now constructor.
Qed.

(** C7 (as amended).  [deletePill id] removes, in one transition of the
    pair of collections, exactly the pills whose id is [id] and exactly the
    logs whose [pillId] is [id]; every other pill and log stays as it is and
    where it is, in both hooks.  When no pill has the id, the pills are
    unchanged, and when moreover no log refers to the id, the logs are
    unchanged too. *)
Theorem deletePill_cascade :
  forall (id : string) (s : UsePillSchedule.State),
    let s' := UsePillSchedule.deletePill id s in
    (forall p, In p (UsePillSchedule.pills s') <->
               In p (UsePillSchedule.pills s) /\ pill_id p <> id) /\
    (forall l, In l (UsePillSchedule.logs s') <->
               In l (UsePillSchedule.logs s) /\ pillId l <> id) /\
    sublist (UsePillSchedule.pills s') (UsePillSchedule.pills s) /\
    sublist (UsePillSchedule.logs s') (UsePillSchedule.logs s) /\
    UsePillSchedule.lastScheduleDate s' = UsePillSchedule.lastScheduleDate s /\
    ((forall p, In p (UsePillSchedule.pills s) -> pill_id p <> id) ->
     UsePillSchedule.pills s' = UsePillSchedule.pills s) /\
    ((forall p, In p (UsePillSchedule.pills s) -> pill_id p <> id) ->
     (forall l, In l (UsePillSchedule.logs s) -> pillId l <> id) ->
     s' = s) /\
    UsePills.pills (UsePills.deletePill id
                      {| UsePills.pills := UsePillSchedule.pills s;
                         UsePills.logs := UsePillSchedule.logs s |})
      = UsePillSchedule.pills s' /\
    UsePills.logs (UsePills.deletePill id
                     {| UsePills.pills := UsePillSchedule.pills s;
                        UsePills.logs := UsePillSchedule.logs s |})
      = UsePillSchedule.logs s'.
Proof.
  intros id s s'. unfold s', UsePillSchedule.deletePill. simpl.
  split; [| split; [| split; [| split; [| split; [| split; [| split; [| split]]]]]]].
  - intros p. rewrite filter_In, negb_eqb_true. reflexivity.
  - intros l. rewrite filter_In, negb_eqb_true. reflexivity.
  - apply filter_sublist.
  - apply filter_sublist.
  - reflexivity.
  - intros Hp. apply filter_id. intros x Hx. apply negb_eqb_true. auto.
  - intros Hp Hl. destruct s as [ps ls d]. simpl in *. f_equal.
    + apply filter_id. intros x Hx. apply negb_eqb_true. auto.
    + apply filter_id. intros x Hx. apply negb_eqb_true. auto.
  - reflexivity.
  - reflexivity.
Qed.

Lemma deletePill_cascade_witness :
  UsePillSchedule.deletePill "pill-9" two_pills = two_pills /\
  UsePillSchedule.pills (UsePillSchedule.deletePill "pill-1" dangling)
  = UsePillSchedule.pills dangling.
Proof.
  split.
  - pose proof (deletePill_cascade "pill-9" two_pills) as H.
    destruct H as (_ & _ & _ & _ & _ & _ & H & _).
    apply H.
    + intros p [<- | [<- | []]]; discriminate.
    + intros l [<- | [<- | [<- | []]]]; discriminate.
  - pose proof (deletePill_cascade "pill-1" dangling) as H.
    destruct H as (_ & _ & _ & _ & _ & H & _).
    apply H. intros p [<- | []]; discriminate.
Defined.

(** C7 as stated fails: no pill has id ["pill-1"], yet deleting that id
    changes the state, because a log that refers to it is removed. *)
Lemma deletePill_unknown_id_not_noop :
  ~ ((forall p, In p (UsePillSchedule.pills dangling) -> pill_id p <> "pill-1"%string) ->
     UsePillSchedule.deletePill "pill-1" dangling = dangling).
Proof.
  intros H.
  assert (Hp : forall p, In p (UsePillSchedule.pills dangling) -> pill_id p <> "pill-1"%string).
  { intros p [<- | []]. discriminate. }
  specialize (H Hp). discriminate H.
Qed.

(** ** The log mutations of [usePillSchedule] *)

Section Mutations.
Variable tz : Z.

Lemma mutate_fields_present (m : UsePillSchedule.Mutation) (logs : list PillLog) :
  Forall log_fields_present logs ->
  Forall log_fields_present (UsePillSchedule.mutate tz logs m).
Proof.
  intros H. destruct m as [now logId | now logId n | logId]; simpl;
    unfold UsePillSchedule.markPillTaken, UsePillSchedule.snoozePill,
           UsePillSchedule.markPillMissed;
    apply Forall_map; eapply Forall_impl; [| exact H | | exact H | | exact H];
    intros log [Ht Hs]; destruct (String.eqb (log_id log) logId);
    split; simpl; intros; solve [congruence | auto].
Qed.

Lemma mutateAll_fields_present (ms : list UsePillSchedule.Mutation) :
  forall logs,
    Forall log_fields_present logs ->
    Forall log_fields_present (UsePillSchedule.mutateAll tz ms logs).
Proof.
  induction ms as [| m ms IH]; intros logs H; [exact H |].
  unfold UsePillSchedule.mutateAll. simpl. apply IH. now apply mutate_fields_present.
Qed.

Lemma Forall2_map_self {A} (R : A -> A -> Prop) (f : A -> A) (l : list A) :
  (forall x, R x (f x)) -> Forall2 R l (map f l).
Proof. intros H. induction l; simpl; constructor; auto. Qed.
End Mutations.

(** C1 (as amended).  [markPillTaken logId] gives every log with that id the
    status [taken] and a [takenTime], and leaves its [snoozedUntil] and every
    other log as they were; [markPillMissed logId] changes the status only,
    keeping [takenTime] and [snoozedUntil].  What every sequence of
    mark/snooze mutations keeps is one direction of the invariant: a [taken]
    log has a [takenTime] and a [snoozed] log has a [snoozedUntil]. *)
Theorem mutations_keep_fields_present :
  forall (tz : Z) (ms : list UsePillSchedule.Mutation) (logs : list PillLog),
    Forall log_fields_present logs ->
    Forall log_fields_present (UsePillSchedule.mutateAll tz ms logs) /\
    (forall now logId,
        Forall2 (fun old new =>
                   log_id new = log_id old /\ pillId new = pillId old /\
                   scheduledTime new = scheduledTime old /\
                   snoozedUntil new = snoozedUntil old /\
                   if String.eqb (log_id old) logId
                   then status new = taken /\ takenTime new = Some (formatDateTime tz now)
                   else new = old)
                logs (UsePillSchedule.markPillTaken tz now logId logs)) /\
    (forall logId,
        Forall2 (fun old new =>
                   log_id new = log_id old /\ pillId new = pillId old /\
                   scheduledTime new = scheduledTime old /\
                   takenTime new = takenTime old /\
                   snoozedUntil new = snoozedUntil old /\
                   if String.eqb (log_id old) logId
                   then status new = missed
                   else new = old)
                logs (UsePillSchedule.markPillMissed logId logs)).
Proof.
  intros tz ms logs H. split; [| split].
  - now apply mutateAll_fields_present.
  - intros now logId. unfold UsePillSchedule.markPillTaken.
    apply Forall2_map_self. intros log.
    destruct (String.eqb (log_id log) logId); simpl; repeat split.
  - intros logId. unfold UsePillSchedule.markPillMissed.
    apply Forall2_map_self. intros log.
    destruct (String.eqb (log_id log) logId); simpl; repeat split.
Qed.

Lemma mutations_keep_fields_present_witness :
  Forall log_fields_present (UsePillSchedule.mutateAll 0 snooze_then_take one_pending).
Proof.
  apply (mutations_keep_fields_present 0 snooze_then_take one_pending).
  constructor; [| constructor]. split; simpl; intros H; discriminate H.
Defined.

(** C1 as stated fails: the pending log satisfies the invariant, and after
    it is snoozed and then marked taken it is [taken] with [snoozedUntil]
    still set; after it is marked taken and then missed it is [missed] with
    [takenTime] still set. *)
Lemma mutations_break_log_invariant :
  Forall log_invariant one_pending /\
  ~ Forall log_invariant (UsePillSchedule.mutateAll 0 snooze_then_take one_pending) /\
  ~ Forall log_invariant (UsePillSchedule.mutateAll 0 take_then_miss one_pending).
Proof.
  split; [| split].
  - constructor; [| constructor].
    split; simpl; split; intros H; try discriminate H; now contradiction H.
  - intros H. inversion H as [| ? ? [_ [Hs _]] _]; subst.
    simpl in Hs. assert (Hd : snoozed = taken) by (symmetry; apply Hs; discriminate).
    discriminate Hd.
  - intros H. inversion H as [| ? ? [[Ht _] _] _]; subst.
    simpl in Ht. assert (Hd : missed = taken) by (apply Ht; discriminate).
    discriminate Hd.
Qed.

(** ** Daily generation *)

Section Generation.
Variable tz : Z.
Variable now : Instant.
Variable uuidv4 : nat -> string.

Lemma pushLog_times pill : forall ts acc,
  fold_left (UsePillSchedule.pushLog tz now uuidv4 pill) ts acc
  = acc ++ pushed tz now uuidv4 (length acc) (map (pair (pill_id pill)) ts).
Proof.
  induction ts as [| t ts IH]; intros acc; simpl.
  - now rewrite app_nil_r.
  - rewrite IH. unfold UsePillSchedule.pushLog.
    rewrite <- app_assoc, length_app. simpl.
    replace (length acc + 1)%nat with (S (length acc)) by lia.
    unfold parseTimeString at 1. rewrite formatDateTime_setHours. reflexivity.
Qed.

Lemma pushed_app : forall o1 o2 k,
  pushed tz now uuidv4 k (o1 ++ o2)
  = pushed tz now uuidv4 k o1 ++ pushed tz now uuidv4 (k + length o1) o2.
Proof.
  induction o1 as [| [pid t] o1 IH]; intros o2 k; simpl.
  - now rewrite Nat.add_0_r.
  - rewrite IH. now replace (S k + length o1)%nat with (k + S (length o1))%nat by lia.
Qed.

Lemma length_pushed : forall occs k, length (pushed tz now uuidv4 k occs) = length occs.
Proof. induction occs as [| [pid t] r IH]; intros k; simpl; auto. Qed.

Lemma pushLog_pills : forall ps acc,
  fold_left (fun newLogs pill =>
               fold_left (UsePillSchedule.pushLog tz now uuidv4 pill) (times pill) newLogs)
            ps acc
  = acc ++ pushed tz now uuidv4 (length acc)
             (flat_map (fun pill => map (pair (pill_id pill)) (times pill)) ps).
Proof.
  induction ps as [| p ps IH]; intros acc; simpl.
  - now rewrite app_nil_r.
  - rewrite IH, pushLog_times, pushed_app, <- app_assoc.
    rewrite length_app, length_pushed. reflexivity.
Qed.


End Generation.

Lemma date_eqb_eq a b : UsePillSchedule.date_eqb a b = true <-> a = b.
Proof.
  destruct a as [x |], b as [y |]; simpl; try (split; congruence).
  rewrite Z.eqb_eq. split; congruence.
Qed.



Example generateDailyLogs_first_launch :
  map (fun l => (log_id l, occurrence l))
      (UsePillSchedule.logs
         (UsePillSchedule.generateDailyLogs 0 (at_time day_2025_01_20 8 0) mock_uuid first_launch))
  = [ ("mock-uuid-1"%string, ("pill-1"%string, at_time day_2025_01_20 9 0, pending, None, None));
      ("mock-uuid-2"%string, ("pill-1"%string, at_time day_2025_01_20 21 0, pending, None, None));
      ("mock-uuid-3"%string, ("pill-2"%string, at_time day_2025_01_20 9 0, pending, None, None)) ].
Proof. vm_compute. reflexivity. Qed.

(** ** Persistence: a failed write *)

Section WriteFailure.
Import LocalStorage UseLocalStorage.
Context {T : Type}.
Variable stringify : T -> string.
Variable key : string.

(** [setValue] never throws to its caller. *)
Lemma setValue_returns (value : T + (T -> T)) (w : World) :
  fst (setValue stringify key value w) = Some tt.
Proof.
  unfold setValue, try_catch, bind, setStoredValue, localStorage_setItem, console_error.
  simpl. destruct (setItem _ _ _); reflexivity.
Qed.

(** When the write succeeds, memory and store both hold the new value. *)
Lemma setValue_write_ok (v : T) (w : World) (s : Storage) :
  setItem (storage w) key (stringify v) = Some s ->
  setValue stringify key (inl v) w
  = (Some tt, {| storedValue := v; storage := s; console := console w |}).
Proof.
  intros H.
  unfold setValue, try_catch, bind, setStoredValue, localStorage_setItem. simpl.
  now rewrite H.
Qed.

(** When the write throws, the store is untouched, the failure is logged,
    and the React state already holds the new value: [setStoredValue] ran
    before [setItem]. *)
Lemma setValue_write_failure (v : T) (w : World) :
  setItem (storage w) key (stringify v) = None ->
  setValue stringify key (inl v) w
  = (Some tt, {| storedValue := v; storage := storage w;
                 console := console w ++ ["Error saving to localStorage key"%string] |}).
Proof.
  intros H.
  unfold setValue, try_catch, bind, setStoredValue, localStorage_setItem, console_error.
  simpl. now rewrite H.
Qed.
End WriteFailure.

(** C9, the code at the failing input.  The write of a value that does not
    fit throws; [setValue] returns normally and logs the error, the store
    still holds the old value, but the in-memory value is the new one, not
    the last one that was stored. *)
Theorem setValue_quota_exceeded_keeps_new_value :
  let w := nearly_full in
  let v := "a value that is too long to store"%string in
  let (r, w') := UseLocalStorage.setValue JSON_stringify "test-key" (inl v) w in
  LocalStorage.setItem (UseLocalStorage.storage w) "test-key" (JSON_stringify v) = None /\
  r = Some tt /\
  UseLocalStorage.console w' = ["Error saving to localStorage key"%string] /\
  LocalStorage.getItem (UseLocalStorage.storage w') "test-key"
    = Some (JSON_stringify "initial") /\
  UseLocalStorage.storedValue w' = v /\
  UseLocalStorage.storedValue w' <> UseLocalStorage.storedValue w.
Proof.
  vm_compute. repeat split; discriminate.
Qed.

(** ** Compliance *)

Lemma filter_filter {A} (f g : A -> bool) (l : list A) :
  List.filter g (List.filter f l) = List.filter (fun x => f x && g x) l.
Proof.
  induction l as [| a l IH]; simpl; [reflexivity |].
  destruct (f a); simpl; [destruct (g a) |]; now rewrite IH.
Qed.

(** The ratio is [taken / (taken + missed) * 100] when there is data. *)
Lemma ratio_value (t m : nat) :
  (0 < t + m)%nat ->
  (ComplianceHeatmap.ratio t (t + m)
   == inject_Z (Z.of_nat t) / (inject_Z (Z.of_nat t) + inject_Z (Z.of_nat m)) * 100)%Q.
Proof.
  intros H. unfold ComplianceHeatmap.ratio.
  destruct (Nat.ltb_spec 0 (t + m)); [| lia].
  rewrite Nat2Z.inj_add, inject_Z_plus. reflexivity.
Qed.

(** Every cell counts the logs whose scheduled instant has the cell's UTC
    date, [taken] and [missed] only. *)
Lemma dayData_counts today logs i :
  let cell := ComplianceHeatmap.dayData today logs i in
  ComplianceHeatmap.takenCount cell
    = scheduled_on 0 (utcDay (subDays today (Z.of_nat i))) taken logs /\
  ComplianceHeatmap.missedCount cell
    = scheduled_on 0 (utcDay (subDays today (Z.of_nat i))) missed logs /\
  ComplianceHeatmap.total cell
    = (ComplianceHeatmap.takenCount cell + ComplianceHeatmap.missedCount cell)%nat /\
  ComplianceHeatmap.compliance cell
    = ComplianceHeatmap.ratio (ComplianceHeatmap.takenCount cell) (ComplianceHeatmap.total cell) /\
  ComplianceHeatmap.date cell = subDays today (Z.of_nat i).
Proof.
  unfold ComplianceHeatmap.dayData, scheduled_on, toISODate, utcDay, localDay, subDays.
  simpl. rewrite !filter_filter.
  repeat split; try lia;
    f_equal; apply filter_ext; intros log; now rewrite Z.add_0_r.
Qed.

(** Where local time is UTC, the cell for the day [i] days before today
    counts the logs scheduled on that day. *)
Lemma heatmap_in_utc now logs i :
  let cell := ComplianceHeatmap.dayData (startOfDay 0 now) logs i in
  ComplianceHeatmap.takenCount cell = scheduled_on 0 (localDay 0 now - Z.of_nat i) taken logs /\
  ComplianceHeatmap.missedCount cell = scheduled_on 0 (localDay 0 now - Z.of_nat i) missed logs.
Proof.
  assert (E : utcDay (subDays (startOfDay 0 now) (Z.of_nat i)) = localDay 0 now - Z.of_nat i).
  { unfold utcDay, subDays, startOfDay.
    replace (localDay 0 now * MS_PER_DAY - 0 - Z.of_nat i * MS_PER_DAY)
      with ((localDay 0 now - Z.of_nat i) * MS_PER_DAY) by lia.
    apply Z.div_mul. discriminate. }
  destruct (dayData_counts (startOfDay 0 now) logs i) as (Ht & Hm & _).
  simpl in *. rewrite Ht, Hm, E. split; reflexivity.
Qed.

(** The overall compliance is the same ratio over the whole log. *)
Lemma overallCompliance_ratio logs :
  let t := length (List.filter (fun l => Status_eqb (status l) taken) logs) in
  let m := length (List.filter (fun l => Status_eqb (status l) missed) logs) in
  ComplianceHeatmap.overallCompliance logs = ComplianceHeatmap.ratio t (t + m).
Proof.
  unfold ComplianceHeatmap.overallCompliance. cbv zeta. f_equal.
  induction logs as [| l logs IH]; [reflexivity |].
  cbn [List.filter]. destruct (status l); cbn [Status_eqb orb length]; rewrite IH; lia.
Qed.

(** A day without data is shown differently from a day at 0%. *)
Example no_data_is_not_zero_percent :
  ComplianceHeatmap.getColorClass 0 false = "bg-gray-700"%string /\
  ComplianceHeatmap.getColorClass 0 true = "bg-red-700"%string.
Proof. split; reflexivity. Qed.

(** East of UTC (by at most a day) the key of the cell for the day [i] days
    before today is the date of the day before it. *)
Lemma heatmap_key_east_of_utc tz now logs i :
  0 < tz <= MS_PER_DAY ->
  ComplianceHeatmap.dateStr (ComplianceHeatmap.dayData (startOfDay tz now) logs i)
  = localDay tz now - Z.of_nat i - 1.
Proof.
  intros Htz. unfold ComplianceHeatmap.dayData. cbn [ComplianceHeatmap.dateStr].
  unfold toISODate, utcDay, subDays, startOfDay.
  symmetry. apply (Z.div_unique_pos _ _ _ (MS_PER_DAY - tz)); lia.
Qed.

(** So the cell shows the logs of the day before its own, for logs scheduled
    late enough in the local day to fall on the same date in UTC. *)
Lemma heatmap_shifted_east_of_utc tz now logs i :
  0 < tz <= MS_PER_DAY ->
  (forall log, In log logs ->
               utcDay (scheduledTime log) = localDay tz (scheduledTime log)) ->
  let cell := ComplianceHeatmap.dayData (startOfDay tz now) logs i in
  localDay tz (ComplianceHeatmap.date cell) = localDay tz now - Z.of_nat i /\
  ComplianceHeatmap.takenCount cell
    = scheduled_on tz (localDay tz now - Z.of_nat i - 1) taken logs /\
  ComplianceHeatmap.missedCount cell
    = scheduled_on tz (localDay tz now - Z.of_nat i - 1) missed logs.
Proof.
  intros Htz Hlate cell.
  pose proof (heatmap_key_east_of_utc tz now logs i Htz) as Hkey.
  unfold ComplianceHeatmap.dayData in Hkey. cbn [ComplianceHeatmap.dateStr] in Hkey.
  split; [| split].
  - unfold cell, ComplianceHeatmap.dayData. cbn [ComplianceHeatmap.date].
    unfold subDays, startOfDay, localDay.
    replace ((now + tz) / MS_PER_DAY * MS_PER_DAY - tz - Z.of_nat i * MS_PER_DAY + tz)
      with (((now + tz) / MS_PER_DAY - Z.of_nat i) * MS_PER_DAY) by lia.
    apply Z.div_mul. discriminate.
  - unfold cell, ComplianceHeatmap.dayData. cbn [ComplianceHeatmap.takenCount].
    rewrite Hkey, filter_filter. unfold scheduled_on. f_equal.
    apply filter_ext_in. intros log Hlog. unfold toISODate. now rewrite Hlate.
  - unfold cell, ComplianceHeatmap.dayData. cbn [ComplianceHeatmap.missedCount].
    rewrite Hkey, filter_filter. unfold scheduled_on. f_equal.
    apply filter_ext_in. intros log Hlog. unfold toISODate. now rewrite Hlate.
Qed.

(** In UTC the cell of 2025-01-20 reports 2 taken, 1 missed, [2/3*100]. *)
Example heatmap_monday_in_utc :
  let cells := ComplianceHeatmap.heatmapData 0 (local_time 0 day_2025_01_20 14 0)
                 (monday_logs 0) 30 in
  match nth_error cells 29 with
  | Some cell =>
      localDay 0 (ComplianceHeatmap.date cell) = day_2025_01_20 /\
      ComplianceHeatmap.takenCount cell = 2%nat /\
      ComplianceHeatmap.missedCount cell = 1%nat /\
      (ComplianceHeatmap.compliance cell == 200 # 3)%Q /\
      ComplianceHeatmap.hasData cell = true
  | None => False
  end.
Proof. vm_compute. repeat split. Qed.

(** C8, the code at the failing input.  One hour east of UTC, at 14:00 on
    2025-01-20 with two taken and one missed occurrence scheduled that day,
    the cell of 2025-01-20 (the last of the window) carries the UTC date of
    its local midnight, which is 2025-01-19: it counts nothing and shows no
    data, where the day's compliance is [2/3*100]; no cell of the window
    counts the three occurrences. *)
Theorem heatmap_day_shifted_off_utc :
  let tz := UTC_plus_1 in
  let now := local_time tz day_2025_01_20 14 0 in
  let cells := ComplianceHeatmap.heatmapData tz now (monday_logs tz) 30 in
  scheduled_on tz day_2025_01_20 taken (monday_logs tz) = 2%nat /\
  scheduled_on tz day_2025_01_20 missed (monday_logs tz) = 1%nat /\
  length cells = 30%nat /\
  Forall (fun cell => ComplianceHeatmap.total cell = 0%nat) cells /\
  match nth_error cells 29 with
  | Some cell =>
      localDay tz (ComplianceHeatmap.date cell) = day_2025_01_20 /\
      ComplianceHeatmap.dateStr cell = day_2025_01_20 - 1 /\
      ComplianceHeatmap.takenCount cell = 0%nat /\
      ComplianceHeatmap.missedCount cell = 0%nat /\
      (ComplianceHeatmap.compliance cell == 0)%Q /\
      ComplianceHeatmap.hasData cell = false
  | None => False
  end.
Proof.
  vm_compute. repeat split.
  repeat (constructor; [reflexivity |]). constructor.
Qed.

(** ** Facts about [sort] *)

Section SortFacts.
Context {A : Type}.
Variable key : A -> Z.
Variable compare : A -> A -> Z.
Hypothesis compare_key : forall a b, (compare a b <=? 0) = (key a <=? key b).

Lemma insert_perm x l : Permutation (insert compare x l) (x :: l).
Proof.
  induction l as [| y r IH]; simpl; [reflexivity |].
  destruct (compare x y <=? 0); [reflexivity |].
  rewrite IH. apply perm_swap.
Qed.

Lemma sort_perm l : Permutation (sort compare l) l.
Proof.
  induction l as [| x l IH]; simpl; [reflexivity |].
  rewrite insert_perm. now constructor.
Qed.

Lemma insert_sorted x l :
  StronglySorted (by_key key) l -> StronglySorted (by_key key) (insert compare x l).
Proof.
  induction 1 as [| y r Hr IH Hall]; simpl.
  - constructor; constructor.
  - rewrite compare_key. destruct (Z.leb_spec (key x) (key y)).
    + constructor; [now constructor |].
      constructor; [assumption |].
      eapply Forall_impl; [| exact Hall]. unfold by_key. intros; lia.
    + constructor; [assumption |].
      eapply Permutation_Forall; [symmetry; apply insert_perm |].
      constructor; [unfold by_key; lia | assumption].
Qed.

Lemma sort_sorted l : StronglySorted (by_key key) (sort compare l).
Proof.
  induction l as [| x l IH]; simpl; [constructor | now apply insert_sorted].
Qed.

(** A sorted list is a fixed point of inserting its head back. *)
Lemma insert_head x l :
  Forall (by_key key x) l -> insert compare x l = x :: l.
Proof.
  destruct l as [| y r]; simpl; [reflexivity |].
  intros H. inversion H as [| ? ? Hxy _]; subst.
  rewrite compare_key. unfold by_key in Hxy.
  destruct (Z.leb_spec (key x) (key y)); [reflexivity | lia].
Qed.

(** Filtering commutes with the stable sort. *)
Lemma filter_insert (p : A -> bool) x l :
  StronglySorted (by_key key) l ->
  List.filter p (insert compare x l)
  = if p x then insert compare x (List.filter p l) else List.filter p l.
Proof.
  induction 1 as [| y r Hr IH Hall]; simpl.
  - destruct (p x); reflexivity.
  - rewrite compare_key. destruct (Z.leb_spec (key x) (key y)) as [Hxy | Hxy]; simpl.
    + destruct (p x) eqn:Px; [| reflexivity].
      destruct (p y) eqn:Py.
      * simpl. rewrite compare_key.
        destruct (Z.leb_spec (key x) (key y)); [reflexivity | lia].
      * symmetry. apply insert_head.
        apply Forall_forall. intros z Hz. apply filter_In in Hz as [Hz _].
        rewrite Forall_forall in Hall. specialize (Hall z Hz).
        unfold by_key in *. lia.
    + rewrite IH. destruct (p y) eqn:Py; destruct (p x) eqn:Px; try reflexivity.
      simpl. rewrite compare_key.
      destruct (Z.leb_spec (key x) (key y)); [lia | reflexivity].
Qed.

Lemma filter_sort (p : A -> bool) l :
  List.filter p (sort compare l) = sort compare (List.filter p l).
Proof.
  induction l as [| x l IH]; simpl; [reflexivity |].
  rewrite filter_insert by apply sort_sorted.
  rewrite IH. destruct (p x); reflexivity.
Qed.
End SortFacts.

(** ** Descending lists of dates *)

Lemma squeeze_cons2 d d' r :
  squeeze (d :: d' :: r) = if d =? d' then squeeze (d' :: r) else d :: squeeze (d' :: r).
Proof. reflexivity. Qed.

Lemma squeeze_head d ds : exists r, squeeze (d :: ds) = d :: r.
Proof.
  revert d. induction ds as [| d' r IH]; intros d.
  - exists []. reflexivity.
  - rewrite squeeze_cons2. destruct (Z.eqb_spec d d') as [-> | _].
    + apply IH.
    + eexists. reflexivity.
Qed.

Lemma squeeze_In x ds : In x (squeeze ds) <-> In x ds.
Proof.
  induction ds as [| d r IH]; [reflexivity |].
  destruct r as [| d' r]; [reflexivity |].
  rewrite squeeze_cons2. destruct (Z.eqb_spec d d') as [-> | _].
  - rewrite IH. simpl. tauto.
  - simpl In at 1. rewrite IH. simpl. tauto.
Qed.

Lemma squeeze_strict ds : descending ds -> strictly_descending (squeeze ds).
Proof.
  unfold descending, strictly_descending.
  induction 1 as [| d r Hr IH Hall]; [constructor |].
  destruct r as [| d' r]; [repeat constructor |].
  rewrite squeeze_cons2. destruct (Z.eqb_spec d d') as [-> | Hne]; [exact IH |].
  constructor; [exact IH |].
  apply Forall_forall. intros x Hx. apply (proj1 (squeeze_In _ _)) in Hx.
  inversion Hr as [| ? ? _ Hall']; subst.
  inversion Hall as [| ? ? Hd' _]; subst.
  simpl in Hx. destruct Hx as [<- | Hx]; [lia |].
  rewrite Forall_forall in Hall'. specialize (Hall' x Hx). simpl in Hall'. lia.
Qed.

Lemma strictly_descending_unique l1 : forall l2,
  strictly_descending l1 -> strictly_descending l2 ->
  (forall x, In x l1 <-> In x l2) -> l1 = l2.
Proof.
  unfold strictly_descending.
  induction l1 as [| a r1 IH]; intros [| b r2] H1 H2 Hin.
  - reflexivity.
  - exfalso. apply (Hin b). now left.
  - exfalso. apply (Hin a). now left.
  - inversion H1 as [| ? ? Hr1 Ha]; subst. inversion H2 as [| ? ? Hr2 Hb]; subst.
    rewrite Forall_forall in Ha, Hb.
    assert (a = b).
    { destruct (proj1 (Hin a) (or_introl eq_refl)) as [E | Ea]; [now symmetry |].
      destruct (proj2 (Hin b) (or_introl eq_refl)) as [E | Eb]; [exact E |].
      specialize (Ha _ Eb). specialize (Hb _ Ea). simpl in *. lia. }
    subst b. f_equal. apply IH; try assumption.
    intros x. split; intros Hx.
    + destruct (proj1 (Hin x) (or_intror Hx)) as [E | E]; [| exact E].
      specialize (Ha _ Hx). simpl in Ha. lia.
    + destruct (proj2 (Hin x) (or_intror Hx)) as [E | E]; [| exact E].
      specialize (Hb _ Hx). simpl in Hb. lia.
Qed.

Lemma descending_NoDup_strict ds : descending ds -> NoDup ds -> strictly_descending ds.
Proof.
  unfold descending, strictly_descending.
  induction 1 as [| d r Hr IH Hall]; intros Hnd; [constructor |].
  inversion Hnd as [| ? ? Hnotin Hnd']; subst.
  constructor; [now apply IH |].
  rewrite Forall_forall in *. intros x Hx. specialize (Hall x Hx). simpl in Hall.
  assert (x <> d) by (intros ->; contradiction). lia.
Qed.

Lemma StronglySorted_weaken {A} (R R' : A -> A -> Prop) (l : list A) :
  (forall a b, R a b -> R' a b) -> StronglySorted R l -> StronglySorted R' l.
Proof.
  intros H. induction 1 as [| x l Hl IH Hall]; constructor; [exact IH |].
  eapply Forall_impl; [apply H | exact Hall].
Qed.

Lemma compare_descending (a b : Z) : (b - a <=? 0) = (- a <=? - b).
Proof. destruct (Z.leb_spec (b - a) 0), (Z.leb_spec (- a) (- b)); lia. Qed.

Lemma sort_descending_descending ds : descending (sort_descending ds).
Proof.
  unfold descending, sort_descending.
  apply (StronglySorted_weaken (by_key Z.opp)).
  - unfold by_key. intros a b. lia.
  - apply sort_sorted. apply compare_descending.
Qed.

Lemma sort_descending_perm ds : Permutation (sort_descending ds) ds.
Proof. apply sort_perm. Qed.

(** On a descending list the loop counts the run of the squeezed list. *)
Lemma walk_days_squeeze : forall ds d0 s,
  descending (d0 :: ds) ->
  walk_days d0 s ds = (s + consecutive_run d0 (tl (squeeze (d0 :: ds))))%nat.
Proof.
  unfold descending.
  induction ds as [| d1 r IH]; intros d0 s H; simpl walk_days.
  - simpl. lia.
  - inversion H as [| ? ? Hr Hall]; subst.
    inversion Hall as [| ? ? Hle _]; subst.
    rewrite squeeze_cons2.
    destruct (squeeze_head d1 r) as [T HT].
    destruct (Z.eqb_spec (d0 - d1) 1) as [E1 | N1].
    + rewrite IH by exact Hr.
      destruct (Z.eqb_spec d0 d1); [lia |].
      rewrite HT. simpl.
      destruct (Z.eqb_spec d1 (d0 - 1)); [lia | lia].
    + destruct (Z.gtb_spec (d0 - d1) 1) as [G | G].
      * destruct (Z.eqb_spec d0 d1); [lia |].
        rewrite HT. simpl.
        destruct (Z.eqb_spec d1 (d0 - 1)); [lia | lia].
      * assert (d0 = d1) by lia. subst d1.
        rewrite Z.eqb_refl. apply IH. exact Hr.
Qed.

Lemma sort_distinct_In x ds : In x (sort_descending (distinct_dates ds)) <-> In x ds.
Proof.
  unfold distinct_dates. rewrite <- (nodup_In Z.eq_dec ds x). split; intros Hx.
  - eapply Permutation_in; [apply sort_descending_perm | exact Hx].
  - eapply Permutation_in; [symmetry; apply sort_descending_perm | exact Hx].
Qed.

Lemma sort_distinct_strict ds : strictly_descending (sort_descending (distinct_dates ds)).
Proof.
  apply descending_NoDup_strict; [apply sort_descending_descending |].
  eapply Permutation_NoDup; [symmetry; apply sort_descending_perm | apply NoDup_nodup].
Qed.

(** The streak of a set of dates does not depend on how the dates are listed. *)
Lemma streak_of_dates_squeeze d0 ds :
  descending (d0 :: ds) ->
  streak_of_dates (d0 :: ds) = S (consecutive_run d0 (tl (squeeze (d0 :: ds)))).
Proof.
  intros H. unfold streak_of_dates.
  assert (E : sort_descending (distinct_dates (d0 :: ds)) = squeeze (d0 :: ds)).
  { apply strictly_descending_unique.
    - apply sort_distinct_strict.
    - now apply squeeze_strict.
    - intros x. rewrite squeeze_In. apply sort_distinct_In. }
  rewrite E. destruct (squeeze_head d0 ds) as [T HT]. rewrite HT. reflexivity.
Qed.

Lemma streak_of_dates_ext l1 l2 :
  (forall x, In x l1 <-> In x l2) -> streak_of_dates l1 = streak_of_dates l2.
Proof.
  intros H. unfold streak_of_dates.
  replace (sort_descending (distinct_dates l1)) with (sort_descending (distinct_dates l2));
    [reflexivity |].
  apply strictly_descending_unique; try apply sort_distinct_strict.
  intros x. rewrite !sort_distinct_In. symmetry. apply H.
Qed.

(** ** [calculateStreak] against the reference definition *)

Section CalculateStreak.
Variable tz : Z.

Lemma streakLoop_walk_days : forall rest t0 s,
  streakLoop tz (startOfDay tz t0) s rest
  = walk_days (localDay tz t0) s (map (taken_day tz) rest).
Proof.
  induction rest as [| log rest IH]; intros t0 s; simpl; [reflexivity |].
  rewrite differenceInDays_startOfDay.
  change (taken_day tz log) with (localDay tz (takenTime_ log)).
  destruct (localDay tz t0 - localDay tz (takenTime_ log) =? 1); [apply IH |].
  destruct (localDay tz t0 - localDay tz (takenTime_ log) >? 1); [reflexivity |].
  apply IH.
Qed.

Lemma taken_dates_filter logs :
  taken_dates tz logs = map (taken_day tz) (List.filter qualifies logs).
Proof.
  induction logs as [| log rest IH]; [reflexivity |].
  cbn [taken_dates List.filter]. destruct (qualifies log) eqn:Q; unfold qualifies in Q.
  - destruct (status log), (takenTime log) eqn:Et; try discriminate Q.
    cbn [map]. unfold taken_day at 1, takenTime_. rewrite Et. now f_equal.
  - destruct (status log), (takenTime log); try discriminate Q; exact IH.
Qed.

Lemma StronglySorted_map {A B} (R : A -> A -> Prop) (R' : B -> B -> Prop)
    (f : A -> B) (l : list A) :
  (forall a b, R a b -> R' (f a) (f b)) ->
  StronglySorted R l -> StronglySorted R' (map f l).
Proof.
  intros H. induction 1 as [| x l Hl IH Hall]; simpl; constructor; [exact IH |].
  apply Forall_map. eapply Forall_impl; [apply H | exact Hall].
Qed.

Lemma latest_first_key a b :
  (latest_first a b <=? 0) = (- takenTime_ a <=? - takenTime_ b).
Proof. unfold latest_first. apply compare_descending. Qed.

Lemma taken_days_descending l : descending (map (taken_day tz) (sort latest_first l)).
Proof.
  unfold descending.
  apply (StronglySorted_map (by_key (fun log => - takenTime_ log))).
  - unfold by_key, taken_day. intros a b Hab. apply localDay_mono. lia.
  - apply sort_sorted. apply latest_first_key.
Qed.

Lemma taken_days_In l d :
  In d (map (taken_day tz) (sort latest_first l)) <-> In d (map (taken_day tz) l).
Proof.
  split; intros H.
  - eapply Permutation_in; [| exact H].
    apply Permutation_map, (sort_perm latest_first).
  - eapply Permutation_in; [| exact H].
    symmetry. apply Permutation_map, (sort_perm latest_first).
Qed.

Lemma sorted_streak (l : list PillLog) :
  match sort latest_first l with
  | [] => 0%nat
  | first :: rest => streakLoop tz (startOfDay tz (takenTime_ first)) 1 rest
  end = streak_of_dates (map (taken_day tz) l).
Proof.
  pose proof (taken_days_descending l) as Hdesc.
  pose proof (taken_days_In l) as Hin.
  destruct (sort latest_first l) as [| first rest] eqn:E.
  - assert (Hnil : l = []).
    { apply Permutation_nil. rewrite <- E. apply sort_perm. }
    rewrite Hnil. reflexivity.
  - rewrite streakLoop_walk_days. cbn [map] in Hdesc, Hin.
    rewrite walk_days_squeeze by exact Hdesc.
    rewrite <- (streak_of_dates_ext _ _ Hin).
    rewrite streak_of_dates_squeeze by exact Hdesc. reflexivity.
Qed.

Lemma calculateStreak_refines logs :
  calculateStreak tz logs = calculateStreak_spec tz logs.
Proof.
  unfold calculateStreak, calculateStreak_spec.
  rewrite taken_dates_filter.
  destruct logs as [| l0 logs']; [reflexivity |].
  cbn [length Nat.eqb]. apply sorted_streak.
Qed.
End CalculateStreak.


(** ** [useStreak]: the loop over the logs in scheduled order *)

Lemma is_run_incl ds ds' d k :
  (forall x, In x ds -> In x ds') -> is_run ds d k -> is_run ds' d k.
Proof. intros H Hr i Hi. apply H, Hr, Hi. Qed.



Section UseStreakLoop.
Variable tz : Z.

Lemma step_skip st log :
  status log = pending \/ status log = snoozed -> UseStreak.step tz st log = st.
Proof. intros [H | H]; unfold UseStreak.step; now rewrite H. Qed.



End UseStreakLoop.

Section UseStreakStep.
Variable tz : Z.


End UseStreakStep.

Section UseStreakFold.
Variable tz : Z.

Lemma earliest_first_key a b :
  (earliest_first a b <=? 0) = (scheduledTime a <=? scheduledTime b).
Proof.
  unfold earliest_first.
  destruct (Z.leb_spec (scheduledTime a - scheduledTime b) 0),
           (Z.leb_spec (scheduledTime a) (scheduledTime b)); lia.
Qed.








(** The early return for the empty list agrees with the general path. *)
Lemma useStreak_body now logs :
  UseStreak.useStreak tz now logs =
  let st := UseStreak.loop tz logs in
  {| current :=
       match UseStreak.lastDate st with
       | Some lastDate =>
           if (startOfDay tz now - lastDate) / MS_PER_DAY <=? 1
           then UseStreak.tempStreak st else 0%nat
       | None => 0%nat
       end;
     best := UseStreak.bestStreak st;
     lastTaken :=
       match hd_error (sort (fun a b => takenTime_ b - takenTime_ a)
                            (List.filter qualifies logs)) with
       | Some l => takenTime l
       | None => None
       end |}.
Proof. destruct logs; reflexivity. Qed.


End UseStreakFold.

(** ** Logs that are not [taken] *)

Lemma filter_drop {A} (f : A -> bool) (l1 l2 : list A) (x : A) :
  f x = false -> List.filter f (l1 ++ x :: l2) = List.filter f (l1 ++ l2).
Proof. intros H. rewrite !filter_app. simpl. now rewrite H. Qed.

Lemma fold_relevant tz : forall logs st,
  fold_left (UseStreak.step tz) logs st
  = fold_left (UseStreak.step tz) (List.filter relevant logs) st.
Proof.
  induction logs as [| log logs IH]; intros st; [reflexivity |].
  cbn [fold_left List.filter]. unfold relevant at 1.
  destruct (status log) eqn:Es; cbn [Status_eqb orb fold_left]; try apply IH.
  - rewrite step_skip by now right. apply IH.
  - rewrite step_skip by now left. apply IH.
Qed.

Lemma loop_drop tz l1 x l2 :
  relevant x = false ->
  UseStreak.loop tz (l1 ++ x :: l2) = UseStreak.loop tz (l1 ++ l2).
Proof.
  intros H. unfold UseStreak.loop, UseStreak.sortedLogs.
  rewrite fold_relevant, (fold_relevant tz (sort _ (l1 ++ l2))).
  fold earliest_first.
  rewrite !(filter_sort scheduledTime earliest_first earliest_first_key).
  now rewrite (filter_drop relevant l1 l2 x H).
Qed.

(** C6 (as amended).  A log whose status is [missed], [pending] or
    [snoozed], added anywhere in the list, leaves [calculateStreak] and the
    whole [streakData] of [usePillSchedule] unchanged; in [useStreak], a
    [pending] or [snoozed] log leaves current, best and last-taken
    unchanged. *)
Theorem non_taken_log_keeps_streak :
  forall (tz : Z) (now : Instant) (l1 l2 : list PillLog) (x : PillLog),
    status x <> taken ->
    calculateStreak tz (l1 ++ x :: l2) = calculateStreak tz (l1 ++ l2) /\
    UsePillSchedule.streakData tz (l1 ++ x :: l2) = UsePillSchedule.streakData tz (l1 ++ l2) /\
    (status x <> missed ->
     UseStreak.useStreak tz now (l1 ++ x :: l2) = UseStreak.useStreak tz now (l1 ++ l2)).
Proof.
  intros tz now l1 l2 x Hx.
  assert (Hq : qualifies x = false).
  { unfold qualifies. destruct (status x); try reflexivity. contradiction. }
  assert (Ht : is_taken x = false).
  { unfold is_taken. destruct (status x); try reflexivity. contradiction. }
  assert (Hc : calculateStreak tz (l1 ++ x :: l2) = calculateStreak tz (l1 ++ l2)).
  { rewrite !calculateStreak_refines. unfold calculateStreak_spec.
    rewrite !taken_dates_filter. now rewrite (filter_drop qualifies l1 l2 x Hq). }
  split; [exact Hc |]. split.
  - unfold UsePillSchedule.streakData. rewrite Hc.
    fold is_taken. fold qualifies.
    rewrite (filter_drop is_taken l1 l2 x Ht), (filter_drop qualifies l1 l2 x Hq).
    reflexivity.
  - intros Hm.
    assert (Hr : relevant x = false).
    { unfold relevant. destruct (status x); try reflexivity; contradiction. }
    rewrite !useStreak_body. cbv zeta.
    rewrite (loop_drop tz l1 x l2 Hr), (filter_drop qualifies l1 l2 x Hq). reflexivity.
Qed.

Lemma non_taken_log_keeps_streak_witness :
  calculateStreak 0 ([taken_monday_morning] ++ pending_monday_evening :: [])
  = calculateStreak 0 ([taken_monday_morning] ++ []) /\
  UseStreak.useStreak 0 (at_time day_2025_01_20 22 0)
    ([taken_monday_morning] ++ pending_monday_evening :: [])
  = UseStreak.useStreak 0 (at_time day_2025_01_20 22 0) ([taken_monday_morning] ++ []).
Proof.
  destruct (non_taken_log_keeps_streak 0 (at_time day_2025_01_20 22 0)
              [taken_monday_morning] [] pending_monday_evening) as (H1 & _ & H3).
  - simpl. discriminate.
  - split; [exact H1 |]. apply H3. simpl. discriminate.
Defined.

(** C6 as stated fails for the streak [App] shows: with one occurrence taken
    on 2025-01-20 the current streak is 1; adding a [missed] log for the
    evening of that day makes it 0. *)
Lemma missed_log_resets_useStreak :
  let now := at_time day_2025_01_20 22 0 in
  current (UseStreak.useStreak 0 now [taken_monday_morning]) = 1%nat /\
  current (UseStreak.useStreak 0 now [taken_monday_morning; missed_monday_evening]) = 0%nat /\
  ~ (current (UseStreak.useStreak 0 now [taken_monday_morning])
     <= current (UseStreak.useStreak 0 now [taken_monday_morning; missed_monday_evening]))%nat.
Proof. vm_compute. repeat split. intros H. inversion H. Qed.

(** ** The streak of a set of dates is the run that ends on its latest date *)

Lemma run_ending_ext ds ds' d k :
  (forall x, In x ds <-> In x ds') -> run_ending ds d k -> run_ending ds' d k.
Proof.
  intros H [Hr He]. split.
  - eapply is_run_incl; [| exact Hr]. intros x. apply H.
  - intros Hin. apply He. now apply H.
Qed.

Lemma run_ending_max ds d k k' :
  run_ending ds d k -> is_run ds d k' -> (k' <= k)%nat.
Proof.
  intros [_ He] Hr. destruct (Nat.le_gt_cases k' k) as [H | H]; [exact H |].
  exfalso. apply He. now apply Hr.
Qed.

Lemma consecutive_run_ending : forall r d,
  strictly_descending (d :: r) -> run_ending (d :: r) d (S (consecutive_run d r)).
Proof.
  unfold strictly_descending.
  induction r as [| d' r IH]; intros d H.
  - cbn [consecutive_run]. split.
    + intros i Hi. left. lia.
    + simpl. intros [E | []]. lia.
  - inversion H as [| ? ? Hr Hall]; subst.
    inversion Hall as [| ? ? Hlt Hall']; subst.
    rewrite Forall_forall in Hall'.
    destruct (IH d' Hr) as [Hrun Hend].
    cbn [consecutive_run]. destruct (Z.eqb_spec d' (d - 1)) as [E | N].
    + split.
      * intros i Hi. destruct i as [| j]; [left; lia | right].
        replace (d - Z.of_nat (S j)) with (d' - Z.of_nat j) by lia.
        apply Hrun. lia.
      * intros [E' | Hin]; [lia |]. apply Hend.
        now replace (d' - Z.of_nat (S (consecutive_run d' r)))
          with (d - Z.of_nat (S (S (consecutive_run d' r)))) by lia.
    + split.
      * intros i Hi. left. lia.
      * intros [E' | [E' | Hin]]; [lia | lia |].
        inversion Hr as [| ? ? _ Hbelow]; subst.
        rewrite Forall_forall in Hbelow. specialize (Hbelow _ Hin). simpl in Hbelow. lia.
Qed.

Lemma streak_run_ending ds d0 :
  In d0 ds ->
  exists m, In m ds /\ (forall x, In x ds -> x <= m) /\ run_ending ds m (streak_of_dates ds).
Proof.
  intros Hd0. unfold streak_of_dates.
  pose proof (sort_distinct_strict ds) as Hs.
  pose proof (fun x => sort_distinct_In x ds) as Hin.
  destruct (sort_descending (distinct_dates ds)) as [| m r].
  - exfalso. now apply (Hin d0).
  - exists m. split; [apply Hin; now left |]. split.
    + intros x Hx. apply Hin in Hx. destruct Hx as [<- | Hx]; [lia |].
      unfold strictly_descending in Hs. inversion Hs as [| ? ? _ Hall]; subst.
      rewrite Forall_forall in Hall. specialize (Hall _ Hx). simpl in Hall. lia.
    + apply (run_ending_ext (m :: r)); [exact Hin |].
      now apply consecutive_run_ending.
Qed.

Lemma streak_is_run ds : exists d, is_run ds d (streak_of_dates ds).
Proof.
  destruct ds as [| d0 r].
  - exists 0. intros i Hi. change (streak_of_dates []) with 0%nat in Hi. lia.
  - destruct (streak_run_ending (d0 :: r) d0 (or_introl eq_refl)) as (m & _ & _ & [H _]).
    now exists m.
Qed.

(** ** The best streak of [usePillSchedule] *)





Section StreakDataBest.
Variable tz : Z.


Lemma taken_dates_In logs d :
  In d (taken_dates tz logs) <-> exists l, In l logs /\ qualifies l = true /\ taken_day tz l = d.
Proof.
  rewrite taken_dates_filter, in_map_iff. split.
  - intros (l & E & Hl). apply filter_In in Hl. exists l. tauto.
  - intros (l & Hl & Hq & E). exists l. split; [exact E |]. apply filter_In. tauto.
Qed.





End StreakDataBest.

(** ** Current and best streak *)








(** ** Concrete histories *)


(** The examples of the specification and of the unit tests. *)
Example calculateStreak_three_days :
  calculateStreak 0 [ taken_on "a" day_2025_01_20 14 0;
                      taken_on "b" (day_2025_01_20 - 1) 14 0;
                      taken_on "c" (day_2025_01_20 - 2) 14 0 ] = 3%nat.
Proof. reflexivity. Qed.

Example calculateStreak_stops_at_gap :
  calculateStreak 0 [ taken_on "a" day_2025_01_20 14 0;
                      taken_on "b" (day_2025_01_20 - 1) 14 0;
                      taken_on "c" (day_2025_01_20 - 3) 14 0;
                      taken_on "d" (day_2025_01_20 - 4) 14 0 ] = 2%nat.
Proof. reflexivity. Qed.

Example calculateStreak_unsorted :
  calculateStreak 0 [ taken_on "a" (day_2025_01_20 - 2) 14 0;
                      taken_on "b" day_2025_01_20 14 0;
                      taken_on "c" (day_2025_01_20 - 1) 14 0 ] = 3%nat.
Proof. reflexivity. Qed.





Example streakData_oldest_first :
  let r := UsePillSchedule.streakData 0 oldest_first in
  current r = 2%nat /\ best r = 3%nat.
Proof. vm_compute. split; reflexivity. Qed.

Example useStreak_newest_first :
  let r := UseStreak.useStreak 0 (at_time day_2025_01_20 22 0) newest_first in
  current r = 2%nat /\ best r = 3%nat.
Proof. vm_compute. split; reflexivity. Qed.

(** * Further properties of the code *)

(** ** Pending logs and the mutations *)

Lemma filter_map_commute {A} (f : A -> A) (p q : A -> bool) (l : list A) :
  (forall x, p (f x) = q x) ->
  List.filter p (map f l) = map f (List.filter q l).
Proof.
  intros H. induction l as [| a l IH]; simpl; [reflexivity |].
  rewrite H. destruct (q a); simpl; now rewrite IH.
Qed.

Lemma map_id_on {A} (f : A -> A) (l : list A) :
  (forall x, In x l -> f x = x) -> map f l = l.
Proof.
  intros H. induction l as [| a l IH]; simpl; [reflexivity |].
  rewrite H by now left. f_equal. apply IH. intros x Hx. apply H. now right.
Qed.

(** X1.  A log marked taken or missed leaves the pending logs, the others
    stay in them as they were; a snoozed log is (still, or again) pending. *)
Theorem pending_after_mutation :
  forall (tz : Z) (now : Instant) (logId : string) (n : Z) (logs : list PillLog),
    UsePillSchedule.getPendingLogs (UsePillSchedule.markPillTaken tz now logId logs)
    = List.filter (fun l => negb (String.eqb (log_id l) logId))
                  (UsePillSchedule.getPendingLogs logs) /\
    UsePillSchedule.getPendingLogs (UsePillSchedule.markPillMissed logId logs)
    = List.filter (fun l => negb (String.eqb (log_id l) logId))
                  (UsePillSchedule.getPendingLogs logs) /\
    map log_id (UsePillSchedule.getPendingLogs (UsePillSchedule.snoozePill tz now logId n logs))
    = map log_id (List.filter (fun l => is_pending l || String.eqb (log_id l) logId) logs) /\
    Forall (fun l => log_id l = logId -> status l = snoozed)
           (UsePillSchedule.getPendingLogs (UsePillSchedule.snoozePill tz now logId n logs)).
Proof.
  intros tz now logId n logs.
  unfold UsePillSchedule.getPendingLogs.
  split; [| split; [| split]].
  - unfold UsePillSchedule.markPillTaken. rewrite filter_filter.
    rewrite (filter_map_commute _ _
               (fun l => is_pending l && negb (String.eqb (log_id l) logId))).
    + apply map_id_on. intros x Hx. apply filter_In in Hx as [_ Hx].
      apply andb_true_iff in Hx as [_ Hx].
      destruct (String.eqb (log_id x) logId); [discriminate Hx | reflexivity].
    + intros x. unfold is_pending.
      destruct (String.eqb (log_id x) logId); simpl;
        [now rewrite andb_false_r | now rewrite andb_true_r].
  - unfold UsePillSchedule.markPillMissed. rewrite filter_filter.
    rewrite (filter_map_commute _ _
               (fun l => is_pending l && negb (String.eqb (log_id l) logId))).
    + apply map_id_on. intros x Hx. apply filter_In in Hx as [_ Hx].
      apply andb_true_iff in Hx as [_ Hx].
      destruct (String.eqb (log_id x) logId); [discriminate Hx | reflexivity].
    + intros x. unfold is_pending.
      destruct (String.eqb (log_id x) logId); simpl;
        [now rewrite andb_false_r | now rewrite andb_true_r].
  - unfold UsePillSchedule.snoozePill.
    rewrite (filter_map_commute _ _
               (fun l => is_pending l || String.eqb (log_id l) logId)).
    + rewrite map_map. apply map_ext. intros x.
      destruct (String.eqb (log_id x) logId); reflexivity.
    + intros x. unfold is_pending.
      destruct (String.eqb (log_id x) logId); simpl;
        [now rewrite orb_true_r | now rewrite orb_false_r].
  - apply Forall_forall. intros l Hl. apply filter_In in Hl as [Hl _].
    unfold UsePillSchedule.snoozePill in Hl. apply in_map_iff in Hl as (x & <- & _).
    destruct (String.eqb_spec (log_id x) logId) as [E | N]; simpl; [reflexivity |].
    intros E. contradiction.
Qed.

(** ** Referential integrity *)

Lemma mutate_pillIds tz logs m :
  map pillId (UsePillSchedule.mutate tz logs m) = map pillId logs.
Proof.
  destruct m; simpl;
    unfold UsePillSchedule.markPillTaken, UsePillSchedule.snoozePill,
           UsePillSchedule.markPillMissed;
    rewrite map_map; apply map_ext; intros l;
    destruct (String.eqb (log_id l) logId); reflexivity.
Qed.

Lemma pushed_pillId tz now uuidv4 : forall occs k l,
  In l (pushed tz now uuidv4 k occs) -> In (pillId l) (map fst occs).
Proof.
  induction occs as [| [pid t] occs IH]; intros k l H; simpl in *; [destruct H |].
  destruct H as [<- | H]; [now left | right; eauto].
Qed.

Lemma generateDailyLogs_logs tz now uuidv4 s :
  UsePillSchedule.logs (UsePillSchedule.generateDailyLogs tz now uuidv4 s)
  = if UsePillSchedule.date_eqb (UsePillSchedule.lastScheduleDate s)
                                (Some (toDateString tz now))
    then UsePillSchedule.logs s
    else UsePillSchedule.logs s
           ++ pushed tz now uuidv4 0 (occurrences_of (UsePillSchedule.pills s)).
Proof.
  unfold UsePillSchedule.generateDailyLogs.
  destruct (UsePillSchedule.date_eqb _ _); simpl; [reflexivity |].
  now rewrite pushLog_pills.
Qed.

Lemma generateDailyLogs_pills tz now uuidv4 s :
  UsePillSchedule.pills (UsePillSchedule.generateDailyLogs tz now uuidv4 s)
  = UsePillSchedule.pills s.
Proof.
  unfold UsePillSchedule.generateDailyLogs.
  destruct (UsePillSchedule.date_eqb _ _); reflexivity.
Qed.

Lemma occurrences_of_ids pills pid :
  In pid (map fst (occurrences_of pills)) -> exists p, In p pills /\ pill_id p = pid.
Proof.
  unfold occurrences_of. intros H. apply in_map_iff in H as ([pid' t] & <- & H).
  apply in_flat_map in H as (p & Hp & H). apply in_map_iff in H as (t' & E & _).
  exists p. split; [exact Hp |]. now inversion E.
Qed.

Lemma engine_step_integrity tz s op :
  referential_integrity s -> referential_integrity (engine_step tz s op).
Proof.
  intros H. destruct op as [now uuidv4 | uuid pill | id | m]; simpl.
  - intros l Hl. rewrite generateDailyLogs_pills. rewrite generateDailyLogs_logs in Hl.
    destruct (UsePillSchedule.date_eqb _ _); [now apply H |].
    apply in_app_or in Hl. destruct Hl as [Hl | Hl]; [now apply H |].
    apply pushed_pillId in Hl. now apply occurrences_of_ids.
  - intros l Hl. simpl in *. destruct (H l Hl) as (p & Hp & E).
    exists p. split; [apply in_or_app; now left | exact E].
  - intros l Hl. simpl in *. apply filter_In in Hl as [Hl Hid].
    destruct (H l Hl) as (p & Hp & E). exists p. split; [| exact E].
    apply filter_In. split; [exact Hp |]. now rewrite E.
  - intros l Hl. simpl in *.
    assert (Hid : In (pillId l) (map pillId (UsePillSchedule.logs s))).
    { rewrite <- (mutate_pillIds tz _ m). now apply in_map. }
    apply in_map_iff in Hid as (l0 & E & Hl0).
    destruct (H l0 Hl0) as (p & Hp & Ep). exists p. split; [exact Hp | congruence].
Qed.

(** X2.  Generation, adding and deleting pills and the log mutations keep
    every log attached to a pill of the list: from a state without dangling
    logs no sequence of them reaches a state with one. *)
Theorem engine_keeps_integrity :
  forall (tz : Z) (ops : list EngineOp) (s : UsePillSchedule.State),
    referential_integrity s -> referential_integrity (engine_run tz ops s).
Proof.
  intros tz ops. unfold engine_run.
  induction ops as [| op ops IH]; intros s H; simpl; [exact H |].
  apply IH. now apply engine_step_integrity.
Qed.

(** ** Today's logs and the daily generation *)

Lemma pushed_today tz now uuidv4 now' : forall occs k,
  Forall (fun o => clock_time (snd o)) occs ->
  toDateString tz now' = toDateString tz now ->
  UsePillSchedule.getTodayLogs tz now' (pushed tz now uuidv4 k occs)
  = pushed tz now uuidv4 k occs.
Proof.
  intros occs k Hc Hday. unfold UsePillSchedule.getTodayLogs. apply filter_id.
  revert k. induction Hc as [| [pid t] occs Ht _ IH]; intros k x Hx; simpl in Hx; [destruct Hx |].
  destruct Hx as [<- | Hx]; [| eauto].
  simpl. rewrite Hday. apply Z.eqb_eq. unfold toDateString.
  now apply localDay_setHours.
Qed.

Lemma occurrences_clock pills :
  (forall p t, In p pills -> In t (times p) -> clock_time t) ->
  Forall (fun o => clock_time (snd o)) (occurrences_of pills).
Proof.
  intros H. apply Forall_forall. intros [pid t] Ho. unfold occurrences_of in Ho.
  apply in_flat_map in Ho as (p & Hp & Ho). apply in_map_iff in Ho as (t' & E & Ht).
  inversion E; subst. simpl. eauto.
Qed.

(** X3.  When every time of every pill is a time of the clock, the logs a
    generation pass appends are all among today's logs, for the rest of
    that calendar day: today's logs are the earlier logs of today followed
    by the generated ones. *)
Theorem generated_logs_are_today :
  forall (tz : Z) (now now' : Instant) (uuidv4 : nat -> string) (s : UsePillSchedule.State),
    (forall p t, In p (UsePillSchedule.pills s) -> In t (times p) -> clock_time t) ->
    UsePillSchedule.lastScheduleDate s <> Some (toDateString tz now) ->
    toDateString tz now' = toDateString tz now ->
    let s' := UsePillSchedule.generateDailyLogs tz now uuidv4 s in
    UsePillSchedule.getTodayLogs tz now' (UsePillSchedule.logs s')
    = UsePillSchedule.getTodayLogs tz now' (UsePillSchedule.logs s)
        ++ pushed tz now uuidv4 0 (occurrences_of (UsePillSchedule.pills s)) /\
    length (pushed tz now uuidv4 0 (occurrences_of (UsePillSchedule.pills s)))
    = list_sum (map (fun p => length (times p)) (UsePillSchedule.pills s)).
Proof.
  intros tz now now' uuidv4 s Hclock Hmarker Hday s'. split.
  - unfold s'. rewrite generateDailyLogs_logs.
    destruct (UsePillSchedule.date_eqb _ _) eqn:E.
    { apply date_eqb_eq in E. contradiction. }
    unfold UsePillSchedule.getTodayLogs at 1. rewrite filter_app.
    fold (UsePillSchedule.getTodayLogs tz now' (UsePillSchedule.logs s)).
    f_equal. apply (pushed_today tz now uuidv4 now'); [| exact Hday].
    now apply occurrences_clock.
  - rewrite length_pushed. unfold occurrences_of. clear.
    induction (UsePillSchedule.pills s) as [| p ps IH]; simpl; [reflexivity |].
    rewrite length_app, length_map, IH. reflexivity.
Qed.

Lemma generated_logs_are_today_witness :
  let s' := UsePillSchedule.generateDailyLogs 3600000 (at_time day_2025_01_20 8 0)
              mock_uuid first_launch in
  length (UsePillSchedule.getTodayLogs 3600000 (at_time day_2025_01_20 20 30)
            (UsePillSchedule.logs s')) = 3%nat.
Proof.
  cbv zeta.
  destruct (generated_logs_are_today 3600000 (at_time day_2025_01_20 8 0)
              (at_time day_2025_01_20 20 30) mock_uuid first_launch) as [H1 H2].
  - intros p t [<- | [<- | []]] Ht; simpl in Ht;
      repeat (destruct Ht as [<- | Ht]; [unfold clock_time; simpl; lia |]); destruct Ht.
  - simpl. discriminate.
  - reflexivity.
  - rewrite H1, length_app, H2. reflexivity.
Defined.

(** ** A pill added after the pass of the day *)

Lemma pushed_In tz now uuidv4 : forall occs k pid t,
  In (pid, t) occs ->
  exists l, In l (pushed tz now uuidv4 k occs) /\
            pillId l = pid /\ scheduledTime l = parseTimeString tz now t /\
            status l = pending.
Proof.
  induction occs as [| [pid' t'] occs IH]; intros k pid t H; [destruct H |].
  destruct H as [E | H].
  - inversion E; subst. eexists. split; [left; reflexivity |]. repeat split.
  - destruct (IH (S k) pid t H) as (l & Hl & Hp). exists l. split; [now right | exact Hp].
Qed.

Lemma generateDailyLogs_marker tz now uuidv4 s :
  UsePillSchedule.lastScheduleDate (UsePillSchedule.generateDailyLogs tz now uuidv4 s)
  = Some (toDateString tz now).
Proof.
  unfold UsePillSchedule.generateDailyLogs.
  destruct (UsePillSchedule.date_eqb _ _) eqn:E; simpl; [| reflexivity].
  now apply date_eqb_eq in E.
Qed.

(** X4.  [addPill] generates nothing: a pill added after the pass of the
    day gets no log from any later pass of that calendar day, and gets one
    pending log per entry of its times from the first pass of another day. *)
Theorem added_pill_waits_for_next_day :
  forall (tz : Z) (now now' later : Instant) (u u' u'' : nat -> string) (uuid : string)
         (pill : Pill) (s : UsePillSchedule.State),
    let s1 := UsePillSchedule.addPill uuid pill
                (UsePillSchedule.generateDailyLogs tz now u s) in
    UsePillSchedule.logs s1
    = UsePillSchedule.logs (UsePillSchedule.generateDailyLogs tz now u s) /\
    (toDateString tz now' = toDateString tz now ->
     UsePillSchedule.generateDailyLogs tz now' u' s1 = s1) /\
    (toDateString tz later <> toDateString tz now ->
     exists newLogs,
       UsePillSchedule.logs (UsePillSchedule.generateDailyLogs tz later u'' s1)
       = UsePillSchedule.logs s1 ++ newLogs /\
       forall t, In t (times pill) ->
         exists l, In l newLogs /\ pillId l = uuid /\
                   scheduledTime l = parseTimeString tz later t /\ status l = pending).
Proof.
  intros tz now now' later u u' u'' uuid pill s s1.
  assert (Hm : UsePillSchedule.lastScheduleDate s1 = Some (toDateString tz now)).
  { unfold s1. simpl. apply generateDailyLogs_marker. }
  split; [reflexivity |]. split.
  - intros Hday. unfold UsePillSchedule.generateDailyLogs at 1. rewrite Hm, Hday.
    replace (UsePillSchedule.date_eqb _ _) with true; [reflexivity |].
    symmetry. now apply date_eqb_eq.
  - intros Hday. rewrite generateDailyLogs_logs, Hm.
    destruct (UsePillSchedule.date_eqb _ _) eqn:E.
    { apply date_eqb_eq in E. inversion E. congruence. }
    eexists. split; [reflexivity |].
    intros t Ht. apply pushed_In. unfold occurrences_of, s1. simpl.
    rewrite generateDailyLogs_pills, flat_map_app. apply in_or_app. right.
    simpl. rewrite app_nil_r. apply in_map_iff. exists t. split; [reflexivity | exact Ht].
Qed.

Lemma added_pill_waits_for_next_day_witness :
  let s1 := UsePillSchedule.addPill "pill-3" vitaminD
              (UsePillSchedule.generateDailyLogs 0 (at_time day_2025_01_20 8 0)
                 mock_uuid first_launch) in
  UsePillSchedule.generateDailyLogs 0 (at_time day_2025_01_20 12 0) mock_uuid s1 = s1 /\
  exists newLogs,
    UsePillSchedule.logs
      (UsePillSchedule.generateDailyLogs 0 (at_time (day_2025_01_20 + 1) 8 0) mock_uuid s1)
    = UsePillSchedule.logs s1 ++ newLogs /\
    forall t, In t (times vitaminD) ->
      exists l, In l newLogs /\ pillId l = "pill-3"%string /\
                scheduledTime l = parseTimeString 0 (at_time (day_2025_01_20 + 1) 8 0) t /\
                status l = pending.
Proof.
  cbv zeta.
  destruct (added_pill_waits_for_next_day 0 (at_time day_2025_01_20 8 0)
              (at_time day_2025_01_20 12 0) (at_time (day_2025_01_20 + 1) 8 0)
              mock_uuid mock_uuid mock_uuid "pill-3" vitaminD first_launch)
    as (_ & H2 & H3).
  split.
  - apply H2. reflexivity.
  - apply H3. vm_compute. discriminate.
Defined.

(** ** [updatePill] and [deletePill] *)

Lemma merge_no_updates pill : UsePillSchedule.merge pill no_updates = pill.
Proof. destruct pill. reflexivity. Qed.

(** X5.  [updatePill] with an id that no pill has changes nothing; with any
    id it keeps the number and order of the pills, changes only the pills
    with that id, and leaves logs and marker alone; updates that carry no
    key change nothing; and unless the updates carry an id, the ids of the
    pills stay the same. *)
Theorem updatePill_frame :
  forall (id : string) (updates : PillUpdates) (s : UsePillSchedule.State),
    let s' := UsePillSchedule.updatePill id updates s in
    ((forall p, In p (UsePillSchedule.pills s) -> pill_id p <> id) -> s' = s) /\
    Forall2 (fun old new => if String.eqb (pill_id old) id
                            then new = UsePillSchedule.merge old updates
                            else new = old)
            (UsePillSchedule.pills s) (UsePillSchedule.pills s') /\
    UsePillSchedule.logs s' = UsePillSchedule.logs s /\
    UsePillSchedule.lastScheduleDate s' = UsePillSchedule.lastScheduleDate s /\
    UsePillSchedule.updatePill id no_updates s = s /\
    (upd_id updates = None ->
     map pill_id (UsePillSchedule.pills s') = map pill_id (UsePillSchedule.pills s)).
Proof.
  intros id updates s s'. unfold s', UsePillSchedule.updatePill.
  split; [| split; [| split; [| split; [| split]]]]; simpl; try reflexivity.
  - intros H. destruct s as [ps ls d]. simpl in *. f_equal.
    apply map_id_on. intros p Hp. specialize (H p Hp).
    destruct (String.eqb_spec (pill_id p) id); [contradiction | reflexivity].
  - apply Forall2_map_self. intros p. destruct (String.eqb (pill_id p) id); reflexivity.
  - destruct s as [ps ls d]. simpl. f_equal. apply map_id_on. intros p _.
    rewrite merge_no_updates. now destruct (String.eqb (pill_id p) id).
  - intros Hid. rewrite map_map. apply map_ext. intros p.
    destruct (String.eqb (pill_id p) id); [| reflexivity].
    unfold UsePillSchedule.merge. simpl. now rewrite Hid.
Qed.

Lemma updatePill_frame_witness :
  UsePillSchedule.updatePill "non-existent-id"
    {| upd_id := None; upd_name := None; upd_dosage := Some "200mg"%string;
       upd_times := None; upd_color := None; upd_notes := None |} two_pills = two_pills /\
  map pill_id (UsePillSchedule.pills
                 (UsePillSchedule.updatePill "pill-1"
                    {| upd_id := None; upd_name := None; upd_dosage := Some "200mg"%string;
                       upd_times := None; upd_color := None; upd_notes := None |} two_pills))
  = map pill_id (UsePillSchedule.pills two_pills).
Proof.
  split.
  - destruct (updatePill_frame "non-existent-id"
                {| upd_id := None; upd_name := None; upd_dosage := Some "200mg"%string;
                   upd_times := None; upd_color := None; upd_notes := None |} two_pills)
      as (H & _).
    apply H. intros p [<- | [<- | []]]; discriminate.
  - destruct (updatePill_frame "pill-1"
                {| upd_id := None; upd_name := None; upd_dosage := Some "200mg"%string;
                   upd_times := None; upd_color := None; upd_notes := None |} two_pills)
      as (_ & _ & _ & _ & _ & H).
    apply H. reflexivity.
Defined.

Lemma filter_comm {A} (f g : A -> bool) (l : list A) :
  List.filter f (List.filter g l) = List.filter g (List.filter f l).
Proof. rewrite !filter_filter. apply filter_ext. intros x. apply andb_comm. Qed.

Lemma filter_idem {A} (f : A -> bool) (l : list A) :
  List.filter f (List.filter f l) = List.filter f l.
Proof. rewrite filter_filter. apply filter_ext. intros x. now destruct (f x). Qed.

(** X6.  Deleting a pill twice is deleting it once, deletions of two pills
    can be made in either order, and a pass of generation after a deletion
    creates no log for the deleted id. *)
Theorem deletePill_algebra :
  forall (tz : Z) (now : Instant) (uuidv4 : nat -> string) (a b : string)
         (s : UsePillSchedule.State),
    UsePillSchedule.deletePill a (UsePillSchedule.deletePill a s)
    = UsePillSchedule.deletePill a s /\
    UsePillSchedule.deletePill a (UsePillSchedule.deletePill b s)
    = UsePillSchedule.deletePill b (UsePillSchedule.deletePill a s) /\
    Forall (fun l => pillId l <> a)
           (UsePillSchedule.logs
              (UsePillSchedule.generateDailyLogs tz now uuidv4
                 (UsePillSchedule.deletePill a s))).
Proof.
  intros tz now uuidv4 a b s. unfold UsePillSchedule.deletePill. simpl.
  split; [| split].
  - now rewrite !filter_idem.
  - f_equal; apply filter_comm.
  - apply Forall_forall. intros l Hl. rewrite generateDailyLogs_logs in Hl. simpl in Hl.
    assert (Hold : In l (List.filter (fun log => negb (String.eqb (pillId log) a))
                                     (UsePillSchedule.logs s)) -> pillId l <> a).
    { intros H. apply filter_In in H as [_ H]. now apply negb_eqb_true. }
    destruct (UsePillSchedule.date_eqb _ _); [now apply Hold |].
    apply in_app_or in Hl. destruct Hl as [Hl | Hl]; [now apply Hold |].
    apply pushed_pillId, occurrences_of_ids in Hl. destruct Hl as (p & Hp & <-).
    apply filter_In in Hp as [_ Hp]. now apply negb_eqb_true.
Qed.

Lemma engine_keeps_integrity_witness :
  referential_integrity (engine_run 0 morning_ops first_launch).
Proof.
  apply (engine_keeps_integrity 0 morning_ops first_launch).
  intros l [].
Defined.

(** ** [calculateStreak]: what it depends on *)

Lemma run_ending_unique ds d k k' : run_ending ds d k -> run_ending ds d k' -> k = k'.
Proof.
  intros H H'. apply Nat.le_antisymm.
  - apply (run_ending_max ds d k' k H'), H.
  - apply (run_ending_max ds d k k' H), H'.
Qed.

Lemma streak_of_dates_nil ds : streak_of_dates ds = 0%nat <-> ds = [].
Proof.
  split; [| intros ->; reflexivity].
  destruct ds as [| d0 r]; [reflexivity |]. intros H. exfalso.
  destruct (streak_run_ending (d0 :: r) d0 (or_introl eq_refl)) as (m & Hm & _ & _ & Hend).
  rewrite H in Hend. apply Hend. now replace (m - Z.of_nat 0) with m by lia.
Qed.

Lemma is_run_length ds d k : is_run ds d k -> (k <= length ds)%nat.
Proof.
  intros H.
  assert (Hnd : NoDup (map (fun i => d - Z.of_nat i) (seq 0 k))).
  { apply Finite.Injective_map_NoDup; [| apply seq_NoDup].
    intros i j E. lia. }
  replace k with (length (map (fun i => d - Z.of_nat i) (seq 0 k))) at 1
    by (rewrite length_map; apply List.length_seq).
  apply NoDup_incl_length; [exact Hnd |].
  intros x Hx. apply in_map_iff in Hx as (i & <- & Hi). apply in_seq in Hi. apply H. lia.
Qed.

Lemma taken_dates_length tz logs :
  length (taken_dates tz logs) = length (List.filter qualifies logs).
Proof. now rewrite taken_dates_filter, length_map. Qed.

Lemma calculateStreak_zero tz logs :
  calculateStreak tz logs = 0%nat <-> List.filter qualifies logs = [].
Proof.
  rewrite (calculateStreak_refines tz logs). unfold calculateStreak_spec.
  rewrite streak_of_dates_nil, (taken_dates_filter tz).
  split; [apply map_eq_nil | intros ->; reflexivity].
Qed.

(** X7.  [calculateStreak] does not depend on the order of the logs; it is
    0 exactly when no log is taken with a [takenTime], and it never exceeds
    the number of such logs. *)
Theorem calculateStreak_order_and_bounds :
  forall (tz : Z) (logs logs' : list PillLog),
    (Permutation logs logs' -> calculateStreak tz logs = calculateStreak tz logs') /\
    (calculateStreak tz logs = 0%nat <-> List.filter qualifies logs = []) /\
    (calculateStreak tz logs <= length (List.filter qualifies logs))%nat.
Proof.
  intros tz logs logs'. split; [| split].
  - intros Hp. rewrite !calculateStreak_refines. unfold calculateStreak_spec.
    apply streak_of_dates_ext. intros d. rewrite !taken_dates_In.
    split; intros (l & Hl & H); exists l; (split; [| exact H]).
    + eapply Permutation_in; [exact Hp | exact Hl].
    + eapply Permutation_in; [symmetry; exact Hp | exact Hl].
  - apply calculateStreak_zero.
  - rewrite calculateStreak_refines. unfold calculateStreak_spec.
    rewrite <- (taken_dates_length tz).
    destruct (streak_is_run (taken_dates tz logs)) as [d Hd].
    now apply (is_run_length _ d).
Qed.

Lemma calculateStreak_order_and_bounds_witness :
  calculateStreak 0 newest_first = calculateStreak 0 oldest_first.
Proof.
  destruct (calculateStreak_order_and_bounds 0 newest_first oldest_first) as (H & _).
  apply H. apply Permutation_rev.
Defined.

Lemma taken_dates_app tz l1 l2 :
  taken_dates tz (l1 ++ l2) = taken_dates tz l1 ++ taken_dates tz l2.
Proof. now rewrite !taken_dates_filter, filter_app, map_app. Qed.

Lemma streak_of_max ds m k :
  In m ds -> (forall d, In d ds -> d <= m) -> run_ending ds m k -> streak_of_dates ds = k.
Proof.
  intros Hm Hmax Hk.
  destruct (streak_run_ending ds m Hm) as (m' & Hm' & Hmax' & Hend).
  assert (m' = m) by (specialize (Hmax m' Hm'); specialize (Hmax' m Hm); lia). subst m'.
  apply (run_ending_unique ds m _ _ Hend Hk).
Qed.

(** X8.  A dose taken on the day after the latest taken date makes the
    streak one longer; one taken on the latest taken date leaves it as it
    is; one taken two or more days after it makes the streak 1. *)
Theorem taking_a_dose :
  forall (tz : Z) (l1 l2 : list PillLog) (log : PillLog) (t : Instant) (m : Z),
    status log = taken -> takenTime log = Some t ->
    In m (taken_dates tz (l1 ++ l2)) ->
    (forall d, In d (taken_dates tz (l1 ++ l2)) -> d <= m) ->
    (localDay tz t = m + 1 ->
     calculateStreak tz (l1 ++ log :: l2) = S (calculateStreak tz (l1 ++ l2))) /\
    (localDay tz t = m ->
     calculateStreak tz (l1 ++ log :: l2) = calculateStreak tz (l1 ++ l2)) /\
    (m + 1 < localDay tz t ->
     calculateStreak tz (l1 ++ log :: l2) = 1%nat).
Proof.
  intros tz l1 l2 log t m Hs Ht Hm Hmax.
  rewrite !calculateStreak_refines. unfold calculateStreak_spec.
  set (D := taken_dates tz (l1 ++ l2)) in *.
  assert (HD' : forall x, In x (taken_dates tz (l1 ++ log :: l2)) <-> x = localDay tz t \/ In x D).
  { intros x. unfold D. rewrite !taken_dates_app. cbn [taken_dates]. rewrite Hs, Ht.
    rewrite !in_app_iff. simpl. intuition. }
  destruct (streak_run_ending D m Hm) as (m' & Hm' & Hmax' & Hrun & Hend).
  assert (m' = m) by (specialize (Hmax m' Hm'); specialize (Hmax' m Hm); lia). subst m'.
  split; [| split]; intros Hday.
  - apply (streak_of_max _ (m + 1)).
    + apply HD'. left. lia.
    + intros d Hd. apply HD' in Hd. destruct Hd as [-> | Hd]; [lia |].
      specialize (Hmax d Hd). lia.
    + split.
      * intros i Hi. apply HD'. destruct i as [| j]; [left; lia | right].
        replace (m + 1 - Z.of_nat (S j)) with (m - Z.of_nat j) by lia. apply Hrun. lia.
      * intros H. apply HD' in H. destruct H as [H | H]; [lia |].
        apply Hend. now replace (m - Z.of_nat (streak_of_dates D))
                      with (m + 1 - Z.of_nat (S (streak_of_dates D))) by lia.
  - apply streak_of_dates_ext. intros x. rewrite HD'. split; [| auto].
    intros [-> | H]; [now rewrite Hday | exact H].
  - apply (streak_of_max _ (localDay tz t)).
    + apply HD'. now left.
    + intros d Hd. apply HD' in Hd. destruct Hd as [-> | Hd]; [lia |].
      specialize (Hmax d Hd). lia.
    + split.
      * intros i Hi. apply HD'. left. lia.
      * intros H. apply HD' in H. destruct H as [H | H]; [lia |].
        specialize (Hmax _ H). lia.
Qed.

Lemma taking_a_dose_witness :
  calculateStreak 0 ([] ++ taken_on "log-0" (day_2025_01_20 + 1) 9 0 :: newest_first)
  = S (calculateStreak 0 ([] ++ newest_first)) /\
  calculateStreak 0 ([] ++ taken_on "log-0" day_2025_01_20 21 0 :: newest_first)
  = calculateStreak 0 ([] ++ newest_first) /\
  calculateStreak 0 ([] ++ taken_on "log-0" (day_2025_01_20 + 5) 9 0 :: newest_first)
  = 1%nat.
Proof.
  assert (Hm : In day_2025_01_20 (taken_dates 0 ([] ++ newest_first))) by (left; reflexivity).
  assert (Hmax : forall d, In d (taken_dates 0 ([] ++ newest_first)) -> d <= day_2025_01_20).
  { intros d Hd. vm_compute in Hd.
    repeat (destruct Hd as [<- | Hd]; [vm_compute; discriminate |]). destruct Hd. }
  split; [| split].
  - destruct (taking_a_dose 0 [] newest_first (taken_on "log-0" (day_2025_01_20 + 1) 9 0)
                (at_time (day_2025_01_20 + 1) 9 0) day_2025_01_20
                eq_refl eq_refl Hm Hmax) as (H & _).
    apply H. reflexivity.
  - destruct (taking_a_dose 0 [] newest_first (taken_on "log-0" day_2025_01_20 21 0)
                (at_time day_2025_01_20 21 0) day_2025_01_20
                eq_refl eq_refl Hm Hmax) as (_ & H & _).
    apply H. reflexivity.
  - destruct (taking_a_dose 0 [] newest_first (taken_on "log-0" (day_2025_01_20 + 5) 9 0)
                (at_time (day_2025_01_20 + 5) 9 0) day_2025_01_20
                eq_refl eq_refl Hm Hmax) as (_ & _ & H).
    apply H. reflexivity.
Defined.

(** ** The last dose taken *)

Lemma sorted_head_latest (l : list PillLog) :
  match hd_error (sort latest_first l) with
  | None => l = []
  | Some h => In h l /\ forall x, In x l -> takenTime_ x <= takenTime_ h
  end.
Proof.
  pose proof (sort_sorted (fun log => - takenTime_ log) latest_first latest_first_key l) as Hs.
  pose proof (sort_perm latest_first l) as Hp.
  destruct (sort latest_first l) as [| h r]; simpl.
  - now apply Permutation_nil.
  - split.
    + eapply Permutation_in; [exact Hp | now left].
    + intros x Hx. eapply Permutation_in in Hx; [| symmetry; exact Hp].
      inversion Hs as [| ? ? _ Hall]; subst. rewrite Forall_forall in Hall.
      destruct Hx as [<- | Hx]; [lia |]. specialize (Hall x Hx). unfold by_key in Hall. lia.
Qed.

(** X9.  [lastTaken] is the [takenTime] of a taken log and no taken log
    has a later one; it is absent exactly when no log is taken with a
    [takenTime], which is exactly when the current streak of
    [usePillSchedule] is 0; [useStreak] reports the same [lastTaken]. *)
Theorem lastTaken_is_latest :
  forall (tz : Z) (now : Instant) (logs : list PillLog),
    let r := UsePillSchedule.streakData tz logs in
    (forall t, lastTaken r = Some t ->
       (exists log, In log logs /\ status log = taken /\ takenTime log = Some t) /\
       (forall log t', In log logs -> status log = taken -> takenTime log = Some t' ->
                       t' <= t)) /\
    (lastTaken r = None <-> List.filter qualifies logs = []) /\
    (lastTaken r = None <-> current r = 0%nat) /\
    lastTaken (UseStreak.useStreak tz now logs) = lastTaken r.
Proof.
  intros tz now logs r. unfold r, UsePillSchedule.streakData. cbn [lastTaken current].
  fold qualifies. fold latest_first.
  pose proof (sorted_head_latest (List.filter qualifies logs)) as H.
  assert (Hq : forall log, In log (List.filter qualifies logs) <->
                           In log logs /\ status log = taken /\ takenTime log <> None).
  { intros log. rewrite filter_In. unfold qualifies.
    destruct (status log), (takenTime log); simpl; intuition congruence. }
  split; [| split; [| split]].
  - intros t Ht.
    destruct (hd_error (sort latest_first (List.filter qualifies logs))) as [h |];
      [| discriminate Ht].
    destruct H as [Hh Hmax]. apply Hq in Hh as (Hin & Hs & _). split.
    + exists h. auto.
    + intros log t' Hl Hs' Ht'.
      assert (Hlq : In log (List.filter qualifies logs)).
      { apply Hq. repeat split; [exact Hl | exact Hs' | congruence]. }
      specialize (Hmax log Hlq). unfold takenTime_ in Hmax. now rewrite Ht', Ht in Hmax.
  - destruct (hd_error (sort latest_first (List.filter qualifies logs))) as [h |].
    + destruct H as [Hh _]. split.
      * intros Hn. apply Hq in Hh as (_ & _ & Hh). contradiction.
      * intros E. rewrite E in Hh. destruct Hh.
    + tauto.
  - rewrite calculateStreak_zero.
    destruct (hd_error (sort latest_first (List.filter qualifies logs))) as [h |].
    + destruct H as [Hh _]. split.
      * intros Hn. apply Hq in Hh as (_ & _ & Hh). contradiction.
      * intros E. rewrite E in Hh. destruct Hh.
    + tauto.
  - rewrite useStreak_body. reflexivity.
Qed.

Lemma lastTaken_is_latest_witness :
  (exists log, In log newest_first /\ status log = taken /\
               takenTime log = Some (at_time day_2025_01_20 9 0)) /\
  forall log t', In log newest_first -> status log = taken -> takenTime log = Some t' ->
                 t' <= at_time day_2025_01_20 9 0.
Proof.
  destruct (lastTaken_is_latest 0 (at_time day_2025_01_20 22 0) newest_first) as (H & _).
  apply H. reflexivity.
Defined.

(** ** What the clock writes into a log *)

Lemma formatDateTime_bounds tz t :
  t - MS_PER_SECOND < formatDateTime tz t <= t.
Proof.
  unfold formatDateTime.
  pose proof (Z.mul_div_le (t + tz) MS_PER_SECOND ltac:(reflexivity)).
  pose proof (Z.mul_succ_div_gt (t + tz) MS_PER_SECOND ltac:(reflexivity)).
  lia.
Qed.

Lemma formatDateTime_day tz t : localDay tz (formatDateTime tz t) = localDay tz t.
Proof.
  unfold formatDateTime, localDay.
  replace ((t + tz) / MS_PER_SECOND * MS_PER_SECOND - tz + tz)
    with ((t + tz) / MS_PER_SECOND * MS_PER_SECOND) by lia.
  set (x := t + tz).
  change MS_PER_DAY with (MS_PER_SECOND * 86400).
  rewrite <- !Z.div_div by (unfold MS_PER_SECOND; lia).
  now rewrite Z.div_mul by discriminate.
Qed.

(** X10.  The [takenTime] that [markPillTaken] writes is the current
    instant cut to the second: less than a second before now and on now's
    calendar date.  When a log has the given id, today is among the taken
    dates afterwards and the streak is at least 1. *)
Theorem markPillTaken_counts_today :
  forall (tz : Z) (now : Instant) (logId : string) (logs : list PillLog),
    let logs' := UsePillSchedule.markPillTaken tz now logId logs in
    now - MS_PER_SECOND < formatDateTime tz now <= now /\
    localDay tz (formatDateTime tz now) = localDay tz now /\
    ((exists l, In l logs /\ log_id l = logId) ->
     In (localDay tz now) (taken_dates tz logs') /\
     (1 <= calculateStreak tz logs')%nat).
Proof.
  intros tz now logId logs logs'.
  split; [apply formatDateTime_bounds |]. split; [apply formatDateTime_day |].
  intros (l & Hl & Hid).
  assert (Hin : In (localDay tz now) (taken_dates tz logs')).
  { apply taken_dates_In.
    exists {| log_id := log_id l; pillId := pillId l; scheduledTime := scheduledTime l;
              takenTime := Some (formatDateTime tz now); status := taken;
              snoozedUntil := snoozedUntil l |}.
    split; [| split; [reflexivity | apply formatDateTime_day]].
    unfold logs', UsePillSchedule.markPillTaken. apply in_map_iff. exists l.
    split; [| exact Hl]. rewrite Hid, String.eqb_refl. reflexivity. }
  split; [exact Hin |].
  destruct (calculateStreak tz logs') as [| k] eqn:Hz; [| lia].
  exfalso. assert (E : List.filter qualifies logs' = [])
    by (apply (proj1 (calculateStreak_zero tz logs')); exact Hz).
  rewrite taken_dates_filter, E in Hin. destruct Hin.
Qed.

Lemma markPillTaken_counts_today_witness :
  (1 <= calculateStreak 0
          (UsePillSchedule.markPillTaken 0 (at_time day_2025_01_20 9 10) "log-1" one_pending))%nat.
Proof.
  destruct (markPillTaken_counts_today 0 (at_time day_2025_01_20 9 10) "log-1" one_pending)
    as (_ & _ & H).
  apply H. eexists. split; [left; reflexivity | reflexivity].
Defined.

(** X11.  Both hooks set [snoozedUntil] to now plus the snooze minutes:
    [usePills] exactly, [usePillSchedule] cut to the second (exactly, when
    now is a whole second).  Neither rejects a zero or negative number of
    minutes, which gives a [snoozedUntil] that is not after now. *)
Theorem snoozedUntil_value :
  forall (tz : Z) (now : Instant) (n : Z) (logId uuid pid : string) (t : Instant)
         (logs : list PillLog),
    Forall (fun l => log_id l = logId ->
                     exists su, snoozedUntil l = Some su /\
                                now + n * MS_PER_MINUTE - MS_PER_SECOND < su
                                <= now + n * MS_PER_MINUTE /\
                                ((now + tz) mod MS_PER_SECOND = 0 ->
                                 su = now + n * MS_PER_MINUTE) /\
                                (n <= 0 -> su <= now))
           (UsePillSchedule.snoozePill tz now logId n logs) /\
    (exists l, UsePills.snoozePill uuid now pid t n logs = logs ++ [l] /\
               snoozedUntil l = Some (now + n * MS_PER_MINUTE) /\ status l = snoozed).
Proof.
  intros tz now n logId uuid pid t logs. split.
  - apply Forall_forall. intros l Hl. unfold UsePillSchedule.snoozePill in Hl.
    apply in_map_iff in Hl as (x & <- & _).
    destruct (String.eqb_spec (log_id x) logId) as [E | N]; simpl; [| contradiction].
    intros _. eexists. split; [reflexivity |].
    pose proof (formatDateTime_bounds tz (addMinutes now n)) as Hb.
    unfold addMinutes in *. split; [exact Hb |]. split.
    + intros Hw. unfold formatDateTime.
      replace (now + n * MS_PER_MINUTE + tz) with ((now + tz) + n * 60 * MS_PER_SECOND)
        by (unfold MS_PER_MINUTE, MS_PER_SECOND; lia).
      rewrite Z.div_add by discriminate.
      pose proof (Z.div_mod (now + tz) MS_PER_SECOND ltac:(discriminate)) as Hd.
      rewrite Hw in Hd. unfold MS_PER_MINUTE, MS_PER_SECOND in *. lia.
    + intros Hn. unfold MS_PER_MINUTE in *. lia.
  - unfold UsePills.snoozePill, addMinutes. cbv zeta. eexists.
    split; [reflexivity |]. split; reflexivity.
Qed.

(** ** The reminders of [App] under the mutations of [usePills] *)

Lemma pendingReminders_perm logs :
  Permutation (App.pendingReminders logs) (List.filter is_pending logs).
Proof. unfold App.pendingReminders. apply sort_perm. Qed.

Lemma usePills_mutate_appended logs m : UsePills.mutate logs m = logs ++ [appended m].
Proof. destruct m; reflexivity. Qed.

Lemma is_pending_appended m : is_pending (appended m) = is_snooze m.
Proof. destruct m; reflexivity. Qed.

Lemma pendingReminders_mutate logs m :
  is_snooze m = false ->
  App.pendingReminders (UsePills.mutate logs m) = App.pendingReminders logs.
Proof.
  intros H. rewrite usePills_mutate_appended. unfold App.pendingReminders.
  rewrite List.filter_app. cbn [List.filter].
  change (Status_eqb (status (appended m)) pending || Status_eqb (status (appended m)) snoozed)
    with (is_pending (appended m)).
  rewrite is_pending_appended, H. now rewrite app_nil_r.
Qed.

Lemma pendingReminders_snooze logs m :
  is_snooze m = true ->
  Permutation (App.pendingReminders (UsePills.mutate logs m))
              (appended m :: App.pendingReminders logs).
Proof.
  intros H. rewrite usePills_mutate_appended.
  rewrite !pendingReminders_perm, List.filter_app. cbn [List.filter].
  rewrite is_pending_appended, H. rewrite Permutation_app_comm. reflexivity.
Qed.

(** X12.  Under [usePills], the hook [App] uses, the reminder list is in
    scheduled order and no reminder ever leaves it by being answered:
    [logPillTaken] and [logPillMissed] leave the list as it is, every
    [snoozePill] adds one snoozed entry to it. *)
Theorem reminders_never_dismissed :
  forall (ms : list UsePills.Mutation) (logs : list PillLog),
    let logs' := UsePills.mutateAll ms logs in
    by_schedule (App.pendingReminders logs') /\
    (forall log, In log (App.pendingReminders logs) -> In log (App.pendingReminders logs')) /\
    (forall log, In log (App.pendingReminders logs') ->
                 In log (App.pendingReminders logs) \/ status log = snoozed) /\
    length (App.pendingReminders logs')
    = (length (App.pendingReminders logs) + length (List.filter is_snooze ms))%nat /\
    (forallb (fun m => negb (is_snooze m)) ms = true ->
     App.pendingReminders logs' = App.pendingReminders logs).
Proof.
  intros ms logs logs'. split.
  { unfold by_schedule, App.pendingReminders.
    pose proof (sort_sorted scheduledTime earliest_first earliest_first_key
                  (List.filter
                     (fun log => Status_eqb (status log) pending
                                 || Status_eqb (status log) snoozed) logs')) as H.
    exact H. }
  unfold logs', UsePills.mutateAll. clear logs'. revert logs.
  induction ms as [| m ms IH]; intros logs; cbn [fold_left List.filter forallb length].
  - repeat split; auto; lia.
  - destruct (IH (UsePills.mutate logs m)) as (IH1 & IH2 & IH3 & IH4).
    destruct (is_snooze m) eqn:Hm; cbn [negb andb length].
    + pose proof (pendingReminders_snooze logs m Hm) as Hp.
      split; [| split; [| split]].
      * intros log Hl. apply IH1. eapply Permutation_in; [symmetry; exact Hp |]. now right.
      * intros log Hl. apply IH2 in Hl as [Hl | Hl]; [| now right].
        eapply Permutation_in in Hl; [| exact Hp].
        destruct Hl as [<- | Hl]; [right | now left].
        destruct m; try discriminate Hm. reflexivity.
      * rewrite IH3, (Permutation_length Hp). cbn [length]. lia.
      * discriminate.
    + rewrite (pendingReminders_mutate logs m Hm) in *.
      repeat split; auto.
Qed.

(** ** Bounds on what [useStreak] reports *)

Lemma useStreak_step_bounds tz (st : UseStreak.Loop) (log : PillLog) (n : nat) :
  (UseStreak.tempStreak st <= UseStreak.bestStreak st)%nat ->
  (UseStreak.bestStreak st <= n)%nat ->
  (UseStreak.lastDate st <> None <-> 1 <= n)%nat ->
  (UseStreak.lastDate st <> None -> 1 <= UseStreak.bestStreak st)%nat ->
  let st' := UseStreak.step tz st log in
  let n' := (n + (if is_taken log then 1 else 0))%nat in
  (UseStreak.tempStreak st' <= UseStreak.bestStreak st')%nat /\
  (UseStreak.bestStreak st' <= n')%nat /\
  (UseStreak.lastDate st' <> None <-> 1 <= n')%nat /\
  (UseStreak.lastDate st' <> None -> 1 <= UseStreak.bestStreak st')%nat.
Proof.
  intros H1 H2 H3 H4. unfold UseStreak.step, is_taken.
  destruct (status log); cbn [Status_eqb]; cbv zeta;
    cbn [UseStreak.tempStreak UseStreak.bestStreak UseStreak.lastDate].
  - destruct (UseStreak.lastDate st) as [d |] eqn:Hd.
    + assert (Hn : (1 <= n)%nat) by (apply H3; discriminate).
      assert (Hb : (1 <= UseStreak.bestStreak st)%nat) by (apply H4; discriminate).
      destruct (_ =? 0); [| destruct (_ =? 1)];
        (split; [lia |]; split; [lia |]; split; [split; [lia | discriminate] | lia]).
    + assert (Hn : n = 0%nat).
      { destruct n; [reflexivity |]. exfalso.
        assert (E : @None Instant <> None) by (apply H3; lia). now apply E. }
      split; [lia |]. split; [lia |]. split; [split; [lia | discriminate] | lia].
  - rewrite Nat.add_0_r. split; [lia |]. auto.
  - rewrite Nat.add_0_r. auto.
  - rewrite Nat.add_0_r. auto.
Qed.

Lemma useStreak_fold_bounds tz (l : list PillLog) : forall (st : UseStreak.Loop) (n : nat),
  (UseStreak.tempStreak st <= UseStreak.bestStreak st)%nat ->
  (UseStreak.bestStreak st <= n)%nat ->
  (UseStreak.lastDate st <> None <-> 1 <= n)%nat ->
  (UseStreak.lastDate st <> None -> 1 <= UseStreak.bestStreak st)%nat ->
  let st' := fold_left (UseStreak.step tz) l st in
  let n' := (n + length (List.filter is_taken l))%nat in
  (UseStreak.tempStreak st' <= UseStreak.bestStreak st')%nat /\
  (UseStreak.bestStreak st' <= n')%nat /\
  (UseStreak.lastDate st' <> None <-> 1 <= n')%nat /\
  (UseStreak.lastDate st' <> None -> 1 <= UseStreak.bestStreak st')%nat.
Proof.
  induction l as [| log l IH]; intros st n H1 H2 H3 H4; cbn [fold_left List.filter].
  - cbn [length]. rewrite Nat.add_0_r. auto.
  - destruct (useStreak_step_bounds tz st log n H1 H2 H3 H4) as (K1 & K2 & K3 & K4).
    specialize (IH _ _ K1 K2 K3 K4). cbv zeta in IH.
    destruct (is_taken log); cbn [length]; cbv zeta.
    + replace (n + S (length (List.filter is_taken l)))%nat
        with (n + 1 + length (List.filter is_taken l))%nat by lia. exact IH.
    + now rewrite Nat.add_0_r in IH.
Qed.

(** X13.  [useStreak] never reports a current streak above the best one;
    the best streak is at most the number of taken logs, and it is 0
    exactly when no log is taken. *)
Theorem useStreak_bounds :
  forall (tz : Z) (now : Instant) (logs : list PillLog),
    let r := UseStreak.useStreak tz now logs in
    (current r <= best r)%nat /\
    (best r <= length (List.filter is_taken logs))%nat /\
    (best r = 0%nat <-> forall log, In log logs -> status log <> taken).
Proof.
  intros tz now logs r. unfold r. rewrite useStreak_body. cbv zeta. cbn [current best].
  unfold UseStreak.loop.
  destruct (useStreak_fold_bounds tz (UseStreak.sortedLogs logs) UseStreak.start 0)
    as (K1 & K2 & K3 & K4); cbn [UseStreak.start UseStreak.tempStreak UseStreak.bestStreak
                                 UseStreak.lastDate]; try lia.
  { split; [intros E; now contradiction E | lia]. }
  { intros E; now contradiction E. }
  cbv zeta in K1, K2, K3, K4. rewrite Nat.add_0_l in K2, K3.
  assert (Hlen : length (List.filter is_taken (UseStreak.sortedLogs logs))
                 = length (List.filter is_taken logs)).
  { apply Permutation_length. unfold UseStreak.sortedLogs.
    rewrite (filter_sort scheduledTime earliest_first earliest_first_key).
    apply sort_perm. }
  rewrite Hlen in K2, K3.
  set (st := fold_left (UseStreak.step tz) (UseStreak.sortedLogs logs) UseStreak.start) in *.
  split; [| split].
  - destruct (UseStreak.lastDate st); [| lia]. destruct (_ <=? 1); lia.
  - exact K2.
  - split.
    + intros E log Hl Hs.
      assert (Hin : In log (List.filter is_taken logs)).
      { apply filter_In. split; [exact Hl |]. unfold is_taken. now rewrite Hs. }
      assert (Hpos : (1 <= length (List.filter is_taken logs))%nat).
      { destruct (List.filter is_taken logs); [destruct Hin | cbn [length]; lia]. }
      apply K3 in Hpos. apply K4 in Hpos. lia.
    + intros Hno.
      assert (E : List.filter is_taken logs = []).
      { destruct (List.filter is_taken logs) as [| x rest] eqn:Hf; [reflexivity |].
        exfalso. assert (Hx : In x (List.filter is_taken logs)) by (rewrite Hf; now left).
        apply filter_In in Hx as [Hx Ht]. apply (Hno x Hx).
        unfold is_taken in Ht. destruct (status x); try discriminate Ht. reflexivity. }
      rewrite E in K2. cbn [length] in K2. lia.
Qed.

(** ** [useLocalStorage]: writing, reloading, clearing, other tabs *)

Section Persistence.
Import LocalStorage UseLocalStorage.
Context {T : Type}.
Variable stringify : T -> string.
Variable parse : string -> option T.
Variable key : string.
Variable initialValue : T.

Lemma getItem_setItem s k v s' :
  setItem s k v = Some s' ->
  getItem s' k = Some v /\ forall k', k' <> k -> getItem s' k' = getItem s k'.
Proof.
  unfold setItem, getItem. destruct (_ <=? _)%nat; [| discriminate].
  intros [= <-]. cbn [items]. split.
  - apply lookup_insert_eq.
  - intros k' Hk. apply lookup_insert_ne. congruence.
Qed.

Lemma setValue_frame (value : T + (T -> T)) (w : World) (k : string) :
  k <> key ->
  getItem (storage (snd (setValue stringify key value w))) k = getItem (storage w) k.
Proof.
  intros Hk.
  unfold setValue, try_catch, bind, setStoredValue, localStorage_setItem, console_error.
  cbn [storage storedValue console fst snd].
  destruct (setItem _ _ _) as [s |] eqn:Hs; cbn [snd storage].
  - now apply (getItem_setItem _ _ _ _ Hs).
  - reflexivity.
Qed.




(** X14.  A value written by [setValue] is the value a reload of the page
    starts from, and the value another tab of the application adopts from
    the storage event, provided the write succeeds and [JSON.parse] reads
    the JSON text back.  Entries under other keys are never touched. *)
Theorem setValue_then_reload :
  forall (value : T + (T -> T)) (w : World) (c : list string),
    let v := match value with inl v => v | inr f => f (storedValue w) end in
    let w' := snd (setValue stringify key value w) in
    parse (stringify v) = Some v ->
    String.length (stringify v) <> 0%nat ->
    setItem (storage w) key (stringify v) <> None ->
    storedValue w' = v /\
    getItem (storage w') key = Some (stringify v) /\
    console w' = console w /\
    initialise parse key initialValue (storage w') c
    = {| storedValue := v; storage := storage w'; console := c |} /\
    (forall wB : World,
        storedValue (snd (handleStorageChange parse key key (Some (stringify v)) wB)) = v) /\
    (forall k, k <> key -> getItem (storage w') k = getItem (storage w) k).
Proof.
  intros value w c v w' Hparse Hlen Hwrite.
  destruct (setItem (storage w) key (stringify v)) as [s |] eqn:Hs; [| contradiction].
  assert (Hw' : w' = {| storedValue := v; storage := s; console := console w |}).
  { unfold w', setValue, try_catch, bind, setStoredValue, localStorage_setItem.
    cbn [storage storedValue console]. fold v. now rewrite Hs. }
  destruct (getItem_setItem _ _ _ _ Hs) as [Hget _].
  split; [now rewrite Hw' |]. split; [now rewrite Hw' |]. split; [now rewrite Hw' |].
  split; [| split].
  - unfold initialise. rewrite Hw'. cbn [storage]. rewrite Hget.
    destruct (Nat.eqb_spec (String.length (stringify v)) 0); [contradiction |].
    now rewrite Hparse.
  - intros wB. unfold handleStorageChange. rewrite String.eqb_refl.
    unfold try_catch, bind, JSON_parse, setStoredValue. now rewrite Hparse.
  - intros k Hk. now apply setValue_frame.
Qed.


(** X16.  Reading never writes and never throws.  A reload leaves the
    store as it is and falls back to the initial value when the entry is
    missing, empty or unparsable (logging only in the last case).  A storage
    event for another key, or one that reports a removal, changes nothing,
    so a value cleared in another tab stays in this one; an unparsable new
    value keeps the current one and is logged. *)
Theorem reading_is_safe :
  forall (s : Storage) (c : list string) (e_key : string) (e_newValue : option string)
         (w : World),
    let w0 := initialise parse key initialValue s c in
    let w' := snd (handleStorageChange parse key e_key e_newValue w) in
    (storage w0 = s /\
     (storedValue w0 = initialValue \/
      exists item, getItem s key = Some item /\ parse item = Some (storedValue w0)) /\
     (console w0 = c \/
      exists item, getItem s key = Some item /\ String.length item <> 0%nat /\
                   parse item = None /\ storedValue w0 = initialValue)) /\
    (fst (handleStorageChange parse key e_key e_newValue w) = Some tt /\
     storage w' = storage w /\
     (e_key <> key \/ e_newValue = None -> w' = w) /\
     (forall newValue, e_key = key -> e_newValue = Some newValue ->
        match parse newValue with
        | Some v => storedValue w' = v /\ console w' = console w
        | None => storedValue w' = storedValue w /\
                  console w' = console w ++ ["Error parsing storage event for key"%string]
        end)).
Proof.
  intros s c e_key e_newValue w w0 w'. split.
  - unfold w0, initialise.
    destruct (getItem s key) as [item |] eqn:Hget; cbn [storage storedValue console].
    + destruct (Nat.eqb_spec (String.length item) 0); cbn [storage storedValue console].
      * auto.
      * destruct (parse item) as [v |] eqn:Hp; cbn [storage storedValue console].
        -- split; [reflexivity |]. split; [right; now exists item | now left].
        -- split; [reflexivity |]. split; [now left |]. right. now exists item.
    + auto.
  - unfold w', handleStorageChange.
    destruct e_newValue as [nv |].
    + destruct (String.eqb_spec e_key key) as [E | N].
      * unfold try_catch, bind, JSON_parse, setStoredValue, console_error.
        destruct (parse nv) as [v |] eqn:Hp; cbn [fst snd storage storedValue console].
        -- repeat split; try reflexivity.
           ++ intros [N | N]; [contradiction | discriminate].
           ++ intros newValue _ [= <-]. now rewrite Hp.
        -- repeat split; try reflexivity.
           ++ intros [N | N]; [contradiction | discriminate].
           ++ intros newValue _ [= <-]. now rewrite Hp.
      * unfold ret. cbn [fst snd]. repeat split; try reflexivity. intros nv' E. contradiction.
    + unfold ret. cbn [fst snd]. repeat split; try reflexivity. intros nv' _ E. discriminate.
Qed.
End Persistence.

Lemma setValue_then_reload_witness :
  let w' := snd (UseLocalStorage.setValue JSON_stringify "test-key" (inl "ok"%string) nearly_full) in
  UseLocalStorage.initialise JSON_parse_string "test-key" "default"%string
    (UseLocalStorage.storage w') []
  = {| UseLocalStorage.storedValue := "ok"%string;
       UseLocalStorage.storage := UseLocalStorage.storage w';
       UseLocalStorage.console := [] |}.
Proof.
  intros w'.
  destruct (setValue_then_reload JSON_stringify JSON_parse_string "test-key" "default"%string
              (inl "ok"%string) nearly_full [])
    as (_ & _ & _ & H & _).
  - reflexivity.
  - vm_compute. discriminate.
  - vm_compute. discriminate.
  - exact H.
Defined.

(** ** [useSettings] *)






(** ** Times of day and countdowns *)

(** X19.  A time of day of the clock survives the round trip: the instant
    [parseTimeString] makes of it is on today's date, has zero seconds (so
    [formatDateTime] keeps it exactly) and [formatTime] shows the same hours
    and minutes.  Conversely, parsing what [formatTime] shows of an instant
    of today gives that instant cut to the minute. *)
Theorem time_of_day_round_trip :
  forall (tz : Z) (now t : Instant) (h m : Z),
    (0 <= h < 24 -> 0 <= m < 60 ->
     let scheduled := parseTimeString tz now {| hours := h; minutes := m |} in
     TimeDisplay.formatTime tz scheduled = {| hours := h; minutes := m |} /\
     toDateString tz scheduled = toDateString tz now /\
     formatDateTime tz scheduled = scheduled) /\
    (toDateString tz t = toDateString tz now ->
     let shown := parseTimeString tz now (TimeDisplay.formatTime tz t) in
     shown <= t < shown + MS_PER_MINUTE /\ (shown + tz) mod MS_PER_MINUTE = 0).
Proof.
  intros tz now t h m. split.
  - intros Hh Hm scheduled. unfold scheduled. clear scheduled.
    unfold TimeDisplay.formatTime, TimeDisplay.getHours, TimeDisplay.getMinutes,
      parseTimeString, setHours, startOfDay, toDateString, formatDateTime, localDay.
    cbn [hours minutes].
    unfold MS_PER_DAY, MS_PER_HOUR, MS_PER_MINUTE, MS_PER_SECOND.
    set (D := (now + tz) / (1000 * 60 * 60 * 24)).
    replace (D * (1000 * 60 * 60 * 24) - tz + h * (1000 * 60 * 60) + m * (60 * 1000) + tz)
      with (D * 86400000 + h * 3600000 + m * 60000) by lia.
    change (1000 * 60 * 60 * 24) with 86400000. change (1000 * 60 * 60) with 3600000.
    change (60 * 1000) with 60000.
    assert (E1 : (D * 86400000 + h * 3600000 + m * 60000) mod 86400000
                 = h * 3600000 + m * 60000).
    { symmetry. apply (Z.mod_unique_pos _ _ D); lia. }
    assert (E2 : (D * 86400000 + h * 3600000 + m * 60000) mod 3600000 = m * 60000).
    { symmetry. apply (Z.mod_unique_pos _ _ (D * 24 + h)); lia. }
    assert (E3 : (D * 86400000 + h * 3600000 + m * 60000) / 86400000 = D).
    { symmetry. apply (Z.div_unique_pos _ _ _ (h * 3600000 + m * 60000)); lia. }
    assert (E4 : (D * 86400000 + h * 3600000 + m * 60000) / 1000
                 = D * 86400 + h * 3600 + m * 60).
    { symmetry. apply (Z.div_unique_pos _ _ _ 0); lia. }
    rewrite E1, E2, E3, E4. split; [| split].
    + f_equal.
      * symmetry. apply (Z.div_unique_pos _ _ _ (m * 60000)); lia.
      * symmetry. apply (Z.div_unique_pos _ _ _ 0); lia.
    + reflexivity.
    + lia.
  - intros Hday shown. unfold shown. clear shown.
    unfold TimeDisplay.formatTime, TimeDisplay.getHours, TimeDisplay.getMinutes,
      parseTimeString, setHours, startOfDay, toDateString, localDay in *.
    cbn [hours minutes]. rewrite <- Hday.
    unfold MS_PER_DAY, MS_PER_HOUR, MS_PER_MINUTE in *.
    change (1000 * 60 * 60 * 24) with 86400000 in *.
    change (1000 * 60 * 60) with 3600000 in *.
    change (60 * 1000) with 60000 in *.
    set (x := t + tz) in *.
    replace (x / 86400000 * 86400000 - tz + x mod 86400000 / 3600000 * 3600000
             + x mod 3600000 / 60000 * 60000 + tz)
      with (x / 86400000 * 86400000 + x mod 86400000 / 3600000 * 3600000
            + x mod 3600000 / 60000 * 60000) by lia.
    assert (Hx : t = x - tz) by (unfold x; lia). rewrite Hx. clear Hx Hday.
    split.
    + Z.div_mod_to_equations. lia.
    + Z.div_mod_to_equations. lia.
Qed.

Lemma time_of_day_round_trip_witness :
  TimeDisplay.formatTime UTC_plus_1
    (parseTimeString UTC_plus_1 (local_time UTC_plus_1 day_2025_01_20 8 0)
       {| hours := 14; minutes := 30 |})
  = {| hours := 14; minutes := 30 |}.
Proof.
  destruct (time_of_day_round_trip UTC_plus_1 (local_time UTC_plus_1 day_2025_01_20 8 0) 0 14 30)
    as [H _].
  destruct H as (H & _); [lia | lia | exact H].
Defined.

(** X20.  [getTimeUntilNext] shows [Now] when the scheduled time is not
    after now, and otherwise the whole hours and minutes left, rounded down
    to the minute, with the hours left out below one hour.  A time that
    [isTimePast] shows [Now]; a time that [isTimeUpcoming] within at most
    60 minutes is not past and shows fewer minutes than the window; the
    instant now itself is neither past nor upcoming. *)
Theorem countdown_text :
  forall (now scheduledTime : Instant) (window window' : Z),
    let diff := scheduledTime - now in
    let shown := TimeDisplay.getTimeUntilNext now scheduledTime in
    (diff <= 0 -> shown = "Now"%string) /\
    (0 < diff ->
     exists h m, 0 <= h /\ 0 <= m < 60 /\
                 h * MS_PER_HOUR + m * MS_PER_MINUTE <= diff
                 < h * MS_PER_HOUR + (m + 1) * MS_PER_MINUTE /\
                 shown = if 0 <? h
                         then String.append (Number_toString h)
                                (String.append "h " (String.append (Number_toString m) "m"))
                         else String.append (Number_toString m) "m") /\
    (TimeDisplay.isTimePast now scheduledTime = true -> shown = "Now"%string) /\
    (TimeDisplay.isTimeUpcoming now scheduledTime window = true ->
     TimeDisplay.isTimePast now scheduledTime = false /\ 0 < window /\
     (window <= window' -> TimeDisplay.isTimeUpcoming now scheduledTime window' = true) /\
     (window <= 60 ->
      exists m, 0 <= m < window /\ shown = String.append (Number_toString m) "m")) /\
    TimeDisplay.isTimePast now now = false /\
    TimeDisplay.isTimeUpcoming now now window = false.
Proof.
  intros now s window window' diff shown.
  assert (Hpos : 0 < diff ->
                 shown = if 0 <? diff / 3600000
                         then String.append (Number_toString (diff / 3600000))
                                (String.append "h "
                                   (String.append
                                      (Number_toString (diff mod 3600000 / 60000)) "m"))
                         else String.append (Number_toString (diff mod 3600000 / 60000)) "m").
  { intros Hd. unfold shown, TimeDisplay.getTimeUntilNext. fold diff. cbv zeta.
    destruct (Z.leb_spec diff 0); [lia |]. reflexivity. }
  split; [| split; [| split; [| split; [| split]]]].
  - intros Hd. unfold shown, TimeDisplay.getTimeUntilNext. fold diff. cbv zeta.
    destruct (Z.leb_spec diff 0); [reflexivity | lia].
  - intros Hd. exists (diff / 3600000), (diff mod 3600000 / 60000).
    unfold MS_PER_HOUR, MS_PER_MINUTE.
    change (1000 * 60 * 60) with 3600000. change (60 * 1000) with 60000.
    split; [Z.div_mod_to_equations; lia |].
    split; [Z.div_mod_to_equations; lia |].
    split; [Z.div_mod_to_equations; lia |].
    now apply Hpos.
  - unfold TimeDisplay.isTimePast. intros Hp. apply Z.ltb_lt in Hp.
    unfold shown, TimeDisplay.getTimeUntilNext. fold diff. cbv zeta.
    destruct (Z.leb_spec diff 0); [reflexivity | unfold diff in *; lia].
  - unfold TimeDisplay.isTimeUpcoming, TimeDisplay.isTimePast, addMinutes, MS_PER_MINUTE.
    cbv zeta. intros Hu. apply andb_true_iff in Hu as [H1 H2].
    apply Z.ltb_lt in H1, H2.
    split; [apply Z.ltb_ge; lia |]. split; [lia |]. split.
    + intros Hw. apply andb_true_iff. split; apply Z.ltb_lt; lia.
    + intros Hw. exists (diff mod 3600000 / 60000).
      assert (Hd : 0 < diff) by (unfold diff; lia).
      assert (Hlt : diff < window * 60000) by (unfold diff; lia).
      split; [Z.div_mod_to_equations; lia |].
      rewrite (Hpos Hd).
      assert (E : diff / 3600000 = 0) by (apply Z.div_small; lia).
      now rewrite E.
  - unfold TimeDisplay.isTimePast. apply Z.ltb_irrefl.
  - unfold TimeDisplay.isTimeUpcoming. cbv zeta. now rewrite Z.ltb_irrefl.
Qed.

Lemma countdown_text_witness :
  TimeDisplay.getTimeUntilNext (at_time day_2025_01_20 14 0) (at_time day_2025_01_20 13 0)
  = "Now"%string.
Proof.
  destruct (countdown_text (at_time day_2025_01_20 14 0) (at_time day_2025_01_20 13 0) 30 30)
    as (H & _).
  apply H. vm_compute. discriminate.
Defined.

(** ** The heatmap: rows, cells and colours *)

Lemma ratio_frac (t n : nat) :
  (0 < n)%nat -> (ComplianceHeatmap.ratio t n == (100 * Z.of_nat t) # Pos.of_nat n)%Q.
Proof.
  intros H. unfold ComplianceHeatmap.ratio. destruct (Nat.ltb_spec 0 n); [| lia].
  destruct n as [| n']; [lia |].
  unfold Qeq, Qdiv, Qmult, Qinv, inject_Z. cbn [Qnum Qden].
  change (Z.of_nat (S n')) with (Z.pos (Pos.of_succ_nat n')). cbn [Qnum Qden].
  rewrite Pos.of_nat_succ, !Pos2Z.inj_mul. lia.
Qed.

Lemma Zpos_of_nat (n : nat) : (0 < n)%nat -> Z.pos (Pos.of_nat n) = Z.of_nat n.
Proof.
  intros H. destruct n; [lia |].
  rewrite <- Pos.of_nat_succ. now rewrite Zpos_P_of_succ_nat, Nat2Z.inj_succ.
Qed.

Lemma ratio_ge (t n : nat) (k : Z) :
  (0 < n)%nat ->
  Qle_bool (inject_Z k) (ComplianceHeatmap.ratio t n) = (k * Z.of_nat n <=? 100 * Z.of_nat t).
Proof.
  intros H. apply eq_true_iff_eq. rewrite Qle_bool_iff, (ratio_frac t n H), Z.leb_le.
  unfold Qle, inject_Z. cbn [Qnum Qden]. rewrite (Zpos_of_nat n H). lia.
Qed.

Lemma ratio_le (t n : nat) (k : Z) :
  (0 < n)%nat ->
  Qle_bool (ComplianceHeatmap.ratio t n) (inject_Z k) = (100 * Z.of_nat t <=? k * Z.of_nat n).
Proof.
  intros H. apply eq_true_iff_eq. rewrite Qle_bool_iff, (ratio_frac t n H), Z.leb_le.
  unfold Qle, inject_Z. cbn [Qnum Qden]. rewrite (Zpos_of_nat n H). lia.
Qed.

Lemma ratio_eq (t n : nat) (k : Z) :
  (0 < n)%nat ->
  Qeq_bool (ComplianceHeatmap.ratio t n) (inject_Z k) = (100 * Z.of_nat t =? k * Z.of_nat n).
Proof.
  intros H. apply eq_true_iff_eq. rewrite Qeq_bool_iff, (ratio_frac t n H), Z.eqb_eq.
  unfold Qeq, inject_Z. cbn [Qnum Qden]. rewrite (Zpos_of_nat n H). lia.
Qed.

Lemma getColorClass_counts (t m : nat) :
  ComplianceHeatmap.getColorClass (ComplianceHeatmap.ratio t (t + m)) (0 <? t + m)%nat
  = color_by_counts t m.
Proof.
  unfold ComplianceHeatmap.getColorClass, color_by_counts. cbv zeta.
  destruct (Nat.ltb_spec 0 (t + m)) as [Hn | Hn]; cbn [negb].
  - destruct (Nat.eqb_spec (t + m) 0); [lia |].
    change 100%Q with (inject_Z 100). change 80%Q with (inject_Z 80).
    change 60%Q with (inject_Z 60). change 40%Q with (inject_Z 40).
    change 0%Q with (inject_Z 0).
    rewrite (ratio_eq t (t + m) 100 Hn), !(ratio_ge t (t + m) _ Hn), (ratio_le t (t + m) 0 Hn).
    destruct (Z.eqb_spec (100 * Z.of_nat t) (100 * Z.of_nat (t + m))),
             (Nat.eqb_spec m 0); try lia; try reflexivity.
    destruct (Z.leb_spec (80 * Z.of_nat (t + m)) (100 * Z.of_nat t)),
             (Nat.leb_spec (4 * (t + m)) (5 * t)); try lia; try reflexivity.
    destruct (Z.leb_spec (60 * Z.of_nat (t + m)) (100 * Z.of_nat t)),
             (Nat.leb_spec (3 * (t + m)) (5 * t)); try lia; try reflexivity.
    destruct (Z.leb_spec (40 * Z.of_nat (t + m)) (100 * Z.of_nat t)),
             (Nat.leb_spec (2 * (t + m)) (5 * t)); try lia; try reflexivity.
    destruct (Z.leb_spec (100 * Z.of_nat t) (0 * Z.of_nat (t + m))),
             (Nat.ltb_spec 0 t); try lia; reflexivity.
  - destruct (Nat.eqb_spec (t + m) 0); [reflexivity | lia].
Qed.

(** X21.  The heatmap has one cell per day shown, for consecutive local
    midnights ending today.  In every cell the total is taken plus missed,
    the compliance lies between 0 and 100, and the colour depends on the
    two counts alone: gray exactly without data, the full green exactly
    with data and nothing missed, the dark red exactly with data and
    nothing taken, and the steps at 80, 60 and 40 per cent in between. *)
Theorem heatmap_cells :
  forall (tz : Z) (now : Instant) (logs : list PillLog) (daysToShow : nat),
    let data := ComplianceHeatmap.heatmapData tz now logs daysToShow in
    length data = daysToShow /\
    (forall k, (k < daysToShow)%nat ->
       exists day, nth_error data k = Some day /\
                   ComplianceHeatmap.date day
                   = startOfDay tz now - Z.of_nat (daysToShow - 1 - k) * MS_PER_DAY) /\
    Forall (fun day =>
              let t := ComplianceHeatmap.takenCount day in
              let m := ComplianceHeatmap.missedCount day in
              ComplianceHeatmap.total day = (t + m)%nat /\
              (0 <= ComplianceHeatmap.compliance day)%Q /\
              (ComplianceHeatmap.compliance day <= 100)%Q /\
              HeatmapGrid.cellColor day = color_by_counts t m)
           data.
Proof.
  intros tz now logs n data. unfold data, ComplianceHeatmap.heatmapData. cbv zeta.
  split; [| split].
  - now rewrite length_map, length_rev, length_seq.
  - intros k Hk.
    exists (ComplianceHeatmap.dayData (startOfDay tz now) logs (n - 1 - k)). split.
    + rewrite nth_error_map.
      assert (E : nth_error (rev (seq 0 n)) k = Some (n - 1 - k)%nat).
      { rewrite nth_error_rev, length_seq.
        destruct (Nat.ltb_spec k n); [| lia].
        replace (n - S k)%nat with (n - 1 - k)%nat by lia.
        rewrite nth_error_seq. destruct (Nat.ltb_spec (n - 1 - k) n); [reflexivity | lia]. }
      now rewrite E.
    + destruct (dayData_counts (startOfDay tz now) logs (n - 1 - k)) as (_ & _ & _ & _ & Hd).
      cbv zeta in Hd. rewrite Hd. reflexivity.
  - apply Forall_forall. intros day Hday. apply in_map_iff in Hday as (i & <- & _).
    destruct (dayData_counts (startOfDay tz now) logs i) as (_ & _ & Ht & Hc & _).
    cbv zeta in Ht, Hc. cbv zeta.
    set (day := ComplianceHeatmap.dayData (startOfDay tz now) logs i) in *.
    split; [exact Ht |].
    assert (Hcol : HeatmapGrid.cellColor day
                   = color_by_counts (ComplianceHeatmap.takenCount day)
                                     (ComplianceHeatmap.missedCount day)).
    { unfold HeatmapGrid.cellColor, ComplianceHeatmap.hasData. rewrite Hc, Ht.
      apply getColorClass_counts. }
    rewrite Hc, Ht.
    set (t := ComplianceHeatmap.takenCount day) in *.
    set (m := ComplianceHeatmap.missedCount day) in *.
    destruct (Nat.ltb_spec 0 (t + m)) as [Hn | Hn].
    + split; [| split; [| exact Hcol]].
      * apply Qle_bool_iff. change 0%Q with (inject_Z 0).
        rewrite (ratio_ge t (t + m) 0 Hn). apply Z.leb_le. lia.
      * apply Qle_bool_iff. change 100%Q with (inject_Z 100).
        rewrite (ratio_le t (t + m) 100 Hn). apply Z.leb_le. lia.
    + unfold ComplianceHeatmap.ratio. destruct (Nat.ltb_spec 0 (t + m)); [lia |].
      split; [| split; [| exact Hcol]]; apply Qle_bool_iff; reflexivity.
Qed.

Lemma weeksLoop_concat (data : list ComplianceHeatmap.DayData) :
  forall fuel i, (length data <= i + fuel)%nat ->
                 concat (HeatmapGrid.weeksLoop fuel i data) = skipn i data.
Proof.
  induction fuel as [| fuel IH]; intros i H; cbn [HeatmapGrid.weeksLoop].
  - cbn [concat]. symmetry. apply skipn_all2. lia.
  - destruct (Nat.ltb_spec i (length data)) as [Hi | Hi].
    + cbn [concat]. rewrite IH by lia. unfold HeatmapGrid.slice.
      replace (i + 7 - i)%nat with 7%nat by lia.
      replace (i + 7)%nat with (7 + i)%nat by lia.
      rewrite <- skipn_skipn. apply firstn_skipn.
    + cbn [concat]. symmetry. apply skipn_all2. lia.
Qed.

Lemma weeksLoop_nth (data : list ComplianceHeatmap.DayData) :
  forall fuel i k, (length data <= i + fuel)%nat ->
    nth_error (HeatmapGrid.weeksLoop fuel i data) k
    = if (i + 7 * k <? length data)%nat
      then Some (firstn 7 (skipn (i + 7 * k) data))
      else None.
Proof.
  induction fuel as [| fuel IH]; intros i k H; cbn [HeatmapGrid.weeksLoop].
  - destruct (Nat.ltb_spec (i + 7 * k) (length data)); [lia |]. now destruct k.
  - destruct (Nat.ltb_spec i (length data)) as [Hi | Hi].
    + destruct k as [| k]; cbn [nth_error].
      * rewrite Nat.mul_0_r, Nat.add_0_r.
        destruct (Nat.ltb_spec i (length data)); [| lia].
        unfold HeatmapGrid.slice. now replace (i + 7 - i)%nat with 7%nat by lia.
      * rewrite IH by lia. now replace (i + 7 + 7 * k)%nat with (i + 7 * S k)%nat by lia.
    + destruct (Nat.ltb_spec (i + 7 * k) (length data)); [lia |]. now destruct k.
Qed.

(** X22.  The rows of the heatmap cut the cells into runs of seven without
    losing, repeating or reordering any: the rows put end to end are the
    cells, row [k] holds the cells from index [7k] on, every row but the
    last has seven cells, and the last has between one and seven. *)
Theorem weeks_partition :
  forall (data : list ComplianceHeatmap.DayData),
    let weeks := HeatmapGrid.weeksData data in
    concat weeks = data /\
    (forall k, nth_error weeks k
               = if (7 * k <? length data)%nat
                 then Some (firstn 7 (skipn (7 * k) data))
                 else None) /\
    (forall k week, nth_error weeks k = Some week ->
                    (1 <= length week <= 7)%nat /\
                    ((7 * (k + 1) <= length data)%nat -> length week = 7%nat)) /\
    (7 * length weeks < length data + 7)%nat /\ (length data <= 7 * length weeks)%nat.
Proof.
  intros data weeks. unfold weeks, HeatmapGrid.weeksData. clear weeks.
  assert (Hnth : forall k, nth_error (HeatmapGrid.weeksLoop (length data) 0 data) k
                           = if (7 * k <? length data)%nat
                             then Some (firstn 7 (skipn (7 * k) data))
                             else None).
  { intros k. rewrite (weeksLoop_nth data (length data) 0 k) by lia. reflexivity. }
  split; [| split; [| split]].
  - rewrite (weeksLoop_concat data (length data) 0) by lia. reflexivity.
  - exact Hnth.
  - intros k week Hk. rewrite Hnth in Hk.
    destruct (Nat.ltb_spec (7 * k) (length data)) as [Hlt | Hge]; [| discriminate Hk].
    injection Hk as <-. rewrite length_firstn, length_skipn. lia.
  - set (ws := HeatmapGrid.weeksLoop (length data) 0 data) in *.
    pose proof (Hnth (length ws)) as Hend.
    rewrite (proj2 (nth_error_None ws (length ws)) (le_n _)) in Hend.
    destruct (Nat.ltb_spec (7 * length ws) (length data)) as [| Hge]; [discriminate Hend |].
    split; [| exact Hge].
    destruct (length ws) as [| n] eqn:Hlen; [lia |].
    pose proof (Hnth n) as Hlast.
    assert (Hsome : nth_error ws n <> None) by (apply nth_error_Some; lia).
    destruct (Nat.ltb_spec (7 * n) (length data)); [lia | congruence].
Qed.

(** ** Notifications: timers, permission and tags *)

Section NotificationFacts.
Import Notifications UseNotifications.

Lemma cancelNotification_frame id b :
  timers (cancelNotification id b)
  = List.filter (fun t => negb ((id >=? 0) && (timer_id t =? id))) (timers b) /\
  nextTimerId (cancelNotification id b) = nextTimerId b /\
  shown (cancelNotification id b) = shown b /\
  warnings (cancelNotification id b) = warnings b /\
  Notification_permission (cancelNotification id b) = Notification_permission b.
Proof.
  unfold cancelNotification, clearTimeout. destruct (id >=? 0); cbn [andb timers nextTimerId
    shown warnings Notification_permission]; repeat split.
  induction (timers b) as [| t l IH]; [reflexivity |]. cbn [List.filter negb]. now f_equal.
Qed.

Lemma cancelEach_frame ids : forall b,
  timers (cancelEach ids b) = List.filter (fun t => negb (cancelled ids t)) (timers b) /\
  nextTimerId (cancelEach ids b) = nextTimerId b /\
  shown (cancelEach ids b) = shown b /\
  warnings (cancelEach ids b) = warnings b /\
  Notification_permission (cancelEach ids b) = Notification_permission b.
Proof.
  unfold cancelEach.
  induction ids as [| id ids IH]; intros b; cbn [fold_left].
  - repeat split. unfold cancelled. cbn [existsb negb].
    induction (timers b) as [| t l IHl]; [reflexivity |]. cbn [List.filter]. now f_equal.
  - destruct (IH (cancelNotification id b)) as (H1 & H2 & H3 & H4 & H5).
    destruct (cancelNotification_frame id b) as (K1 & K2 & K3 & K4 & K5).
    rewrite H1, H2, H3, H4, H5, K1, K2, K3, K4, K5. repeat split.
    rewrite filter_filter. apply filter_ext. intros t.
    unfold cancelled. cbn [existsb]. now rewrite negb_orb.
Qed.

Lemma showNotification_frame uc title options b :
  timers (showNotification uc title options b) = timers b /\
  nextTimerId (showNotification uc title options b) = nextTimerId b.
Proof.
  unfold showNotification, requestNotificationPermission, Notification_requestPermission.
  destruct (Notification_permission b) as [[] |]; try (split; reflexivity).
  destruct uc; split; reflexivity.
Qed.

Lemma notify_frame uc j b :
  timers (notify uc j b) = timers b /\ nextTimerId (notify uc j b) = nextTimerId b.
Proof. unfold notify. apply showNotification_frame. Qed.

(** With the permission granted the reminder is shown, nothing else. *)
Lemma notify_granted uc j b :
  Notification_permission b = Some granted ->
  notify uc j b = display (reminder (controller b) j) b.
Proof.
  intros H. unfold notify, showNotification, requestNotificationPermission,
              Notification_requestPermission, reminder, tag_of.
  rewrite H. cbv zeta. cbn [intensity notificationOptions body tag vibrate default].
  destruct (job_intensity j); reflexivity.
Qed.

Lemma scheduleNotification_cases uc now pillName scheduledTime i b :
  let r := scheduleNotification uc now pillName scheduledTime i b in
  let j := {| job_pillName := pillName; job_scheduledTime := scheduledTime;
              job_intensity := i |} in
  (scheduledTime <= now /\ fst r = -1 /\ snd r = notify uc j b) \/
  (now < scheduledTime /\ fst r = nextTimerId b /\
   timers (snd r) = timers b ++ [{| timer_id := nextTimerId b; due := scheduledTime; job := j |}] /\
   nextTimerId (snd r) = nextTimerId b + 1 /\
   shown (snd r) = shown b /\ warnings (snd r) = warnings b /\
   Notification_permission (snd r) = Notification_permission b /\
   controller (snd r) = controller b).
Proof.
  cbv zeta. unfold scheduleNotification. cbv zeta.
  destruct (Z.leb_spec (scheduledTime - now) 0); [left | right]; cbn [fst snd].
  - repeat split. lia.
  - unfold setTimeout.
    cbn [fst snd timers nextTimerId shown warnings Notification_permission controller].
    repeat split; try lia. repeat f_equal. lia.
Qed.

(** The loop over the times of a pill, from any accumulator. *)
Lemma scheduleEach_from tz uc now pillName i (ts : list TimeOfDay) :
  forall (ids0 : list Z) (b : Browser),
    0 <= nextTimerId b ->
    let r := fold_left
               (fun (acc : list Z * Browser) timeStr =>
                  let (timeoutIds, b) := acc in
                  let scheduledTime := parseTimeString tz now timeStr in
                  let (timeoutId, b) :=
                    scheduleNotification uc now pillName scheduledTime i b in
                  (if timeoutId >=? 0 then timeoutIds ++ [timeoutId] else timeoutIds, b))
               ts (ids0, b) in
    exists new,
      timers (snd r) = timers b ++ new /\
      fst r = ids0 ++ map timer_id new /\
      Forall (fun t => nextTimerId b <= timer_id t < nextTimerId (snd r)) new /\
      nextTimerId b <= nextTimerId (snd r) /\
      map due new = List.filter (fun s => now <? s) (map (parseTimeString tz now) ts) /\
      Forall (fun t => job_pillName (job t) = pillName /\ job_intensity (job t) = i /\
                       job_scheduledTime (job t) = due t) new /\
      (Notification_permission b = Some granted ->
       Notification_permission (snd r) = Some granted /\
       controller (snd r) = controller b /\
       warnings (snd r) = warnings b /\
       shown (snd r)
       = shown b
           ++ map (fun s => reminder (controller b)
                              {| job_pillName := pillName; job_scheduledTime := s;
                                 job_intensity := i |})
                  (List.filter (fun s => s <=? now) (map (parseTimeString tz now) ts))).
Proof.
  induction ts as [| t ts IH]; intros ids0 b Hb; cbn [fold_left map List.filter].
  - exists []. cbn [fst snd map length]. rewrite !app_nil_r.
    repeat split; try constructor; auto; lia.
  - pose proof (scheduleNotification_cases uc now pillName (parseTimeString tz now t) i b) as Hc.
    cbv zeta in Hc.
    destruct (scheduleNotification uc now pillName (parseTimeString tz now t) i b)
      as [timeoutId b1] eqn:Hs.
    cbn [fst snd] in Hc.
    destruct Hc as [(Hle & Hid & Hb1) | (Hlt & Hid & Ht & Hn & Hsh & Hw & Hp & Hct)].
    + subst timeoutId. cbv zeta. change (-1 >=? 0) with false. cbv iota.
      destruct (notify_frame uc {| job_pillName := pillName;
                                   job_scheduledTime := parseTimeString tz now t;
                                   job_intensity := i |} b) as [Ft Fn].
      rewrite <- Hb1 in Ft, Fn.
      destruct (IH ids0 b1) as (new & H1 & H2 & H3 & H4 & H5 & H6 & H7); [lia |].
      cbv zeta in H1, H2, H3, H4, H7.
      exists new. rewrite H1, H2, Ft. rewrite Fn in H3, H4.
      destruct (Z.ltb_spec now (parseTimeString tz now t)); [lia |].
      destruct (Z.leb_spec (parseTimeString tz now t) now); [| lia].
      split; [reflexivity |]. split; [reflexivity |]. split; [exact H3 |].
      split; [exact H4 |]. split; [exact H5 |]. split; [exact H6 |].
      intros Hg. rewrite (notify_granted uc _ b Hg) in Hb1.
      assert (Hg1 : Notification_permission b1 = Some granted) by now rewrite Hb1.
      destruct (H7 Hg1) as (K1 & K2 & K3 & K4).
      rewrite K1, K2, K3, K4, Hb1. cbn [display controller warnings shown map].
      rewrite <- app_assoc. repeat split.
    + subst timeoutId. cbv zeta.
      destruct (Z.geb_spec (nextTimerId b) 0); [| lia].
      destruct (IH (ids0 ++ [nextTimerId b]) b1) as (new & H1 & H2 & H3 & H4 & H5 & H6 & H7);
        [lia |].
      cbv zeta in H1, H2, H3, H4, H7.
      exists ({| timer_id := nextTimerId b; due := parseTimeString tz now t;
                 job := {| job_pillName := pillName;
                           job_scheduledTime := parseTimeString tz now t;
                           job_intensity := i |} |} :: new).
      rewrite H1, H2, Ht, <- !app_assoc. cbn [app map timer_id due].
      destruct (Z.ltb_spec now (parseTimeString tz now t)); [| lia].
      destruct (Z.leb_spec (parseTimeString tz now t) now); [lia |].
      split; [reflexivity |]. split; [reflexivity |]. split; [| split; [| split; [| split]]].
      * constructor; [cbn [timer_id]; lia |].
        eapply Forall_impl; [| exact H3]. intros x Hx. cbv beta in Hx. lia.
      * lia.
      * now rewrite H5.
      * constructor; [cbn [job due job_pillName job_intensity job_scheduledTime]; auto |].
        exact H6.
      * intros Hg.
        assert (Hg1 : Notification_permission b1 = Some granted) by now rewrite Hp.
        destruct (H7 Hg1) as (K1 & K2 & K3 & K4).
        rewrite K1, K2, K3, K4, Hct, Hw, Hsh. repeat split.
Qed.

Lemma registered_insert h pid ids id :
  In id ids ->
  registered {| permission := permission h;
                scheduledNotifications := <[pid := ids]> (scheduledNotifications h) |} id.
Proof.
  intros H. exists pid, ids. split; [| exact H]. cbn [scheduledNotifications].
  apply lookup_insert_eq.
Qed.

Lemma cancelled_false ids t :
  cancelled ids t = false -> 0 <= timer_id t -> ~ In (timer_id t) ids.
Proof.
  unfold cancelled. intros H Ht Hin.
  assert (E : existsb (fun id => (id >=? 0) && (timer_id t =? id)) ids = true).
  { apply existsb_exists. exists (timer_id t). split; [exact Hin |].
    rewrite Z.eqb_refl, andb_true_r. apply Z.geb_le. lia. }
  congruence.
Qed.

Lemma tracked_scheduleForPill tz uc now pill i w :
  timers_tracked w -> timers_tracked (scheduleForPill tz uc now pill i w).
Proof.
  destruct w as [h b]. unfold timers_tracked, scheduleForPill. cbn [fst snd].
  intros [Hn Ht].
  destruct (permission h); try (cbn [fst snd console_warn nextTimerId timers]; now split).
  set (b1 := match scheduledNotifications h !! pill_id pill with
             | Some existingTimeouts => cancelEach existingTimeouts b
             | None => b
             end).
  assert (Hb1 : nextTimerId b1 = nextTimerId b /\
                forall t, In t (timers b1) ->
                          In t (timers b) /\
                          forall ids, scheduledNotifications h !! pill_id pill = Some ids ->
                                      ~ In (timer_id t) ids).
  { unfold b1. destruct (scheduledNotifications h !! pill_id pill) as [ex |] eqn:Hex.
    - destruct (cancelEach_frame ex b) as (F1 & F2 & _). rewrite F1, F2. split; [reflexivity |].
      intros t Hin. apply filter_In in Hin as [Hin Hc]. split; [exact Hin |].
      intros ids [= <-]. apply negb_true_iff in Hc. apply cancelled_false; [exact Hc |].
      apply (Ht t Hin).
    - split; [reflexivity |]. intros t Hin. split; [exact Hin | discriminate]. }
  destruct Hb1 as [Hn1 Ht1].
  unfold scheduleEach.
  destruct (scheduleEach_from tz uc now (name pill) i (times pill) [] b1)
    as (new & H1 & H2 & H3 & H4 & _); [lia |].
  destruct (fold_left _ (times pill) ([], b1)) as [timeoutIds b2].
  cbn [fst snd] in *. split; [lia |].
  intros t Hin. rewrite H1 in Hin. apply in_app_or in Hin as [Hin | Hin].
  - destruct (Ht1 t Hin) as [Hold Hnot]. destruct (Ht t Hold) as [Hr (pid & ids & Hl & Hi)].
    split; [lia |]. exists pid, ids. split; [| exact Hi]. cbn [scheduledNotifications].
    rewrite lookup_insert_ne; [exact Hl |].
    intros E. subst pid. now apply (Hnot ids Hl).
  - rewrite Forall_forall in H3. specialize (H3 t Hin). split; [lia |].
    apply registered_insert. rewrite H2. cbn [app]. now apply in_map.
Qed.

Lemma tracked_cancelForPill pid w : timers_tracked w -> timers_tracked (cancelForPill pid w).
Proof.
  destruct w as [h b]. unfold timers_tracked, cancelForPill. cbn [fst snd].
  intros [Hn Ht].
  destruct (scheduledNotifications h !! pid) as [ids |] eqn:Hids; cbn [fst snd]; [| now split].
  destruct (cancelEach_frame ids b) as (F1 & F2 & _). rewrite F1, F2. split; [exact Hn |].
  intros t Hin. apply filter_In in Hin as [Hin Hc]. apply negb_true_iff in Hc.
  destruct (Ht t Hin) as [Hr (pid' & ids' & Hl & Hi)]. split; [exact Hr |].
  exists pid', ids'. split; [| exact Hi]. cbn [scheduledNotifications].
  rewrite lookup_delete_ne; [exact Hl |].
  intros E. subst pid'. rewrite Hids in Hl. injection Hl as <-.
  now apply (cancelled_false ids t Hc (proj1 Hr)).
Qed.

(** What [cancelAll] leaves of the timers: those no entry of the registry
    names. *)
Lemma cancelAll_timers (m : gmap string (list Z)) (b : Browser) :
  let b' := map_fold (fun _ timeoutIds b => cancelEach timeoutIds b) b m in
  nextTimerId b' = nextTimerId b /\
  shown b' = shown b /\ warnings b' = warnings b /\
  forall t, In t (timers b') <->
            In t (timers b) /\
            forall pid ids, m !! pid = Some ids -> cancelled ids t = false.
Proof.
  cbv zeta.
  apply (map_fold_weak_ind
           (fun (r : Browser) (m : gmap string (list Z)) =>
              nextTimerId r = nextTimerId b /\
              shown r = shown b /\ warnings r = warnings b /\
              forall t, In t (timers r) <->
                        In t (timers b) /\
                        forall pid ids, m !! pid = Some ids -> cancelled ids t = false)).
  - repeat split; try tauto.
    intros pid ids Hl. rewrite lookup_empty in Hl. discriminate.
  - intros pid ids m0 r Hnone (H1 & H2 & H3 & H4).
    destruct (cancelEach_frame ids r) as (F1 & F2 & F3 & F4 & _).
    rewrite F1, F2, F3, F4. split; [exact H1 |]. split; [exact H2 |]. split; [exact H3 |].
    intros t. rewrite filter_In, H4, negb_true_iff. split.
    + intros [[Hin Hall] Hc]. split; [exact Hin |].
      intros pid' ids' Hl. destruct (decide (pid' = pid)) as [-> | Hne].
      * rewrite lookup_insert_eq in Hl. now injection Hl as <-.
      * rewrite lookup_insert_ne in Hl by congruence. now apply (Hall pid' ids').
    + intros [Hin Hall]. split; [split; [exact Hin |] |].
      * intros pid' ids' Hl. apply (Hall pid' ids').
        rewrite lookup_insert_ne; [exact Hl |]. intros ->. congruence.
      * apply (Hall pid ids). apply lookup_insert_eq.
Qed.

Lemma tracked_step tz w op : timers_tracked w -> timers_tracked (notif_step tz w op).
Proof.
  intros H. destruct op as [uc | | uc now pill i | pid | | uc id]; cbn [notif_step].
  - destruct w as [h b]. unfold timers_tracked, requestPermission in *.
    unfold requestNotificationPermission, Notification_requestPermission.
    destruct (Notification_permission b) as [[] |]; exact H.
  - destruct w as [h b]. unfold timers_tracked, checkPermission in *.
    destruct (Notification_permission b); exact H.
  - now apply tracked_scheduleForPill.
  - now apply tracked_cancelForPill.
  - destruct w as [h b]. unfold timers_tracked, cancelAll in *. cbn [fst snd] in *.
    destruct H as [Hn Ht].
    destruct (cancelAll_timers (scheduledNotifications h) b) as (F1 & _ & _ & F4).
    cbv zeta in F1, F4. rewrite F1. split; [exact Hn |].
    intros t Hin. apply F4 in Hin as [Hin Hall]. exfalso.
    destruct (Ht t Hin) as [Hr (pid & ids & Hl & Hi)].
    now apply (cancelled_false ids t (Hall pid ids Hl) (proj1 Hr)).
  - destruct w as [h b]. unfold timers_tracked, runTimer in *. cbn [fst snd] in *.
    destruct H as [Hn Ht].
    destruct (find (fun t => timer_id t =? id) (timers b)) as [t0 |]; [| now split].
    destruct (notify_frame uc (job t0) (clearTimeout id b)) as [F1 F2].
    rewrite F1, F2. cbn [clearTimeout timers nextTimerId]. split; [exact Hn |].
    intros t Hin. apply filter_In in Hin as [Hin _]. now apply Ht.
Qed.
End NotificationFacts.

(** X23.  The hook never loses track of a notification: while scheduling,
    rescheduling, cancelling, permission changes and firing timers go on,
    every pending timer stays one the hook remembers for some pill, so
    [cancelAll] leaves no timer pending, whatever happened before, and
    shows nothing and warns of nothing itself. *)
Theorem notifications_never_leak :
  forall (tz : Z) (ops : list NotifOp) (w : UseNotifications.World),
    timers_tracked w ->
    let w' := notif_run tz ops w in
    timers_tracked w' /\
    Notifications.timers (snd (UseNotifications.cancelAll w')) = [] /\
    Notifications.shown (snd (UseNotifications.cancelAll w')) = Notifications.shown (snd w') /\
    Notifications.warnings (snd (UseNotifications.cancelAll w'))
    = Notifications.warnings (snd w').
Proof.
  intros tz ops w Hw w'.
  assert (Hw' : timers_tracked w').
  { unfold w', notif_run. clear w'. revert w Hw.
    induction ops as [| op ops IH]; intros w Hw; cbn [fold_left]; [exact Hw |].
    apply IH. now apply tracked_step. }
  split; [exact Hw' |].
  pose proof (tracked_step tz w' CancelAll Hw') as Hc. cbn [notif_step] in Hc.
  destruct w' as [h b]. unfold UseNotifications.cancelAll in *. cbn [fst snd] in *.
  destruct (cancelAll_timers (UseNotifications.scheduledNotifications h) b)
    as (_ & F2 & F3 & _).
  cbv zeta in F2, F3. split; [| split; [exact F2 | exact F3]].
  destruct Hc as [_ Hc].
  destruct (Notifications.timers _) as [| t l]; [reflexivity |]. exfalso.
  destruct (Hc t (or_introl eq_refl)) as [_ (pid & ids & Hl & _)].
  cbn [fst UseNotifications.scheduledNotifications] in Hl.
  rewrite lookup_empty in Hl. discriminate.
Qed.

Lemma notifications_never_leak_witness :
  Notifications.timers
    (snd (UseNotifications.cancelAll
            (notif_run 0 notification_ops (UseNotifications.mount granted_browser)))) = [].
Proof.
  apply (notifications_never_leak 0 notification_ops (UseNotifications.mount granted_browser)).
  unfold timers_tracked. simpl. split; [lia |]. intros t [].
Defined.

Section SchedulingFacts.
Import Notifications UseNotifications.

Lemma cancelEach_controller ids : forall b, controller (cancelEach ids b) = controller b.
Proof.
  unfold cancelEach. induction ids as [| id ids IH]; intros b; cbn [fold_left]; [reflexivity |].
  rewrite IH. unfold cancelNotification, clearTimeout. now destruct (id >=? 0).
Qed.

Lemma append_inj_r (p s s' : string) : String.append p s = String.append p s' -> s = s'.
Proof.
  induction p as [| c p IH]; cbn [String.append]; [trivial |].
  intros [= H]. now apply IH.
Qed.

Lemma Number_toString_inj (z z' : Z) : Number_toString z = Number_toString z' -> z = z'.
Proof.
  unfold Number_toString. intros H.
  assert (Hnn : forall x, Z.to_int x <> Decimal.Pos Decimal.Nil /\
                          Z.to_int x <> Decimal.Neg Decimal.Nil).
  { intros [| p | p]; cbn [Z.to_int]; split; try discriminate;
      intros [= E]; now apply (DecimalPos.Unsigned.to_uint_nonnil p). }
  assert (E : Some (Z.to_int z) = Some (Z.to_int z')).
  { rewrite <- (NilZero.isi (Z.to_int z)) by apply Hnn.
    rewrite <- (NilZero.isi (Z.to_int z')) by apply Hnn.
    now rewrite H. }
  injection E as E. rewrite <- (DecimalZ.of_to z), <- (DecimalZ.of_to z'). now rewrite E.
Qed.

Lemma filter_fresh (b : Browser) (t : Timer) :
  (forall x, In x (timers b) -> timer_id x < timer_id t) ->
  List.filter (fun x => negb (timer_id x =? timer_id t)) (timers b ++ [t]) = timers b.
Proof.
  intros H. rewrite List.filter_app. cbn [List.filter]. rewrite Z.eqb_refl. cbn [negb].
  rewrite app_nil_r.
  induction (timers b) as [| x l IH]; [reflexivity |]. cbn [List.filter].
  assert (Hx : timer_id x < timer_id t) by (apply H; now left).
  destruct (Z.eqb_spec (timer_id x) (timer_id t)); [lia |]. cbn [negb]. f_equal.
  apply IH. intros y Hy. apply H. now right.
Qed.
End SchedulingFacts.

(** X24.  Without the permission [scheduleForPill] only prints a warning.
    With it, the timers the hook held for the pill are cancelled and
    replaced: every time of the pill that is still ahead today gets one
    timer due at that time, every time that has passed is notified at
    once, and the hook remembers exactly the new timers for the pill. *)
Theorem scheduleForPill_outcome :
  forall (tz : Z) (uc : Notifications.NotificationPermission) (now : Instant) (pill : Pill)
         (i : Intensity) (h : UseNotifications.Hook) (b : Notifications.Browser),
    let w' := UseNotifications.scheduleForPill tz uc now pill i (h, b) in
    let scheduled := map (parseTimeString tz now) (times pill) in
    let existing :=
      default [] (UseNotifications.scheduledNotifications h !! pill_id pill) in
    (UseNotifications.permission h <> Notifications.granted ->
     w' = (h, Notifications.console_warn "Notification permission not granted" b)) /\
    (UseNotifications.permission h = Notifications.granted ->
     0 <= Notifications.nextTimerId b ->
     Notifications.Notification_permission b = Some Notifications.granted ->
     exists new,
       Notifications.timers (snd w')
       = List.filter (fun t => negb (cancelled existing t)) (Notifications.timers b) ++ new /\
       UseNotifications.scheduledNotifications (fst w')
       = <[pill_id pill := map Notifications.timer_id new]>
           (UseNotifications.scheduledNotifications h) /\
       map Notifications.due new = List.filter (fun s => now <? s) scheduled /\
       Forall (fun t =>
                 Notifications.job_pillName (Notifications.job t) = name pill /\
                 Notifications.job_intensity (Notifications.job t) = i /\
                 Notifications.job_scheduledTime (Notifications.job t) = Notifications.due t /\
                 Notifications.nextTimerId b <= Notifications.timer_id t) new /\
       Notifications.shown (snd w')
       = Notifications.shown b
           ++ map (fun s => reminder (Notifications.controller b)
                              {| Notifications.job_pillName := name pill;
                                 Notifications.job_scheduledTime := s;
                                 Notifications.job_intensity := i |})
                  (List.filter (fun s => s <=? now) scheduled) /\
       Notifications.warnings (snd w') = Notifications.warnings b).
Proof.
  intros tz uc now pill i h b w' scheduled existing. split.
  - intros Hp. unfold w', UseNotifications.scheduleForPill.
    destruct (UseNotifications.permission h); [contradiction | reflexivity | reflexivity].
  - intros Hp Hn Hg. unfold w', UseNotifications.scheduleForPill. rewrite Hp.
    set (b1 := match UseNotifications.scheduledNotifications h !! pill_id pill with
               | Some existingTimeouts => UseNotifications.cancelEach existingTimeouts b
               | None => b
               end).
    assert (Hb1 : b1 = UseNotifications.cancelEach existing b).
    { unfold b1, existing.
      destruct (UseNotifications.scheduledNotifications h !! pill_id pill); reflexivity. }
    destruct (cancelEach_frame existing b) as (F1 & F2 & F3 & F4 & F5).
    pose proof (cancelEach_controller existing b) as F6.
    rewrite <- Hb1 in F1, F2, F3, F4, F5, F6. clearbody b1.
    unfold UseNotifications.scheduleEach.
    destruct (scheduleEach_from tz uc now (name pill) i (times pill) [] b1)
      as (new & H1 & H2 & H3 & H4 & H5 & H6 & H7); [lia |].
    destruct (fold_left _ (times pill) ([], b1)) as [timeoutIds b2].
    cbn [fst snd] in *.
    destruct H7 as (K1 & K2 & K3 & K4); [congruence |].
    exists new. rewrite H1, F1, H2, K3, K4, F3, F4, F6. cbn [app].
    repeat split; auto.
    apply Forall_forall. intros t Ht. rewrite Forall_forall in H3, H6.
    destruct (H6 t Ht) as (A1 & A2 & A3). specialize (H3 t Ht). cbv beta in H3.
    repeat split; auto. lia.
Qed.

Lemma scheduleForPill_outcome_witness :
  exists new,
    map Notifications.due new
    = [ at_time day_2025_01_20 21 0 ] /\
    Notifications.shown
      (snd (UseNotifications.scheduleForPill 0 Notifications.granted
              (at_time day_2025_01_20 12 0) aspirin normal
              (UseNotifications.mount granted_browser)))
    = [ reminder false
          {| Notifications.job_pillName := "Aspirin";
             Notifications.job_scheduledTime := at_time day_2025_01_20 9 0;
             Notifications.job_intensity := normal |} ].
Proof.
  destruct (scheduleForPill_outcome 0 Notifications.granted (at_time day_2025_01_20 12 0)
              aspirin normal (fst (UseNotifications.mount granted_browser)) granted_browser)
    as [_ H].
  destruct H as (new & _ & _ & H3 & _ & H5 & _); [reflexivity | simpl; lia | reflexivity |].
  exists new. split; [exact H3 | exact H5].
Defined.

(** X25.  [scheduleNotification] answers -1 exactly when the scheduled
    time is not after now; then it sets no timer and, with the permission
    granted, shows the reminder at once.  Otherwise it shows nothing and
    sets one timer, due at the scheduled time, whose id it returns.  In
    both cases [cancelNotification] of the answer leaves the timers as they
    were before.  For one pill the tags of two reminders are equal only
    when their scheduled instants are. *)
Theorem schedule_then_cancel :
  forall (uc : Notifications.NotificationPermission) (now : Instant) (pillName : string)
         (scheduledTime other : Instant) (i : Intensity) (b : Notifications.Browser),
    fresh_ids b ->
    let r := Notifications.scheduleNotification uc now pillName scheduledTime i b in
    let j := {| Notifications.job_pillName := pillName;
                Notifications.job_scheduledTime := scheduledTime;
                Notifications.job_intensity := i |} in
    (fst r = -1 <-> scheduledTime <= now) /\
    (scheduledTime <= now ->
     Notifications.timers (snd r) = Notifications.timers b /\
     (Notifications.Notification_permission b = Some Notifications.granted ->
      Notifications.shown (snd r)
      = Notifications.shown b ++ [reminder (Notifications.controller b) j])) /\
    (now < scheduledTime ->
     Notifications.shown (snd r) = Notifications.shown b /\
     Notifications.timers (snd r)
     = Notifications.timers b
         ++ [{| Notifications.timer_id := fst r; Notifications.due := scheduledTime;
                Notifications.job := j |}]) /\
    Notifications.timers (Notifications.cancelNotification (fst r) (snd r))
    = Notifications.timers b /\
    fresh_ids (snd r) /\
    (tag_of pillName scheduledTime = tag_of pillName other -> scheduledTime = other).
Proof.
  intros uc now pillName s other i b [Hn Hf] r j.
  pose proof (scheduleNotification_cases uc now pillName s i b) as Hc. cbv zeta in Hc.
  fold r j in Hc.
  destruct (notify_frame uc j b) as [Nt Nn].
  destruct Hc as [(Hle & Hid & Hb) | (Hlt & Hid & Ht & Hnx & Hsh & Hw & Hp & Hct)].
  - split; [split; [intros _; exact Hle | intros _; exact Hid] |].
    split; [| split; [| split; [| split]]].
    + intros _. rewrite Hb. split; [exact Nt |].
      intros Hg. now rewrite (notify_granted uc j b Hg).
    + intros Hlt. lia.
    + rewrite Hid, Hb. unfold Notifications.cancelNotification.
      change (-1 >=? 0) with false. cbv iota. exact Nt.
    + rewrite Hb. unfold fresh_ids. rewrite Nt, Nn. now split.
    + intros E. unfold tag_of in E.
      apply append_inj_r, append_inj_r, append_inj_r in E. now apply Number_toString_inj.
  - split; [split; [intros E; lia | intros Hle; lia] |].
    split; [| split; [| split; [| split]]].
    + intros Hle. lia.
    + intros _. split; [exact Hsh |]. now rewrite Ht, Hid.
    + unfold Notifications.cancelNotification, Notifications.clearTimeout.
      destruct (Z.geb_spec (fst r) 0); [| lia]. cbn [Notifications.timers].
      rewrite Ht, Hid.
      apply (filter_fresh b {| Notifications.timer_id := Notifications.nextTimerId b;
                               Notifications.due := s; Notifications.job := j |}).
      intros x Hx. cbn [Notifications.timer_id]. now apply Hf.
    + unfold fresh_ids. rewrite Hnx, Ht. split; [lia |].
      intros t Hin. apply in_app_or in Hin as [Hin | [<- | []]].
      * specialize (Hf t Hin). lia.
      * cbn [Notifications.timer_id]. lia.
    + intros E. unfold tag_of in E.
      apply append_inj_r, append_inj_r, append_inj_r in E. now apply Number_toString_inj.
Qed.

Lemma schedule_then_cancel_witness :
  let r := Notifications.scheduleNotification Notifications.granted
             (at_time day_2025_01_20 8 0) "Aspirin" (at_time day_2025_01_20 9 0) normal
             granted_browser in
  Notifications.timers (Notifications.cancelNotification (fst r) (snd r)) = [].
Proof.
  intros r.
  apply (schedule_then_cancel Notifications.granted (at_time day_2025_01_20 8 0) "Aspirin"
           (at_time day_2025_01_20 9 0) 0 normal granted_browser).
  unfold fresh_ids. simpl. split; [lia |]. intros t [].
Defined.

(** ** The swipe control confirms once *)

Section SwipeFacts.
Import SwipeConfirm.
Variable refs : option Layout.
Variable resetAfterConfirm : bool.
Hypothesis fits : forall l, refs = Some l -> sliderWidth l <= containerWidth l.


End SwipeFacts.



(** ** Adding a pill and deleting it again *)

Lemma filter_keep_all {A : Type} (f : A -> bool) (l : list A) :
  (forall x, In x l -> f x = true) -> List.filter f l = l.
Proof.
  induction l as [| a l IH]; intros H; [reflexivity |]. cbn [List.filter].
  rewrite (H a (or_introl eq_refl)). f_equal. apply IH. intros x Hx. apply H. now right.
Qed.

Lemma filter_drop_all {A : Type} (f : A -> bool) (l : list A) :
  (forall x, In x l -> f x = false) -> List.filter f l = [].
Proof.
  induction l as [| a l IH]; intros H; [reflexivity |]. cbn [List.filter].
  rewrite (H a (or_introl eq_refl)). apply IH. intros x Hx. apply H. now right.
Qed.

Lemma usePills_mutateAll_appended ms : forall logs,
  UsePills.mutateAll ms logs = logs ++ map appended ms.
Proof.
  unfold UsePills.mutateAll.
  induction ms as [| m ms IH]; intros logs; cbn [fold_left map].
  - now rewrite app_nil_r.
  - rewrite IH, usePills_mutate_appended, <- app_assoc. reflexivity.
Qed.

Lemma neq_eqb_true (a b : string) : a <> b -> negb (String.eqb a b) = true.
Proof. intros H. destruct (String.eqb_spec a b); [contradiction | reflexivity]. Qed.

(** X27.  Deleting a pill that was just added under a new id gives back
    the state before it was added, in both hooks; this still holds when a
    pass of generation ([usePillSchedule]) or logged doses of the new pill
    ([usePills]) came in between: all that the pill brought is removed and
    nothing else. *)
Theorem added_pill_can_be_deleted :
  forall (tz : Z) (later : Instant) (uuidv4 : nat -> string) (uuid : string) (pill : Pill)
         (ms : list UsePills.Mutation) (s : UsePillSchedule.State) (s2 : UsePills.State),
    (forall p, In p (UsePillSchedule.pills s) -> pill_id p <> uuid) ->
    (forall l, In l (UsePillSchedule.logs s) -> pillId l <> uuid) ->
    (forall p, In p (UsePills.pills s2) -> pill_id p <> uuid) ->
    (forall l, In l (UsePills.logs s2) -> pillId l <> uuid) ->
    Forall (fun m => mutation_pill m = uuid) ms ->
    UsePillSchedule.deletePill uuid (UsePillSchedule.addPill uuid pill s) = s /\
    UsePillSchedule.deletePill uuid
      (UsePillSchedule.generateDailyLogs tz later uuidv4 (UsePillSchedule.addPill uuid pill s))
    = UsePillSchedule.generateDailyLogs tz later uuidv4 s /\
    UsePills.deletePill uuid (UsePillsCatalogue.addPill uuid pill s2) = s2 /\
    UsePills.deletePill uuid
      {| UsePills.pills := UsePills.pills (UsePillsCatalogue.addPill uuid pill s2);
         UsePills.logs := UsePills.mutateAll ms (UsePills.logs s2) |}
    = s2.
Proof.
  intros tz later u uuid pill ms s s2 Hp Hl Hp2 Hl2 Hms.
  assert (Fp : forall ps : list Pill,
             (forall p, In p ps -> pill_id p <> uuid) ->
             List.filter (fun p => negb (String.eqb (pill_id p) uuid))
               (ps ++ [ {| pill_id := uuid; name := name pill; dosage := dosage pill;
                           times := times pill; color := color pill; notes := notes pill |} ])
             = ps).
  { intros ps H. rewrite List.filter_app. cbn [List.filter pill_id].
    rewrite String.eqb_refl. cbn [negb]. rewrite app_nil_r.
    apply filter_keep_all. intros p Hin. apply neq_eqb_true. now apply H. }
  assert (Fl : forall ls : list PillLog,
             (forall l, In l ls -> pillId l <> uuid) ->
             List.filter (fun l => negb (String.eqb (pillId l) uuid)) ls = ls).
  { intros ls H. apply filter_keep_all. intros l Hin. apply neq_eqb_true. now apply H. }
  split; [| split; [| split]].
  - unfold UsePillSchedule.deletePill, UsePillSchedule.addPill.
    cbn [UsePillSchedule.pills UsePillSchedule.logs UsePillSchedule.lastScheduleDate].
    rewrite (Fp _ Hp), (Fl _ Hl). now destruct s.
  - unfold UsePillSchedule.generateDailyLogs, UsePillSchedule.addPill.
    cbn [UsePillSchedule.pills UsePillSchedule.logs UsePillSchedule.lastScheduleDate].
    destruct (negb (UsePillSchedule.date_eqb (UsePillSchedule.lastScheduleDate s)
                      (Some (toDateString tz later)))).
    + unfold UsePillSchedule.deletePill.
      cbn [UsePillSchedule.pills UsePillSchedule.logs UsePillSchedule.lastScheduleDate].
      rewrite (Fp _ Hp). f_equal.
      rewrite !pushLog_pills. cbn [app length].
      rewrite flat_map_app, pushed_app, !List.filter_app, (Fl _ Hl).
      f_equal.
      rewrite <- (app_nil_r (pushed tz later u 0 _)) at 2. f_equal.
      * apply Fl. intros l Hin. apply pushed_pillId in Hin.
        apply occurrences_of_ids in Hin as (p & Hin & <-). now apply Hp.
      * apply filter_drop_all. intros l Hin. apply pushed_pillId in Hin.
        cbn [flat_map times pill_id] in Hin. rewrite app_nil_r in Hin.
        rewrite map_map in Hin. cbn [fst] in Hin.
        apply in_map_iff in Hin as (t & <- & _). now rewrite String.eqb_refl.
    + unfold UsePillSchedule.deletePill.
      cbn [UsePillSchedule.pills UsePillSchedule.logs UsePillSchedule.lastScheduleDate].
      rewrite (Fp _ Hp), (Fl _ Hl). now destruct s.
  - unfold UsePills.deletePill, UsePillsCatalogue.addPill.
    cbn [UsePills.pills UsePills.logs].
    rewrite (Fp _ Hp2), (Fl _ Hl2). now destruct s2.
  - unfold UsePills.deletePill, UsePillsCatalogue.addPill.
    cbn [UsePills.pills UsePills.logs].
    rewrite (Fp _ Hp2), usePills_mutateAll_appended, List.filter_app, (Fl _ Hl2).
    rewrite filter_drop_all.
    + rewrite app_nil_r. now destruct s2.
    + intros l Hin. apply in_map_iff in Hin as (m & <- & Hm).
      rewrite Forall_forall in Hms. specialize (Hms m Hm). unfold mutation_pill in Hms.
      rewrite Hms. now rewrite String.eqb_refl.
Qed.

Lemma added_pill_can_be_deleted_witness :
  UsePillSchedule.deletePill "pill-3"
    (UsePillSchedule.generateDailyLogs 0 (at_time (day_2025_01_20 + 1) 8 0) mock_uuid
       (UsePillSchedule.addPill "pill-3" vitaminD two_pills))
  = UsePillSchedule.generateDailyLogs 0 (at_time (day_2025_01_20 + 1) 8 0) mock_uuid two_pills.
Proof.
  apply (added_pill_can_be_deleted 0 (at_time (day_2025_01_20 + 1) 8 0) mock_uuid "pill-3"
           vitaminD [] two_pills {| UsePills.pills := []; UsePills.logs := [] |}).
  - intros p [<- | [<- | []]]; discriminate.
  - intros l [<- | [<- | [<- | []]]]; discriminate.
  - intros p [].
  - intros l [].
  - constructor.
Defined.

(** ** The form for a pill *)






(** ** The reminder cards of [App] *)

Lemma find_filter {A : Type} (f g : A -> bool) (l : list A) :
  (forall x, f x = true -> g x = true) -> find f (List.filter g l) = find f l.
Proof.
  intros H. induction l as [| a l IH]; [reflexivity |]. cbn [List.filter find].
  destruct (g a) eqn:Hg; cbn [find].
  - now rewrite IH.
  - destruct (f a) eqn:Hf; [| exact IH]. rewrite (H a Hf) in Hg. discriminate.
Qed.

Lemma find_map {A : Type} (f : A -> bool) (g : A -> A) (l : list A) :
  (forall x, f (g x) = f x) -> find f (map g l) = option_map g (find f l).
Proof.
  intros H. induction l as [| a l IH]; [reflexivity |]. cbn [map find].
  rewrite H. destruct (f a); [reflexivity | exact IH].
Qed.

Lemma find_has_pill (pills : list Pill) (log : PillLog) :
  match find (fun p => String.eqb (pill_id p) (pillId log)) pills with
  | Some p => has_pill pills log = true /\ In p pills /\ pill_id p = pillId log
  | None => has_pill pills log = false
  end.
Proof.
  unfold has_pill. induction pills as [| a pills IH]; [reflexivity |]. cbn [find existsb].
  destruct (String.eqb_spec (pill_id a) (pillId log)) as [E | N]; cbn [orb].
  - split; [reflexivity |]. split; [now left | exact E].
  - destruct (find _ pills) as [p |]; [| exact IH].
    destruct IH as (H1 & H2 & H3). split; [exact H1 |]. split; [now right | exact H3].
Qed.

(** The cards of a list of reminders. *)
Lemma cards_of (pills : list Pill) (reminders : list PillLog) :
  let cards :=
    flat_map (fun log =>
                match find (fun p => String.eqb (pill_id p) (pillId log)) pills with
                | Some pill => [(pill, log)]
                | None => []
                end) reminders in
  map snd cards = List.filter (has_pill pills) reminders /\
  Forall (fun c => pill_id (fst c) = pillId (snd c) /\ In (fst c) pills /\
                   In (snd c) reminders) cards.
Proof.
  cbv zeta. induction reminders as [| log r [IH1 IH2]]; cbn [flat_map List.filter map].
  - split; [reflexivity | constructor].
  - pose proof (find_has_pill pills log) as Hf.
    destruct (find _ pills) as [p |].
    + destruct Hf as (H1 & H2 & H3). rewrite H1. cbn [app map snd]. split.
      * now rewrite IH1.
      * constructor; [cbn [fst snd]; split; [exact H3 | split; [exact H2 | now left]] |].
        eapply Forall_impl; [| exact IH2]. intros c (A1 & A2 & A3).
        split; [exact A1 | split; [exact A2 | now right]].
    + rewrite Hf. cbn [app]. split; [exact IH1 |].
      eapply Forall_impl; [| exact IH2]. intros c (A1 & A2 & A3).
      split; [exact A1 | split; [exact A2 | now right]].
Qed.

(** X29.  [App] draws one card for each reminder whose pill is in the
    list, in the order of the reminders, with the first pill of that id;
    a reminder of an unknown pill draws nothing, so with every log
    attached to a pill every reminder has its card.  [deletePill] removes
    exactly the cards of the deleted pill, and [updatePill] with updates
    that carry no id keeps the reminders that are drawn. *)
Theorem reminder_cards :
  forall (s : UsePills.State) (id : string) (updates : PillUpdates),
    let cards := App.reminderCards (UsePills.pills s) (UsePills.logs s) in
    let deleted := UsePills.deletePill id s in
    let updated := UsePillsCatalogue.updatePill id updates s in
    map snd cards
    = List.filter (has_pill (UsePills.pills s)) (App.pendingReminders (UsePills.logs s)) /\
    Forall (fun c => pill_id (fst c) = pillId (snd c) /\ In (fst c) (UsePills.pills s)) cards /\
    ((forall log, In log (UsePills.logs s) ->
                  exists p, In p (UsePills.pills s) /\ pill_id p = pillId log) ->
     map snd cards = App.pendingReminders (UsePills.logs s)) /\
    App.reminderCards (UsePills.pills deleted) (UsePills.logs deleted)
    = List.filter (fun c => negb (String.eqb (pillId (snd c)) id)) cards /\
    (upd_id updates = None ->
     map snd (App.reminderCards (UsePills.pills updated) (UsePills.logs updated))
     = map snd cards).
Proof.
  intros s id updates cards deleted updated.
  destruct (cards_of (UsePills.pills s) (App.pendingReminders (UsePills.logs s))) as [Hm Hf].
  cbv zeta in Hm, Hf. fold (App.reminderCards (UsePills.pills s) (UsePills.logs s)) in Hm, Hf.
  fold cards in Hm, Hf.
  split; [exact Hm |]. split; [| split; [| split]].
  - eapply Forall_impl; [| exact Hf]. intros c (A1 & A2 & _). now split.
  - intros Hint. rewrite Hm. apply filter_keep_all. intros log Hin.
    assert (Hl : In log (UsePills.logs s)).
    { eapply Permutation_in in Hin; [| apply pendingReminders_perm].
      now apply filter_In in Hin as [Hin _]. }
    destruct (Hint log Hl) as (p & Hp & E).
    unfold has_pill. apply existsb_exists. exists p. split; [exact Hp |].
    rewrite E. apply String.eqb_refl.
  - unfold deleted, UsePills.deletePill, cards, App.reminderCards.
    cbn [UsePills.pills UsePills.logs].
    assert (Hpr : App.pendingReminders
                    (List.filter (fun l => negb (String.eqb (pillId l) id)) (UsePills.logs s))
                  = List.filter (fun l => negb (String.eqb (pillId l) id))
                      (App.pendingReminders (UsePills.logs s))).
    { unfold App.pendingReminders.
      rewrite (filter_sort scheduledTime earliest_first earliest_first_key).
      f_equal. apply filter_comm. }
    rewrite Hpr. clear Hpr Hm Hf.
    induction (App.pendingReminders (UsePills.logs s)) as [| log r IH];
      cbn [List.filter flat_map]; [reflexivity |].
    rewrite List.filter_app, <- IH.
    destruct (String.eqb_spec (pillId log) id) as [E | N]; cbn [negb].
    + destruct (find _ (UsePills.pills s)); cbn [List.filter snd app]; [| reflexivity].
      destruct (String.eqb_spec (pillId log) id); [reflexivity | contradiction].
    + cbn [flat_map]. f_equal.
      rewrite find_filter.
      * destruct (find _ (UsePills.pills s)); cbn [List.filter snd]; [| reflexivity].
        destruct (String.eqb_spec (pillId log) id); [contradiction | reflexivity].
      * intros p Hp. apply String.eqb_eq in Hp. apply neq_eqb_true. congruence.
  - intros Hid. unfold updated, UsePillsCatalogue.updatePill, cards, App.reminderCards.
    cbn [UsePills.pills UsePills.logs]. clear Hm Hf.
    induction (App.pendingReminders (UsePills.logs s)) as [| log r IH];
      cbn [flat_map]; [reflexivity |].
    rewrite !map_app, IH. f_equal.
    rewrite find_map.
    + destruct (find _ (UsePills.pills s)); reflexivity.
    + intros p. destruct (String.eqb (pill_id p) id); [| reflexivity].
      unfold UsePillSchedule.merge. cbn [pill_id]. now rewrite Hid.
Qed.

Lemma reminder_cards_witness :
  map snd (App.reminderCards [aspirin; vitaminD] evening_logs)
  = App.pendingReminders evening_logs.
Proof.
  destruct (reminder_cards {| UsePills.pills := [aspirin; vitaminD];
                              UsePills.logs := evening_logs |} "pill-1" no_updates)
    as (_ & _ & H & _).
  apply H. cbn [UsePills.pills UsePills.logs].
  intros log [<- | [<- | [<- | []]]];
    [exists aspirin | exists vitaminD | exists aspirin]; (split; [simpl; auto | reflexivity]).
Defined.
